(** * pi-codex-search: the demo GIF script [scripts/make-demo-gif.py]

    A shallow embedding of the script and the properties its specification
    states about it.

    Conventions of the embedding.
    - A Python [str] is a [string]; a character is read as the code point
      U+0000..U+00FF with the same number, so [len] is [String.length].
    - A value that [json.loads] can return is a [json].
    - A Python call that can raise returns a [result]; the exceptions the
      script can meet are the constructors of [exn].
    - The file system, the installed fonts and the standard output are the
      fields of a [world]; [main] threads it explicitly. *)

From Stdlib Require Import ZArith NArith String Ascii List Bool Lia.
From stdpp Require Import base option list strings gmap.

Local Open Scope string_scope.
Local Open Scope list_scope.

(** ** Python strings *)

Module PyStr.

Definition ord (c : ascii) : N := N_of_ascii c.

(** [str.isspace] on one character (code points below 256). *)
Definition isspace (c : ascii) : bool :=
  let n := ord c in
  ((9 <=? n) && (n <=? 13) || (28 <=? n) && (n <=? 32)
   || (n =? 133) || (n =? 160))%N.

(** The line boundaries of [str.splitlines] (code points below 256). *)
Definition is_linebreak (c : ascii) : bool :=
  let n := ord c in
  ((10 <=? n) && (n <=? 13) || (28 <=? n) && (n <=? 30) || (n =? 133))%N.

(** Truth value of a string: [if s:]. *)
Definition truthy (s : string) : bool :=
  match s with
  | EmptyString => false
  | String _ _ => true
  end.

Fixpoint lstrip (s : string) : string :=
  match s with
  | EmptyString => EmptyString
  | String c s' => if isspace c then lstrip s' else s
  end.

Fixpoint rstrip (s : string) : string :=
  match s with
  | EmptyString => EmptyString
  | String c s' =>
      match rstrip s' with
      | EmptyString => if isspace c then EmptyString else String c EmptyString
      | r => String c r
      end
  end.

(** [s.strip()] *)
Definition strip (s : string) : string := lstrip (rstrip s).

(** [s.splitlines()]: no line ends are kept, CR LF counts once, and a final
    line end opens no further line. *)
Fixpoint splitlines (s : string) : list string :=
  match s with
  | EmptyString => []
  | String c s' =>
      if is_linebreak c then
        EmptyString ::
          (if (ord c =? 13)%N then
             match s' with
             | String c' s'' =>
                 if (ord c' =? 10)%N then splitlines s'' else splitlines s'
             | EmptyString => []
             end
           else splitlines s')
      else
        match splitlines s' with
        | [] => [String c EmptyString]
        | l :: ls => String c l :: ls
        end
  end.

(** [sep.join(parts)] *)
Definition join (sep : string) (parts : list string) : string :=
  String.concat sep parts.

(** The one-character string "\n". *)
Definition LF : string := String "010" EmptyString.

End PyStr.

(** ** Exceptions and results *)

Inductive exn : Type :=
| AttributeError
| TypeError
| KeyError
| IndexError
| FileNotFoundError
| FileExistsError
| UnicodeDecodeError
| RuntimeError (msg : string).

Inductive result (A : Type) : Type :=
| Ok (a : A)
| Raise (e : exn).

Arguments Ok {A} a.
Arguments Raise {A} e.

Definition bind {A B : Type} (m : result A) (k : A -> result B) : result B :=
  match m with
  | Ok a => k a
  | Raise e => Raise e
  end.

Notation "'let*' x ':=' m 'in' k" := (bind m (fun x => k))
  (at level 10, x name, m at level 100, k at level 200).

(** ** Values decoded from JSON *)

(** A Python float is kept as the decimal it was read from, [m * 10 ^ e];
    the script only ever asks whether it is zero. *)
Inductive pyfloat : Type :=
| FDec (m e : Z)
| FInf (negative : bool)
| FNaN.

#[warnings="-register-all"]
Inductive json : Type :=
| JNull
| JBool (b : bool)
| JInt (z : Z)
| JFloat (f : pyfloat)
| JStr (s : string)
| JList (l : list json)
| JDict (d : list (string * json)).

(** A [dict] keeps one value per key; lookup takes the first binding. *)
Fixpoint dict_lookup {V : Type} (d : list (string * V)) (key : string) : option V :=
  match d with
  | [] => None
  | (k, v) :: d' => if String.eqb k key then Some v else dict_lookup d' key
  end.

(** A decimal rounds to the float zero exactly when it is at most half of the
    least positive binary64 number, 2^-1074. *)
Definition float_is_zero (f : pyfloat) : bool :=
  match f with
  | FDec m e =>
      if (0 <=? e)%Z then (m =? 0)%Z
      else (Z.abs m * 2 ^ 1075 <=? 10 ^ (- e))%Z
  | FInf _ | FNaN => false
  end.

(** Truth value of a decoded value: [if not content]. *)
Definition json_truthy (v : json) : bool :=
  match v with
  | JNull => false
  | JBool b => b
  | JInt z => negb (z =? 0)%Z
  | JFloat f => negb (float_is_zero f)
  | JStr s => PyStr.truthy s
  | JList l => match l with [] => false | _ :: _ => true end
  | JDict d => match d with [] => false | _ :: _ => true end
  end.

(** [v.get(key, default)]: only a [dict] has the method. *)
Definition py_get (v : json) (key : string) (dflt : json) : result json :=
  match v with
  | JDict d => Ok (default dflt (dict_lookup d key))
  | _ => Raise AttributeError
  end.

(** [v == s] for a string [s]: values of other types are never equal to it. *)
Definition py_eq_str (v : json) (s : string) : bool :=
  match v with
  | JStr t => String.eqb t s
  | _ => false
  end.

(** [v[0]] *)
Definition py_item0 (v : json) : result json :=
  match v with
  | JList (x :: _) => Ok x
  | JList [] => Raise IndexError
  | JStr (String c _) => Ok (JStr (String c EmptyString))
  | JStr EmptyString => Raise IndexError
  | JDict _ => Raise KeyError
  | JNull | JBool _ | JInt _ | JFloat _ => Raise TypeError
  end.

(** [v.strip()]: only a [str] has the method. *)
Definition py_strip (v : json) : result string :=
  match v with
  | JStr s => Ok (PyStr.strip s)
  | _ => Raise AttributeError
  end.

(** [l[-1]] *)
Definition py_last {A : Type} (l : list A) : result A :=
  match last l with
  | Some x => Ok x
  | None => Raise IndexError
  end.

(** [l[::step]] for a positive [step]; [skip] elements are passed over
    before the next one is taken. *)
Fixpoint slice_from {A : Type} (step skip : nat) (l : list A) : list A :=
  match l with
  | [] => []
  | x :: l' =>
      match skip with
      | O => x :: slice_from step (step - 1) l'
      | S k => slice_from step k l'
      end
  end.

Definition slice_step {A : Type} (step : nat) (l : list A) : list A :=
  slice_from step 0 l.

(** ** The log reader, [load_updates] *)

(** The loop carries [updates] and [final_summary] ([None] until an end event
    sets it). *)
Record scan_state : Type := ScanState {
  updates : list string;
  final_summary : option string
}.

(** How one pass of the loop body ends: by falling through to the next
    statement or by [continue]. *)
Inductive flow : Type :=
| Next (st : scan_state)
| Continue (st : scan_state).

(** [event.get("type") == kind and event.get("toolName") == "codex_search"] *)
Definition is_tool_event (event : json) (kind : string) : result bool :=
  let* ty := py_get event "type" JNull in
  if py_eq_str ty kind then
    let* name := py_get event "toolName" JNull in
    Ok (py_eq_str name "codex_search")
  else Ok false.

(** Lines 31-37: the branch for [tool_execution_update]. *)
Definition on_update (st : scan_state) (event : json) : result flow :=
  let* hit := is_tool_event event "tool_execution_update" in
  if hit then
    let* partial := py_get event "partialResult" (JDict []) in
    let* content := py_get partial "content" (JList []) in
    if negb (json_truthy content) then Ok (Continue st)
    else
      let* item := py_item0 content in
      let* raw := py_get item "text" (JStr "") in
      let* text := py_strip raw in
      if PyStr.truthy text
         && match last (updates st) with
            | None => true
            | Some prev => negb (String.eqb prev text)
            end
      then Ok (Next (ScanState (updates st ++ [text]) (final_summary st)))
      else Ok (Next st)
  else Ok (Next st).

(** Lines 39-44: the branch for [tool_execution_end]. *)
Definition on_end (st : scan_state) (event : json) : result scan_state :=
  let* hit := is_tool_event event "tool_execution_end" in
  if hit then
    let* res := py_get event "result" (JDict []) in
    let* content := py_get res "content" (JList []) in
    if json_truthy content then
      let* item := py_item0 content in
      let* raw := py_get item "text" (JStr "") in
      let* text := py_strip raw in
      if PyStr.truthy text
      then Ok (ScanState (updates st)
                 (Some (PyStr.join PyStr.LF (take 7 (PyStr.splitlines text)))))
      else Ok st
    else Ok st
  else Ok st.

(** Lines 31-44 for one decoded event. *)
Definition on_event (st : scan_state) (event : json) : result scan_state :=
  let* fl := on_update st event in
  match fl with
  | Continue st' => Ok st'
  | Next st' => on_end st' event
  end.

(** Lines 52-57: the sampler. *)
Definition sample (updates : list string) : result (list string) :=
  if (14 <? length updates)%nat then
    let step := Nat.max 1 (length updates / 12) in
    let sampled := slice_step step updates in
    let* a := py_last sampled in
    let* b := py_last updates in
    if negb (String.eqb a b) then Ok (sampled ++ [b]) else Ok sampled
  else Ok updates.

(** Lines 46-47: the final summary, if one was captured, becomes the last
    update. *)
Definition with_summary (st : scan_state) : list string :=
  match final_summary st with
  | Some s =>
      if PyStr.truthy s then updates st ++ ["Done." +:+ PyStr.LF +:+ s]
      else updates st
  | None => updates st
  end.

(** Lines 46-59: what follows the loop. *)
Definition finish (path : string) (st : scan_state) : result (list string) :=
  let updates := with_summary st in
  match updates with
  | [] => Raise (RuntimeError ("No tool_execution_update events found in " +:+ path))
  | _ :: _ => sample updates
  end.

Section LogReader.

(** [json.loads], as far as the script sees it: the decoded value, or [None]
    where it raises [json.JSONDecodeError], the one exception the loop
    catches.  Other failures of the decoder (its recursion limit, the limit
    on the digits of an integer) are not modelled. *)
Variable json_loads : string -> option json.

(** Lines 22-44: the loop body for one raw line. *)
Definition scan_line (st : scan_state) (raw_line : string) : result scan_state :=
  let line := PyStr.strip raw_line in
  if negb (PyStr.truthy line) then Ok st
  else
    match json_loads line with
    | None => Ok st
    | Some event => on_event st event
    end.

(** Lines 21-44: the loop over the lines. *)
Fixpoint scan_lines (st : scan_state) (lines : list string) : result scan_state :=
  match lines with
  | [] => Ok st
  | raw_line :: rest =>
      let* st' := scan_line st raw_line in
      scan_lines st' rest
  end.

(** [load_updates] on the text that [path.read_text] returned. *)
Definition load_updates_text (path content : string) : result (list string) :=
  let* st := scan_lines (ScanState [] None) (PyStr.splitlines content) in
  finish path st.

End LogReader.

(** ** A decoder for JSON text

    [json.loads] is not part of the script: the script's properties are
    stated for any decoder, the [json_loads] above.  The decoder below follows
    the grammar the Python decoder accepts and serves to read concrete logs.
    It does not cover escapes above U+00FF.  Each call consumes a character,
    so the fuel below, twice the length of the text, is never used up. *)

Module Json.

Definition QUOTE : ascii := "034".
Definition BACKSLASH : ascii := "092".

Definition is_ws (c : ascii) : bool :=
  let n := PyStr.ord c in ((n =? 32) || (n =? 9) || (n =? 10) || (n =? 13))%N.

Fixpoint skip_ws (s : string) : string :=
  match s with
  | String c s' => if is_ws c then skip_ws s' else s
  | EmptyString => EmptyString
  end.

Definition is_digit (c : ascii) : bool :=
  let n := PyStr.ord c in ((48 <=? n) && (n <=? 57))%N.

Definition digit_val (c : ascii) : Z := Z.of_N (PyStr.ord c) - 48.

Definition hex_val (c : ascii) : option N :=
  let n := PyStr.ord c in
  if ((48 <=? n) && (n <=? 57))%N then Some (n - 48)%N
  else if ((97 <=? n) && (n <=? 102))%N then Some (n - 87)%N
  else if ((65 <=? n) && (n <=? 70))%N then Some (n - 55)%N
  else None.

(** The character an escape letter stands for. *)
Definition unescape (c : ascii) : option ascii :=
  if Ascii.eqb c QUOTE then Some QUOTE
  else if Ascii.eqb c BACKSLASH then Some BACKSLASH
  else if Ascii.eqb c "/" then Some "/"%char
  else if Ascii.eqb c "b" then Some "008"%char
  else if Ascii.eqb c "f" then Some "012"%char
  else if Ascii.eqb c "n" then Some "010"%char
  else if Ascii.eqb c "r" then Some "013"%char
  else if Ascii.eqb c "t" then Some "009"%char
  else None.

(** The body of a string literal, after its opening quote. *)
Fixpoint scan_string (s : string) : option (string * string) :=
  match s with
  | EmptyString => None
  | String c s' =>
      if Ascii.eqb c QUOTE then Some (EmptyString, s')
      else if Ascii.eqb c BACKSLASH then
        match s' with
        | EmptyString => None
        | String e s'' =>
            if Ascii.eqb e "u" then
              match s'' with
              | String h1 (String h2 (String h3 (String h4 rest))) =>
                  match hex_val h1, hex_val h2, hex_val h3, hex_val h4 with
                  | Some 0%N, Some 0%N, Some a, Some b =>
                      match scan_string rest with
                      | Some (body, rest') =>
                          Some (String (ascii_of_N (16 * a + b)) body, rest')
                      | None => None
                      end
                  | _, _, _, _ => None
                  end
              | _ => None
              end
            else
              match unescape e, scan_string s'' with
              | Some x, Some (body, rest') => Some (String x body, rest')
              | _, _ => None
              end
        end
      else if (PyStr.ord c <? 32)%N then None
      else
        match scan_string s' with
        | Some (body, rest') => Some (String c body, rest')
        | None => None
        end
  end.

(** A run of digits: its value after [acc], how many there were, the rest. *)
Fixpoint scan_digits (acc : Z) (count : Z) (s : string) : Z * Z * string :=
  match s with
  | String c s' =>
      if is_digit c then scan_digits (10 * acc + digit_val c) (count + 1) s'
      else (acc, count, s)
  | EmptyString => (acc, count, s)
  end.

(** The integer part: a single 0, or digits that do not start with 0. *)
Definition scan_int (s : string) : option (Z * string) :=
  match s with
  | String c s' =>
      if Ascii.eqb c "0" then Some (0%Z, s')
      else if is_digit c then
        let '(v, _, rest) := scan_digits 0 0 s in Some (v, rest)
      else None
  | EmptyString => None
  end.

(** A fraction, if a point and a digit follow: mantissa and digit count. *)
Definition scan_frac (m : Z) (s : string) : option (Z * Z * string) :=
  match s with
  | String c (String d _ as s') =>
      if Ascii.eqb c "." && is_digit d then Some (scan_digits m 0 s') else None
  | _ => None
  end.

(** An exponent, if [e], an optional sign and a digit follow. *)
Definition scan_exp (s : string) : option (Z * string) :=
  match s with
  | String c s' =>
      if Ascii.eqb c "e" || Ascii.eqb c "E" then
        match s' with
        | String sg (String d _ as s'') =>
            if (Ascii.eqb sg "+" || Ascii.eqb sg "-") && is_digit d then
              let '(v, _, rest) := scan_digits 0 0 s'' in
              Some (if Ascii.eqb sg "-" then (- v)%Z else v, rest)
            else if is_digit sg then
              let '(v, _, rest) := scan_digits 0 0 s' in Some (v, rest)
            else None
        | String d EmptyString =>
            if is_digit d then Some (digit_val d, EmptyString) else None
        | EmptyString => None
        end
      else None
  | EmptyString => None
  end.

(** A number: an [int] without fraction and exponent, else a [float]. *)
Definition scan_number (s : string) : option (json * string) :=
  let '(neg, s1) :=
    match s with
    | String c s' => if Ascii.eqb c "-" then (true, s') else (false, s)
    | EmptyString => (false, s)
    end in
  let sign (z : Z) : Z := if neg then (- z)%Z else z in
  match scan_int s1 with
  | None => None
  | Some (i, s2) =>
      match scan_frac i s2, scan_exp s2 with
      | Some (m, k, s3), _ =>
          match scan_exp s3 with
          | Some (e, s4) => Some (JFloat (FDec (sign m) (e - k)), s4)
          | None => Some (JFloat (FDec (sign m) (- k)), s3)
          end
      | None, Some (e, s3) => Some (JFloat (FDec (sign i) e), s3)
      | None, None => Some (JInt (sign i), s2)
      end
  end.

(** [rest] when [s] starts with [word]. *)
Fixpoint after (word s : string) : option string :=
  match word, s with
  | EmptyString, _ => Some s
  | String a word', String b s' => if Ascii.eqb a b then after word' s' else None
  | String _ _, EmptyString => None
  end.

(** [dict(pairs)]: a later pair replaces the value of an equal key. *)
Fixpoint dict_set (d : list (string * json)) (key : string) (v : json)
  : list (string * json) :=
  match d with
  | [] => [(key, v)]
  | (k, x) :: d' =>
      if String.eqb k key then (k, v) :: d' else (k, x) :: dict_set d' key v
  end.

Fixpoint parse_value (fuel : nat) (s : string) : option (json * string) :=
  match fuel with
  | O => None
  | S fuel' =>
      match s with
      | EmptyString => None
      | String c s' =>
          if Ascii.eqb c QUOTE then
            match scan_string s' with
            | Some (str, rest) => Some (JStr str, rest)
            | None => None
            end
          else if Ascii.eqb c "{" then
            match skip_ws s' with
            | String c' rest as s1 =>
                if Ascii.eqb c' "}" then Some (JDict [], rest)
                else parse_members fuel' [] s1
            | EmptyString => None
            end
          else if Ascii.eqb c "[" then
            match skip_ws s' with
            | String c' rest as s1 =>
                if Ascii.eqb c' "]" then Some (JList [], rest)
                else parse_elements fuel' [] s1
            | EmptyString => None
            end
          else
            match after "null" s, after "true" s, after "false" s with
            | Some rest, _, _ => Some (JNull, rest)
            | _, Some rest, _ => Some (JBool true, rest)
            | _, _, Some rest => Some (JBool false, rest)
            | None, None, None =>
                match scan_number s with
                | Some r => Some r
                | None =>
                    match after "NaN" s, after "Infinity" s, after "-Infinity" s with
                    | Some rest, _, _ => Some (JFloat FNaN, rest)
                    | _, Some rest, _ => Some (JFloat (FInf false), rest)
                    | _, _, Some rest => Some (JFloat (FInf true), rest)
                    | None, None, None => None
                    end
                end
            end
      end
  end

(** The elements of an array from the first one on; [acc] holds those read. *)
with parse_elements (fuel : nat) (acc : list json) (s : string)
  : option (json * string) :=
  match fuel with
  | O => None
  | S fuel' =>
      match parse_value fuel' s with
      | None => None
      | Some (v, rest) =>
          match skip_ws rest with
          | String c rest' =>
              if Ascii.eqb c "," then parse_elements fuel' (acc ++ [v]) (skip_ws rest')
              else if Ascii.eqb c "]" then Some (JList (acc ++ [v]), rest')
              else None
          | EmptyString => None
          end
      end
  end

(** The members of an object from the first key on. *)
with parse_members (fuel : nat) (acc : list (string * json)) (s : string)
  : option (json * string) :=
  match fuel with
  | O => None
  | S fuel' =>
      match s with
      | String q s' =>
          if Ascii.eqb q QUOTE then
            match scan_string s' with
            | None => None
            | Some (key, rest) =>
                match skip_ws rest with
                | String c rest' =>
                    if Ascii.eqb c ":" then
                      match parse_value fuel' (skip_ws rest') with
                      | None => None
                      | Some (v, rest'') =>
                          match skip_ws rest'' with
                          | String c' rest3 =>
                              if Ascii.eqb c' "," then
                                parse_members fuel' (dict_set acc key v) (skip_ws rest3)
                              else if Ascii.eqb c' "}" then
                                Some (JDict (dict_set acc key v), rest3)
                              else None
                          | EmptyString => None
                          end
                      end
                    else None
                | EmptyString => None
                end
            end
          else None
      | EmptyString => None
      end
  end.

(** [json.loads(text)]: one value, with white space around it and nothing
    else; [None] stands for [json.JSONDecodeError]. *)
Definition loads (text : string) : option json :=
  match parse_value (2 * String.length text + 2) (skip_ws text) with
  | Some (v, rest) =>
      match skip_ws rest with
      | EmptyString => Some v
      | String _ _ => None
      end
  | None => None
  end.

(** Text written with apostrophes in place of the quotation marks. *)
Fixpoint quoted (s : string) : string :=
  match s with
  | EmptyString => EmptyString
  | String c s' => String (if Ascii.eqb c "'" then QUOTE else c) (quoted s')
  end.

End Json.

(** ** The standard library's [textwrap.wrap]

    [terminal_frame] calls [textwrap.wrap(line, width=64)] with every other
    option at its default: tabs expanded, white space replaced by spaces,
    long words broken, breaks allowed after hyphens, white space dropped at
    line ends.  The definitions follow [textwrap.py] of CPython 3.11. *)

Module textwrap.

Definition HYPHEN : ascii := "-".
Definition SPACE : ascii := " ".

(** [_whitespace], the characters the wrapper treats as white space. *)
Definition is_whitespace (c : ascii) : bool :=
  let n := PyStr.ord c in ((9 <=? n) && (n <=? 13) || (n =? 32))%N.

(** The classes of the chunk pattern (code points below 256): digits,
    word characters, letters (word characters that are no digits), and word
    characters with the punctuation marks ! & . , ? and both quotes. *)
Definition is_digit (c : ascii) : bool :=
  let n := PyStr.ord c in ((48 <=? n) && (n <=? 57))%N.

Definition is_word (c : ascii) : bool :=
  let n := PyStr.ord c in
  (is_digit c
   || (65 <=? n) && (n <=? 90) || (n =? 95) || (97 <=? n) && (n <=? 122)
   || (n =? 170) || (n =? 178) || (n =? 179) || (n =? 181) || (n =? 185)
   || (n =? 186) || (188 <=? n) && (n <=? 190)
   || (192 <=? n) && (n <=? 214) || (216 <=? n) && (n <=? 246)
   || (248 <=? n))%N.

Definition is_letter (c : ascii) : bool := is_word c && negb (is_digit c).

Definition is_word_punct (c : ascii) : bool :=
  let n := PyStr.ord c in
  (is_word c || (n =? 33) || (n =? 34) || (n =? 39) || (n =? 38)
   || (n =? 46) || (n =? 44) || (n =? 63))%N.

Fixpoint spaces (n : nat) : string :=
  match n with
  | O => EmptyString
  | S n' => String SPACE (spaces n')
  end.

(** [text.expandtabs(8)], from column [col]. *)
Fixpoint expandtabs (col : nat) (text : string) : string :=
  match text with
  | EmptyString => EmptyString
  | String c text' =>
      if (PyStr.ord c =? 9)%N then
        let incr := 8 - col mod 8 in
        spaces incr +:+ expandtabs (col + incr) text'
      else if (PyStr.ord c =? 10)%N || (PyStr.ord c =? 13)%N then
        String c (expandtabs 0 text')
      else String c (expandtabs (col + 1) text')
  end.

(** [text.translate(unicode_whitespace_trans)] *)
Fixpoint translate (text : string) : string :=
  match text with
  | EmptyString => EmptyString
  | String c text' =>
      String (if is_whitespace c then SPACE else c) (translate text')
  end.

Definition _munge_whitespace (text : string) : string :=
  translate (expandtabs 0 text).

(** What the pattern [wordsep_re] is matching when it reaches a character. *)
Inductive mode : Type :=
| Start      (* no chunk is open *)
| InSpace    (* a run of white space *)
| InDashes   (* a run of two or more hyphens between words *)
| InWord.    (* a word, one character or more of it read *)

(** [-{2,}\w] at the head of [s]. *)
Fixpoint dashes_then_word (seen : nat) (s : string) : bool :=
  match s with
  | EmptyString => false
  | String c s' =>
      if Ascii.eqb c HYPHEN then dashes_then_word (S seen) s'
      else (2 <=? seen)%nat && is_word c
  end.

(** [(?= letter -? letter)] at the head of [s]. *)
Definition letter_hyphen_letter (s : string) : bool :=
  match s with
  | String a (String b rest) =>
      is_letter a
      && (is_letter b
          || Ascii.eqb b HYPHEN
             && match rest with
                | String c _ => is_letter c
                | EmptyString => false
                end)
  | _ => false
  end.

Definition holds (p : ascii -> bool) (o : option ascii) : bool :=
  match o with
  | Some c => p c
  | None => false
  end.

(** The mode of a chunk that opens at [c], the head of [s]. *)
Definition fresh (b1 : option ascii) (c : ascii) (s : string) : mode :=
  if is_whitespace c then InSpace
  else if holds is_word_punct b1 && dashes_then_word 0 s then InDashes
  else InWord.

(** Reading [c], with [s'] after it and [b1], [b2], [b3] before it (the
    nearest first): whether a chunk opens at [c], and the mode after [c]. *)
Definition advance (m : mode) (b3 b2 b1 : option ascii) (c : ascii) (s' : string)
  : bool * mode :=
  let s := String c s' in
  match m with
  | Start => (true, fresh b1 c s)
  | InSpace => if is_whitespace c then (false, InSpace) else (true, fresh b1 c s)
  | InDashes => if Ascii.eqb c HYPHEN then (false, InDashes) else (true, fresh b1 c s)
  | InWord =>
      if Ascii.eqb c HYPHEN
         && (holds is_letter b2 && holds is_letter b1
             || holds is_letter b3 && holds (Ascii.eqb HYPHEN) b2
                && holds is_letter b1)
         && letter_hyphen_letter s'
      then (false, Start)
      else if is_whitespace c then (true, fresh b1 c s)
      else if holds is_word_punct b1 && dashes_then_word 0 s then (true, fresh b1 c s)
      else (false, InWord)
  end.

(** The chunks of [s], read from left to right: the characters left of the
    chunk open at [s], and the chunks after it. *)
Fixpoint split_from (m : mode) (b3 b2 b1 : option ascii) (s : string)
  : string * list string :=
  match s with
  | EmptyString => (EmptyString, [])
  | String c s' =>
      let '(opens, m') := advance m b3 b2 b1 c s' in
      let '(cur, later) := split_from m' b2 b1 (Some c) s' in
      if opens then (EmptyString, String c cur :: later)
      else (String c cur, later)
  end.

(** [_split]: the chunks of the pattern, the empty ones left out. *)
Definition _split (text : string) : list string :=
  snd (split_from Start None None None text).

Definition blank (chunk : string) : bool := negb (PyStr.truthy (PyStr.strip chunk)).

(** [chunk[:n]] and [chunk[n:]] *)
Fixpoint prefix (n : nat) (s : string) : string :=
  match n, s with
  | S n', String c s' => String c (prefix n' s')
  | _, _ => EmptyString
  end.

Fixpoint suffix (n : nat) (s : string) : string :=
  match n, s with
  | S n', String _ s' => suffix n' s'
  | _, _ => s
  end.

(** [chunk.rfind('-', 0, limit)], counted from [i]. *)
Fixpoint rfind_hyphen (i limit : nat) (s : string) : option nat :=
  match limit, s with
  | S limit', String c s' =>
      match rfind_hyphen (S i) limit' s' with
      | Some j => Some j
      | None => if Ascii.eqb c HYPHEN then Some i else None
      end
  | _, _ => None
  end.

(** [any(c != '-' for c in s)] *)
Fixpoint any_not_hyphen (s : string) : bool :=
  match s with
  | EmptyString => false
  | String c s' => negb (Ascii.eqb c HYPHEN) || any_not_hyphen s'
  end.

(** The inner loop of [_wrap_chunks]: move chunks to the line while they
    fit. *)
Fixpoint fill (width : nat) (cur_line : list string) (cur_len : nat)
  (chunks : list string) : list string * nat * list string :=
  match chunks with
  | [] => (cur_line, cur_len, [])
  | chunk :: rest =>
      let l := String.length chunk in
      if (cur_len + l <=? width)%nat
      then fill width (cur_line ++ [chunk]) (cur_len + l) rest
      else (cur_line, cur_len, chunks)
  end.

(** [_handle_long_word] with [break_long_words] and [break_on_hyphens] set:
    the piece put on the line and what stays of the chunk. *)
Definition _handle_long_word (chunk : string) (cur_len width : nat)
  : string * string :=
  let space_left := if (width <? 1)%nat then 1 else width - cur_len in
  let stop :=
    if (space_left <? String.length chunk)%nat then
      match rfind_hyphen 0 space_left chunk with
      | Some hyphen =>
          if (0 <? hyphen)%nat && any_not_hyphen (prefix hyphen chunk)
          then hyphen + 1 else space_left
      | None => space_left
      end
    else space_left in
  (prefix stop chunk, suffix stop chunk).

(** One pass of the outer loop of [_wrap_chunks], for chunks that are not
    used up: the line it adds, if any, and the chunks left. *)
Definition wrap_pass (width : nat) (started : bool) (chunks : list string)
  : option string * list string :=
  let chunks1 :=
    match chunks with
    | chunk :: rest => if blank chunk && started then rest else chunks
    | [] => []
    end in
  let '(cur_line, cur_len, chunks2) := fill width [] 0 chunks1 in
  let '(cur_line1, chunks3) :=
    match chunks2 with
    | chunk :: rest =>
        if (width <? String.length chunk)%nat then
          let '(piece, remainder) := _handle_long_word chunk cur_len width in
          (cur_line ++ [piece], remainder :: rest)
        else (cur_line, chunks2)
    | [] => (cur_line, chunks2)
    end in
  let cur_line2 :=
    match last cur_line1 with
    | Some chunk => if blank chunk then removelast cur_line1 else cur_line1
    | None => cur_line1
    end in
  (match cur_line2 with
   | [] => None
   | _ :: _ => Some (String.concat EmptyString cur_line2)
   end, chunks3).

(** The outer loop of [_wrap_chunks]; [fuel] bounds the number of passes. *)
Fixpoint wrap_loop (fuel width : nat) (lines chunks : list string)
  : option (list string) :=
  match chunks with
  | [] => Some lines
  | _ :: _ =>
      match fuel with
      | O => None
      | S fuel' =>
          let '(line, chunks') :=
            wrap_pass width (match lines with [] => false | _ => true end) chunks in
          wrap_loop fuel' width
            (match line with Some l => lines ++ [l] | None => lines end) chunks'
      end
  end.

(** Every pass takes a chunk or a character away, so this many passes are
    enough (lemma [wrap_loop_spec]). *)
Fixpoint weight (chunks : list string) : nat :=
  match chunks with
  | [] => O
  | chunk :: rest => S (String.length chunk) + weight rest
  end.

(** [_wrap_chunks] for a positive [width]. *)
Definition _wrap_chunks (width : nat) (chunks : list string) : list string :=
  default [] (wrap_loop (weight chunks) width [] chunks).

(** [textwrap.wrap(text, width)] for a positive [width]. *)
Definition wrap (text : string) (width : nat) : list string :=
  _wrap_chunks width (_split (_munge_whitespace text)).

End textwrap.

(** ** The frame renderer, [terminal_frame]

    An image is the canvas it was created with and the drawing calls made on
    it, in order; pixels are the imaging library's business. *)

Definition rgb : Type := Z * Z * Z.

Inductive font : Type :=
| TrueType (name : string) (size : Z)
| DefaultFont.

Inductive draw_call : Type :=
| RoundedRectangle (xy : Z * Z * Z * Z) (radius : Z) (fill outline : rgb) (width : Z)
| Rectangle (xy : Z * Z * Z * Z) (fill : rgb)
| Text (xy : Z * Z) (text : string) (fill : rgb) (f : font).

Record image : Type := Image {
  image_mode : string;
  image_size : Z * Z;
  image_color : rgb;
  image_calls : list draw_call
}.

Definition WIDTH : Z := 980.
Definition HEIGHT : Z := 560.
Definition MARGIN : Z := 28.

(** [xs or [""]] *)
Definition or_blank (xs : list string) : list string :=
  match xs with
  | [] => [EmptyString]
  | _ :: _ => xs
  end.

(** Lines 76-79: the lines to draw for [text]. *)
Definition wrapped_lines (text : string) : list string :=
  flat_map (fun line => or_blank (textwrap.wrap line 64))
           (or_blank (PyStr.splitlines text)).

(** Lines 81-85: one call per line, until [y] passes [HEIGHT - 36]. *)
Fixpoint draw_lines (y : Z) (lines : list string) (f : font) : list draw_call :=
  match lines with
  | [] => []
  | line :: rest =>
      if (y >? HEIGHT - 36)%Z then []
      else Text (MARGIN, y) line (201, 255, 191)%Z f :: draw_lines (y + 24) rest f
  end.

Definition terminal_frame (text : string) (f : font) : image :=
  let y := 60%Z in
  let prompt := Json.quoted "$ pi 'Use codex_search ...'" in
  Image "RGB" (WIDTH, HEIGHT) (12, 14, 18)%Z
    ([ RoundedRectangle (10, 10, WIDTH - 10, HEIGHT - 10)%Z 12 (19, 22, 28)%Z
         (46, 51, 63)%Z 2;
       Rectangle (12, 12, WIDTH - 12, 44)%Z (33, 37, 45)%Z;
       Text (24, 20)%Z "pi-codex-search demo" (200, 210, 226)%Z f;
       Text (MARGIN, y) prompt (140, 214, 255)%Z f ]
     ++ draw_lines (y + 32) (wrapped_lines text) f).

(** ** The file system and [main] *)

(** A path is the list of its components below the root directory. *)
Definition path : Type := list string.

(** [str(p)], as the f-strings print a path. *)
Definition path_str (p : path) : string := "/" +:+ PyStr.join "/" p.

(** What [Image.save] is given: the frames, first one first, and the keyword
    arguments [duration], [loop] and [optimize]. *)
Record animation : Type := Animation {
  frames : list image;
  duration : list Z;
  loop : Z;
  optimize : bool
}.

Inductive file : Type :=
| TextFile (content : string)
| ImageFile (a : animation).

Record world : Type := World {
  files : gmap path file;
  dirs : gset path;
  truetype_fonts : gset string;
  stdout : list string
}.

(** [p.read_text(encoding="utf-8")] *)
Definition read_text (w : world) (p : path) : result string :=
  match files w !! p with
  | Some (TextFile content) => Ok content
  | Some (ImageFile _) => Raise UnicodeDecodeError
  | None => Raise FileNotFoundError
  end.

(** [p.mkdir(parents=True, exist_ok=True)]: [p] and the directories above
    it exist afterwards, unless a file is in the way. *)
Definition mkdir (w : world) (p : path) : world * result unit :=
  let above := map (fun n => take n p) (seq 1 (length p)) in
  if forallb (fun q => bool_decide (files w !! q = None)) above
  then (World (files w) (list_to_set above ∪ dirs w) (truetype_fonts w) (stdout w),
        Ok tt)
  else (w, Raise FileExistsError).

(** [ImageFont.truetype(name, size)], with the fallback of lines 95-98. *)
Definition load_font (w : world) : font :=
  if bool_decide ("DejaVuSansMono.ttf" ∈ truetype_fonts w)
  then TrueType "DejaVuSansMono.ttf" 18
  else DefaultFont.

(** [l[i] = x], where a negative [i] counts from the end. *)
Definition py_setitem {A : Type} (l : list A) (i : Z) (x : A) : result (list A) :=
  let n := Z.of_nat (length l) in
  let j := if (i <? 0)%Z then (i + n)%Z else i in
  if (0 <=? j)%Z && (j <? n)%Z then Ok (<[Z.to_nat j := x]> l)
  else Raise IndexError.

(** Lines 102-104: the hold time of each frame. *)
Definition durations (n : nat) : result (list Z) :=
  let d := replicate n 520%Z in
  let* d := py_setitem d 0 900%Z in
  py_setitem d (-1) 1700%Z.

(** Lines 106-113: [frames[0].save(OUT_PATH, save_all=True,
    append_images=frames[1:], ...)]. *)
Definition save (w : world) (out : path) (fs : list image) (ds : list Z)
  : world * result unit :=
  match fs with
  | [] => (w, Raise IndexError)
  | first :: others =>
      if bool_decide (removelast out ∈ dirs w) then
        (World (<[out := ImageFile (Animation (first :: others) ds 0 true)]> (files w))
           (dirs w) (truetype_fonts w) (stdout w), Ok tt)
      else (w, Raise FileNotFoundError)
  end.

Definition print (w : world) (line : string) : world :=
  World (files w) (dirs w) (truetype_fonts w) (stdout w ++ [line]).

Section Script.

Variable json_loads : string -> option json.

(** The directory above [scripts/], where the script lies. *)
Variable ROOT : path.

Definition LOG_PATH : path :=
  ROOT ++ [".agents"; "scratchpad"; "pi-codex-search";
           "2026-02-21-live-progress-counters"; "logs"; "smoke-local.jsonl"].

Definition OUT_PATH : path := ROOT ++ ["demos"; "codex-search-progress.gif"].

Definition load_updates (w : world) (p : path) : result (list string) :=
  let* content := read_text w p in
  load_updates_text json_loads (path_str p) content.

(** Lines 100-113: the assembler, from the updates to the saved animation. *)
Definition assemble (w : world) (updates : list string) : world * result unit :=
  let f := load_font w in
  let fs := map (fun update => terminal_frame update f) updates in
  match durations (length fs) with
  | Raise e => (w, Raise e)
  | Ok ds => save w OUT_PATH fs ds
  end.

Definition main (w : world) : world * result unit :=
  match mkdir w (removelast OUT_PATH) with
  | (w1, Raise e) => (w1, Raise e)
  | (w1, Ok _) =>
      match load_updates w1 LOG_PATH with
      | Raise e => (w1, Raise e)
      | Ok updates =>
          match assemble w1 updates with
          | (w2, Raise e) => (w2, Raise e)
          | (w2, Ok _) => (print w2 ("wrote " +:+ path_str OUT_PATH), Ok tt)
          end
      end
  end.

End Script.

(** ** The events of a log, as the specification reads them

    The definitions of this part follow the words of the specification
    (sections 4.1 and 6), not the script; the properties relate the two. *)

(** The value of a field of an object. *)
Definition field (v : json) (key : string) : option json :=
  match v with
  | JDict d => dict_lookup d key
  | _ => None
  end.

(** An event of [kind] for the target tool. *)
Definition is_kind (event : json) (kind : string) : bool :=
  match field event "type", field event "toolName" with
  | Some ty, Some name => py_eq_str ty kind && py_eq_str name "codex_search"
  | _, _ => false
  end.

(** The text of the first content item under [payload], when the payload is
    an object, its content a list that starts with an object, and the text
    of that object a string. *)
Definition content_text (event : json) (payload : string) : option string :=
  match field event payload with
  | Some p =>
      match field p "content" with
      | Some (JList (item :: _)) =>
          match field item "text" with
          | Some (JStr s) => Some s
          | _ => None
          end
      | _ => None
      end
  | None => None
  end.

(** The trimmed text of an event of [kind], when it is not empty. *)
Definition trimmed_text (event : json) (kind payload : string) : option string :=
  if is_kind event kind then
    match content_text event payload with
    | Some s =>
        if PyStr.truthy (PyStr.strip s) then Some (PyStr.strip s) else None
    | None => None
    end
  else None.

Definition update_text (event : json) : option string :=
  trimmed_text event "tool_execution_update" "partialResult".

Definition end_text (event : json) : option string :=
  trimmed_text event "tool_execution_end" "result".

(** The payload of an event is typed as the schema has it, wherever it is
    present: an object, whose content is empty or a list that starts with an
    object, whose text is a string. *)
Definition payload_typed (event : json) (payload : string) : bool :=
  match field event payload with
  | None => true
  | Some (JDict p) =>
      match dict_lookup p "content" with
      | None => true
      | Some c =>
          negb (json_truthy c)
          || match c with
             | JList (JDict item :: _) =>
                 match dict_lookup item "text" with
                 | None | Some (JStr _) => true
                 | Some _ => false
                 end
             | _ => false
             end
      end
  | Some _ => false
  end.

(** A well-formed event: a JSON object; an event of one of the two kinds for
    the target tool has a typed payload. *)
Definition well_formed_event (event : json) : bool :=
  match event with
  | JDict _ =>
      (negb (is_kind event "tool_execution_update")
       || payload_typed event "partialResult")
      && (negb (is_kind event "tool_execution_end")
          || payload_typed event "result")
  | _ => false
  end.

(** The nested fields under [payload] are missing or empty, in the widest
    sense of the words of section 4.1: the text of the first content item
    is not there, whatever is in its place on the way to it, or it is empty
    once trimmed. *)
Definition no_content (event : json) (payload : string) : bool :=
  match content_text event payload with
  | Some s => negb (PyStr.truthy (PyStr.strip s))
  | None => true
  end.

(** The narrower sense: a key on the way to the text is absent, the content
    is empty, or the text is empty once trimmed, and what is present has the
    type of the schema.  A payload, a first content item or a text that is
    [null] is missing in the wide sense only. *)
Definition lacks_content (event : json) (payload : string) : bool :=
  match field event payload with
  | None => true
  | Some (JDict p) =>
      match dict_lookup p "content" with
      | None => true
      | Some c =>
          negb (json_truthy c)
          || match c with
             | JList (JDict item :: _) =>
                 match dict_lookup item "text" with
                 | None => true
                 | Some (JStr s) => negb (PyStr.truthy (PyStr.strip s))
                 | Some _ => false
                 end
             | _ => false
             end
      end
  | Some _ => false
  end.

(** An event of one of the two kinds whose nested fields are missing or
    empty. *)
Definition without_content (event : json) : bool :=
  is_kind event "tool_execution_update" && lacks_content event "partialResult"
  || is_kind event "tool_execution_end" && lacks_content event "result".

(** What an event does to the state, in the words of section 4.1: an update
    text is appended unless it equals the last recorded update; the first 7
    lines of an end text become the candidate final summary. *)
Definition record_event (st : scan_state) (event : json) : scan_state :=
  match update_text event, end_text event with
  | Some t, _ =>
      if bool_decide (last (updates st) = Some t) then st
      else ScanState (updates st ++ [t]) (final_summary st)
  | None, Some t =>
      ScanState (updates st)
        (Some (PyStr.join PyStr.LF (take 7 (PyStr.splitlines t))))
  | None, None => st
  end.

(** The loop of lines 21-44 over events that are already decoded. *)
Fixpoint scan_events (st : scan_state) (evs : list json) : result scan_state :=
  match evs with
  | [] => Ok st
  | event :: rest =>
      let* st' := on_event st event in
      scan_events st' rest
  end.

(** The update a captured final summary is appended as. *)
Definition done_entry (trimmed : string) : string :=
  "Done." +:+ PyStr.LF +:+ PyStr.join PyStr.LF (take 7 (PyStr.splitlines trimmed)).

(** An event of [kind] for the target tool whose first content item has the
    text [text]. *)
Definition event_with_text (event : json) (kind payload text : string) : Prop :=
  is_kind event kind = true /\ content_text event payload = Some text.

(** No two adjacent elements are equal. *)
Definition adjacent_distinct (l : list string) : Prop :=
  forall (i : nat) (x y : string), l !! i = Some x -> l !! S i = Some y -> x <> y.

Section Reading.

Variable json_loads : string -> option json.

(** The event of a line: none for an empty line and for one that does not
    parse. *)
Definition decode (raw_line : string) : option json :=
  let line := PyStr.strip raw_line in
  if PyStr.truthy line then json_loads line else None.

Definition events (content : string) : list json :=
  omap decode (PyStr.splitlines content).

(** A line that is empty, fails to parse, or holds an event whose nested
    fields are missing or empty. *)
Definition skipped (raw_line : string) : bool :=
  match decode raw_line with
  | None => true
  | Some event => without_content event
  end.

End Reading.

(** ** Words of a line *)

(** Every character of [s] satisfies [p]. *)
Fixpoint all_chars (p : ascii -> bool) (s : string) : bool :=
  match s with
  | EmptyString => true
  | String c s' => p c && all_chars p s'
  end.

(** [s] starts with a character that is no white space. *)
Definition starts_word (s : string) : bool :=
  match s with
  | String c _ => negb (PyStr.isspace c)
  | EmptyString => false
  end.

(** [s.split()]: the maximal runs of characters that are no white space. *)
Fixpoint words (s : string) : list string :=
  match s with
  | EmptyString => []
  | String c s' =>
      if PyStr.isspace c then words s'
      else if starts_word s' then
        match words s' with
        | w :: ws => String c w :: ws
        | [] => [String c EmptyString]
        end
      else String c EmptyString :: words s'
  end.

(** The line has no hyphen. *)
Definition no_hyphen (line : string) : bool :=
  all_chars (fun c => negb (Ascii.eqb c textwrap.HYPHEN)) line.

(** The white space of the line is white space for the wrapper too: the
    line has none of the separators U+001C to U+001F, U+0085 and U+00A0. *)
Definition plain_space (line : string) : bool :=
  all_chars (fun c => negb (PyStr.isspace c) || textwrap.is_whitespace c) line.

(** [sum(map(len, chunks))] *)
Fixpoint total (chunks : list string) : nat :=
  match chunks with
  | [] => 0
  | chunk :: rest => String.length chunk + total rest
  end.

(** [n] times the character [c]. *)
Fixpoint repeat_char (c : ascii) (n : nat) : string :=
  match n with
  | O => EmptyString
  | S n' => String c (repeat_char c n')
  end.

(** A drawing call writes at most [n] characters. *)
Definition text_fits (n : nat) (call : draw_call) : Prop :=
  match call with
  | Text _ text _ _ => String.length text <= n
  | _ => True
  end.

(** A chunk of white space, and a chunk of a word. *)
Definition space_chunk (chunk : string) : bool := all_chars PyStr.isspace chunk.

Definition word_chunk (chunk : string) : bool :=
  starts_word chunk && all_chars (fun c => negb (PyStr.isspace c)) chunk.

(** No chunk follows, or one of white space that is not empty. *)
Definition space_next (chunks : list string) : bool :=
  match chunks with
  | [] => true
  | chunk :: _ => PyStr.truthy chunk && space_chunk chunk
  end.

(** Chunks of white space and chunks of words, where white space follows
    every word that is not the last chunk. *)
Fixpoint separated (chunks : list string) : bool :=
  match chunks with
  | [] => true
  | chunk :: rest =>
      (space_chunk chunk || word_chunk chunk && space_next rest) && separated rest
  end.

(** ** Concrete logs *)

Module Demo.

Definition ROOT : path := ["home"; "pi-codex-search"].

Definition update_line (text : string) : string :=
  Json.quoted
    "{'type':'tool_execution_update','toolName':'codex_search','partialResult':{'content':[{'text':'"
  +:+ text +:+ Json.quoted "'}]}}".

Definition end_line (text : string) : string :=
  Json.quoted
    "{'type':'tool_execution_end','toolName':'codex_search','result':{'content':[{'text':'"
  +:+ text +:+ Json.quoted "'}]}}".

(** The events these lines decode to. *)
Definition update_event (text : string) : json :=
  JDict [ ("type", JStr "tool_execution_update");
          ("toolName", JStr "codex_search");
          ("partialResult", JDict [("content", JList [JDict [("text", JStr text)]])]) ].

Definition end_event (text : string) : json :=
  JDict [ ("type", JStr "tool_execution_end");
          ("toolName", JStr "codex_search");
          ("result", JDict [("content", JList [JDict [("text", JStr text)]])]) ].

(** A log file: every line ends with a line feed. *)
Definition log (lines : list string) : string :=
  String.concat EmptyString (map (fun l => l +:+ PyStr.LF) lines).

(** A world that holds a log at [LOG_PATH] and nothing else. *)
Definition world_of (content : string) : world :=
  World {[ LOG_PATH ROOT := TextFile content ]} ∅ ∅ [].

(** The scenario of section 8: three updates, the third a repetition of the
    second, then an end event whose text has two lines. *)
Definition scenario_log : string :=
  log [ update_line "searching...";
        update_line "searching... (2 files)";
        update_line "searching... (2 files)";
        end_line "found 1 match\nin file.py" ].

(** An update that reads like the closing entry, then the end event. *)
Definition echo_log : string :=
  log [ update_line "Done.\nok"; end_line "ok" ].

(** 24 updates that alternate between two texts. *)
Definition alternating_log : string :=
  log (concat (replicate 12 [update_line "reading"; update_line "searching"])).

(** Blank lines and one event of another type. *)
Definition idle_log : string :=
  log [ ""; Json.quoted "{'type':'turn_start','toolName':'codex_search'}"; "   " ].

(** Two end events and no update. *)
Definition end_only_log : string :=
  log [ end_line "first"; ""; end_line " 1\n2\n3\n4\n5\n6\n7\n8\n9 " ].

(** A log with lines of every kind that is passed over, and the same log
    without them. *)
Definition noisy_log : string :=
  log [ "";
        update_line "searching...";
        "not json";
        Json.quoted "{'type':'tool_execution_update','toolName':'codex_search'}";
        Json.quoted "{'type':'tool_execution_update','toolName':'codex_search','partialResult':{'content':[]}}";
        Json.quoted "{'type':'tool_execution_end','toolName':'codex_search','result':{'content':[{'kind':'text'}]}}";
        Json.quoted "{'type':'tool_execution_end','toolName':'codex_search','result':{'content':[{'text':'  '}]}}";
        end_line "found it" ].

Definition quiet_log : string :=
  log [ update_line "searching..."; end_line "found it" ].

(** A line of 89 characters, and lines the wrapper treats in its own way:
    a word of 65 characters, a word and 70 spaces, and a hyphenated word at
    the end of 64 characters. *)
Definition long_line : string :=
  "searching the repository for every file that mentions codex_search and counting the matches".

Definition long_word : string := repeat_char "a" 65.

Definition trailing_space : string := "a" +:+ repeat_char " " 70.

Definition hyphenated : string := repeat_char "x" 59 +:+ " foo-bar".

(** A world with the directory of the output and no file. *)
Definition empty_world : world :=
  World ∅ {[ ROOT ++ ["demos"] ]} ∅ [].

(** Events of the tool whose payload is [null], and their lines. *)
Definition null_update_line : string :=
  Json.quoted
    "{'type':'tool_execution_update','toolName':'codex_search','partialResult':null}".

Definition null_end_line : string :=
  Json.quoted "{'type':'tool_execution_end','toolName':'codex_search','result':null}".

Definition null_update_event : json :=
  JDict [ ("type", JStr "tool_execution_update");
          ("toolName", JStr "codex_search");
          ("partialResult", JNull) ].

Definition null_end_event : json :=
  JDict [ ("type", JStr "tool_execution_end");
          ("toolName", JStr "codex_search");
          ("result", JNull) ].

(** One update without a payload; a summary and then such an update; an
    end event without a payload and then a summary; an update and then an
    update without a payload, and that log without its second line. *)
Definition null_update_log : string := log [ null_update_line ].

Definition summary_then_null_log : string := log [ end_line "fin"; null_update_line ].

Definition null_end_log : string := log [ null_end_line; end_line "fin" ].

Definition null_noisy_log : string := log [ update_line "searching..."; null_update_line ].

Definition one_update_log : string := log [ update_line "searching..." ].

End Demo.

(** ** Further definitions for the properties of the script *)

(** The exceptions a value of the wrong type makes the loop body raise. *)
Definition is_type_fault (e : exn) : bool :=
  match e with
  | AttributeError | TypeError | KeyError => true
  | _ => false
  end.

(** An object that is no event of the two kinds for the target tool. *)
Definition other_event (event : json) : bool :=
  match event with
  | JDict _ =>
      negb (is_kind event "tool_execution_update")
      && negb (is_kind event "tool_execution_end")
  | _ => false
  end.

(** The characters of [s] that are no white space. *)
Fixpoint visible (s : string) : string :=
  match s with
  | EmptyString => EmptyString
  | String c s' => if PyStr.isspace c then visible s' else String c (visible s')
  end.



(** No path is a file and a directory. *)
Definition files_apart (w : world) : Prop :=
  forall q : path, q ∈ dirs w -> files w !! q = None.

(** The call that draws line [i] of the body of a frame. *)
Definition body_call (f : font) (i : nat) (line : string) : draw_call :=
  Text (MARGIN, 92 + 24 * Z.of_nat i)%Z line (201, 255, 191)%Z f.

Module Samples.

(** A log with a line that is JSON and no object. *)
Definition faulty_log : string :=
  Demo.log [ Demo.update_line "searching..."; "5"; Demo.end_line "found it" ].

(** 30 updates with distinct texts. *)
Definition numbered (n : nat) : list string :=
  map (fun i => repeat_char "x" (S i)) (seq 0 n).

Definition numbered_log : string :=
  Demo.log (map Demo.update_line (numbered 30)).

(** The log of the scenario with events of another tool and another type
    between its lines. *)
Definition mixed_log : string :=
  Demo.log
    [ Json.quoted "{'type':'tool_execution_update','toolName':'grep','partialResult':5}";
      Demo.update_line "searching...";
      Json.quoted "{'type':'turn_start'}";
      Demo.end_line "found it";
      Json.quoted "{'type':'tool_execution_end','toolName':'read','result':null}" ].

End Samples.

(** * Properties *)

(** ** Strings *)

Lemma linebreak_isspace (c : ascii) :
  PyStr.is_linebreak c = true -> PyStr.isspace c = true.
Proof.
  destruct c as [[] [] [] [] [] [] [] []]; vm_compute; congruence.
Qed.

Lemma lstrip_head (s : string) (c : ascii) (r : string) :
  PyStr.lstrip s = String c r -> PyStr.isspace c = false.
Proof.
  induction s as [|a s IH]; simpl; [discriminate|].
  destruct (PyStr.isspace a) eqn:Ha; [exact IH|].
  intros [= -> _]. exact Ha.
Qed.

Lemma strip_head (s : string) (c : ascii) (r : string) :
  PyStr.strip s = String c r -> PyStr.isspace c = false.
Proof. apply lstrip_head. Qed.

(** A text that starts with a character that ends no line has a first line,
    and the line starts with that character. *)
Lemma splitlines_head (c : ascii) (r : string) :
  PyStr.is_linebreak c = false ->
  exists l ls, PyStr.splitlines (String c r) = String c l :: ls.
Proof.
  intros Hc. simpl. rewrite Hc.
  destruct (PyStr.splitlines r) as [|l ls]; eauto.
Qed.

Lemma join_head (sep : string) (c : ascii) (l : string) (ls : list string) :
  exists r, PyStr.join sep (String c l :: ls) = String c r.
Proof.
  unfold PyStr.join. destruct ls as [|x ls]; simpl; eauto.
Qed.

(** The summary kept for a stripped, non-empty text is itself non-empty. *)
Lemma summary_truthy (raw : string) :
  PyStr.truthy (PyStr.strip raw) = true ->
  PyStr.truthy
    (PyStr.join PyStr.LF (take 7 (PyStr.splitlines (PyStr.strip raw)))) = true.
Proof.
  destruct (PyStr.strip raw) as [|c r] eqn:E; [discriminate|]. intros _.
  assert (Hc : PyStr.is_linebreak c = false).
  { destruct (PyStr.is_linebreak c) eqn:Hb; [|reflexivity].
    apply linebreak_isspace in Hb. apply strip_head in E. congruence. }
  destruct (splitlines_head c r Hc) as (l & ls & ->).
  change (take 7 (String c l :: ls)) with (String c l :: take 6 ls).
  destruct (join_head PyStr.LF c l (take 6 ls)) as [r' ->]. reflexivity.
Qed.

(** ** The sampler *)

Section Slices.

Context {A : Type}.

Lemma slice_from_sublist (step skip : nat) (l : list A) :
  slice_from step skip l `sublist_of` l.
Proof.
  revert skip. induction l as [|x l IH]; intros skip; simpl.
  - constructor.
  - destruct skip; [apply sublist_skip | apply sublist_cons]; apply IH.
Qed.

(** Appending an element leaves a slice as it was or adds the element. *)
Lemma slice_from_snoc (step skip : nat) (l : list A) (b : A) :
  slice_from step skip (l ++ [b]) = slice_from step skip l
  \/ slice_from step skip (l ++ [b]) = slice_from step skip l ++ [b].
Proof.
  revert skip. induction l as [|x l IH]; intros skip; simpl.
  - destruct skip; auto.
  - destruct skip.
    + destruct (IH (step - 1)) as [-> | ->]; auto.
    + apply IH.
Qed.

Lemma slice_step_head (step : nat) (x : A) (l : list A) :
  slice_step step (x :: l) = x :: slice_from step (step - 1) l.
Proof. reflexivity. Qed.

End Slices.

Lemma py_last_snoc {A : Type} (l : list A) (x : A) : py_last (l ++ [x]) = Ok x.
Proof. unfold py_last. rewrite last_snoc. reflexivity. Qed.

Lemma py_last_cons {A : Type} (x : A) (l : list A) :
  exists y, py_last (x :: l) = Ok y /\ last (x :: l) = Some y.
Proof.
  unfold py_last. destruct (last (x :: l)) as [y|] eqn:E; [eauto|].
  apply last_None in E. discriminate.
Qed.

(** What [sample] returns for a sequence that is not empty. *)
Lemma sample_spec (updates : list string) :
  updates <> [] ->
  exists sampled,
    sample updates = Ok sampled
    /\ sampled `sublist_of` updates
    /\ head sampled = head updates
    /\ last sampled = last updates.
Proof.
  intros Hne. unfold sample.
  destruct (14 <? length updates)%nat; [|exists updates; auto].
  set (step := Nat.max 1 (length updates / 12)).
  destruct updates as [|x l]; [congruence|].
  destruct (py_last_cons x l) as (b & Hb & Hlast).
  rewrite slice_step_head.
  destruct (py_last_cons x (slice_from step (step - 1) l)) as (a & Ha & Halast).
  rewrite <- slice_step_head in *. rewrite Ha, Hb. cbn [bind].
  destruct (String.eqb_spec a b) as [-> | Hab]; cbn [negb].
  - eexists; split; [reflexivity|]. split; [apply slice_from_sublist|].
    split; [reflexivity | congruence].
  - eexists; split; [reflexivity|].
    split; [|split; [reflexivity | rewrite last_snoc; congruence]].
    destruct (last_Some (x :: l) b) as [[init Hinit] _]; [exact Hlast|].
    rewrite Hinit in *. unfold slice_step in *.
    destruct (slice_from_snoc step 0 init b) as [E | E]; rewrite E in *.
    + apply sublist_app; [apply slice_from_sublist | reflexivity].
    + rewrite last_snoc in Halast. congruence.
Qed.

(** C5.  For every update sequence that is not empty, the sampler returns a
    sequence with at least one element, in the relative order of its input
    (it is a subsequence of it), whose first element is the input's first
    and whose last element is the input's last. *)
Theorem sample_keeps_order_and_ends (updates : list string) :
  updates <> [] ->
  exists sampled,
    sample updates = Ok sampled
    /\ 1 <= length sampled
    /\ sampled `sublist_of` updates
    /\ head sampled = head updates
    /\ last sampled = last updates.
Proof.
  intros Hne. destruct (sample_spec updates Hne) as (s & Hs & Hsub & Hhd & Hl).
  exists s. repeat split; try assumption.
  destruct updates as [|x l]; [congruence|].
  destruct s; [discriminate Hhd | simpl; lia].
Qed.

(** C8.  On a sequence of at most 14 updates the sampler is the identity. *)
Theorem sample_short_identity (updates : list string) :
  length updates <= 14 -> sample updates = Ok updates.
Proof.
  intros H. unfold sample.
  destruct (Nat.ltb_spec 14 (length updates)); [lia | reflexivity].
Qed.

(** ** The loop body against the specification's reading of an event *)

Lemma is_tool_event_dict (d : list (string * json)) (kind : string) :
  is_tool_event (JDict d) kind = Ok (is_kind (JDict d) kind).
Proof.
  unfold is_tool_event, is_kind. simpl.
  destruct (dict_lookup d "type") as [ty|]; simpl; [|reflexivity].
  destruct (py_eq_str ty kind); simpl;
    destruct (dict_lookup d "toolName"); reflexivity.
Qed.

Lemma is_kind_dict (event : json) (kind : string) :
  is_kind event kind = true -> exists d, event = JDict d.
Proof. destruct event; try discriminate. eauto. Qed.

(** An event has one kind at most. *)
Lemma kinds_exclusive (event : json) :
  is_kind event "tool_execution_update" = true ->
  is_kind event "tool_execution_end" = false.
Proof.
  unfold is_kind. destruct (field event "type") as [ty|]; [|discriminate].
  destruct (field event "toolName"); [|discriminate].
  destruct ty; simpl; try discriminate.
  destruct (String.eqb_spec s "tool_execution_update") as [-> |]; [|discriminate].
  reflexivity.
Qed.

(** The branch for updates on an event of that kind with a typed payload. *)
Lemma on_update_typed (st : scan_state) (d : list (string * json)) :
  is_kind (JDict d) "tool_execution_update" = true ->
  payload_typed (JDict d) "partialResult" = true ->
  exists fl,
    on_update st (JDict d) = Ok fl
    /\ match fl with Next st' | Continue st' => st' end
       = match content_text (JDict d) "partialResult" with
         | Some s =>
             if PyStr.truthy (PyStr.strip s)
             then if bool_decide (last (updates st) = Some (PyStr.strip s)) then st
                  else ScanState (updates st ++ [PyStr.strip s]) (final_summary st)
             else st
         | None => st
         end.
Proof.
  intros Hk Ht. unfold on_update. rewrite is_tool_event_dict, Hk.
  unfold payload_typed, content_text in *. simpl in *.
  destruct (dict_lookup d "partialResult") as [p|]; simpl; [|eauto].
  destruct p as [| | | | | |p]; try discriminate. simpl.
  destruct (dict_lookup p "content") as [c|]; simpl; [|eauto].
  destruct (json_truthy c) eqn:Hc; simpl in *.
  2:{ eexists; split; [reflexivity|]. simpl.
      destruct c as [| | | | |[|? ?]|]; try reflexivity. discriminate. }
  destruct c as [| | | | |[|item l]|]; try discriminate.
  destruct item as [| | | | | |item]; try discriminate. simpl.
  destruct (dict_lookup item "text") as [t|]; simpl; [|eauto].
  destruct t; try discriminate. simpl.
  destruct (PyStr.truthy (PyStr.strip s)); simpl; [|eauto].
  destruct (last (updates st)) as [prev|] eqn:El.
  - destruct (String.eqb_spec prev (PyStr.strip s)) as [-> | Hne]; simpl.
    + rewrite bool_decide_eq_true_2 by reflexivity. eauto.
    + rewrite bool_decide_eq_false_2 by congruence. eauto.
  - rewrite bool_decide_eq_false_2 by congruence. eauto.
Qed.

(** The branch for end events on an event of that kind with a typed
    payload. *)
Lemma on_end_typed (st : scan_state) (d : list (string * json)) :
  is_kind (JDict d) "tool_execution_end" = true ->
  payload_typed (JDict d) "result" = true ->
  on_end st (JDict d)
  = Ok match content_text (JDict d) "result" with
       | Some s =>
           if PyStr.truthy (PyStr.strip s)
           then ScanState (updates st)
                  (Some (PyStr.join PyStr.LF (take 7 (PyStr.splitlines (PyStr.strip s)))))
           else st
       | None => st
       end.
Proof.
  intros Hk Ht. unfold on_end. rewrite is_tool_event_dict, Hk.
  unfold payload_typed, content_text in *. simpl in *.
  destruct (dict_lookup d "result") as [p|]; simpl; [|eauto].
  destruct p as [| | | | | |p]; try discriminate. simpl.
  destruct (dict_lookup p "content") as [c|]; simpl; [|eauto].
  destruct (json_truthy c) eqn:Hc; simpl in *.
  2:{ destruct c as [| | | | |[|? ?]|]; try reflexivity. discriminate. }
  destruct c as [| | | | |[|item l]|]; try discriminate.
  destruct item as [| | | | | |item]; try discriminate. simpl.
  destruct (dict_lookup item "text") as [t|]; simpl; [|eauto].
  destruct t; try discriminate. simpl.
  destruct (PyStr.truthy (PyStr.strip s)); reflexivity.
Qed.

(** On a well-formed event the loop body does not raise, and does to the
    state what the specification says. *)
Lemma on_event_record (st : scan_state) (event : json) :
  well_formed_event event = true ->
  on_event st event = Ok (record_event st event).
Proof.
  destruct event as [| | | | | |d]; try discriminate. intros Hwf.
  apply andb_true_iff in Hwf as [Hu He].
  unfold on_event, record_event, update_text, end_text, trimmed_text.
  destruct (is_kind (JDict d) "tool_execution_update") eqn:Ku.
  - simpl in Hu.
    destruct (on_update_typed st d Ku Hu) as (fl & -> & Hfl). simpl.
    assert (Hend : forall st', on_end st' (JDict d) = Ok st').
    { intros st'. unfold on_end.
      rewrite is_tool_event_dict, (kinds_exclusive _ Ku). reflexivity. }
    rewrite (kinds_exclusive _ Ku).
    destruct fl as [st' | st']; rewrite ?Hend; f_equal; simpl in Hfl; subst st';
      destruct (content_text (JDict d) "partialResult") as [s|]; try reflexivity;
      destruct (PyStr.truthy (PyStr.strip s)); reflexivity.
  - assert (Hupd : on_update st (JDict d) = Ok (Next st)).
    { unfold on_update. rewrite is_tool_event_dict, Ku. reflexivity. }
    rewrite Hupd. simpl.
    destruct (is_kind (JDict d) "tool_execution_end") eqn:Ke.
    + simpl in He. rewrite (on_end_typed st d Ke He). f_equal.
      destruct (content_text (JDict d) "result") as [s|]; try reflexivity.
      destruct (PyStr.truthy (PyStr.strip s)); reflexivity.
    + unfold on_end. rewrite is_tool_event_dict, Ke. reflexivity.
Qed.

(** The narrow sense of missing or empty is the wide one on payloads that
    are typed as the schema has them. *)
Lemma lacks_content_typed (event : json) (payload : string) :
  lacks_content event payload
  = payload_typed event payload && no_content event payload.
Proof.
  unfold lacks_content, payload_typed, no_content, content_text.
  destruct (field event payload) as [[| | | | | |p]|]; try reflexivity.
  cbn [field]. destruct (dict_lookup p "content") as [c|]; [|reflexivity].
  destruct c as [|[]|z|f|[|a s]|[|[| | | | | |item] l]|[|kv d]];
    try reflexivity;
    try (match goal with |- context [json_truthy ?v] => destruct (json_truthy v) end;
         reflexivity).
  cbn [json_truthy negb orb field].
  destruct (dict_lookup item "text") as [[| | | | s| |]|]; reflexivity.
Qed.

(** An event whose nested fields are missing or empty leaves the state as
    it is. *)
Lemma on_event_without_content (st : scan_state) (event : json) :
  without_content event = true -> on_event st event = Ok st.
Proof.
  intros H. unfold without_content in H.
  assert (Hd : exists d, event = JDict d).
  { apply orb_true_iff in H as [H | H]; apply andb_true_iff in H as [H _];
      exact (is_kind_dict _ _ H). }
  destruct Hd as [d ->].
  assert (Hlack : forall key,
             lacks_content (JDict d) key = true ->
             payload_typed (JDict d) key = true
             /\ match content_text (JDict d) key with
                | Some s => PyStr.truthy (PyStr.strip s) = false
                | None => True
                end).
  { intros key. unfold lacks_content, payload_typed, content_text. simpl.
    destruct (dict_lookup d key) as [[| | | | | |p]|]; try discriminate; auto.
    simpl. destruct (dict_lookup p "content") as [c|]; auto.
    destruct (json_truthy c) eqn:Hc; simpl.
    - destruct c as [| | | | |[|[| | | | | |item] l]|]; try discriminate.
      simpl. destruct (dict_lookup item "text") as [[| | | | s| |]|];
        try discriminate; auto.
      intros Hs. apply negb_true_iff in Hs. auto.
    - intros _. split; [reflexivity|].
      destruct c as [| | | | |[|? ?]|]; auto; discriminate. }
  assert (Hrec : record_event st (JDict d) = st).
  { unfold record_event, update_text, end_text, trimmed_text.
    apply orb_true_iff in H as [H | H]; apply andb_true_iff in H as [Hk Hl];
      destruct (Hlack _ Hl) as [_ Hc]; rewrite ?Hk, ?(kinds_exclusive _ Hk).
    - destruct (content_text (JDict d) "partialResult"); [rewrite Hc|];
        destruct (is_kind (JDict d) "tool_execution_end"); reflexivity.
    - destruct (is_kind (JDict d) "tool_execution_update") eqn:Ku.
      + rewrite (kinds_exclusive _ Ku) in Hk. discriminate.
      + destruct (content_text (JDict d) "result"); [rewrite Hc|]; reflexivity. }
  rewrite <- Hrec at 2. apply on_event_record.
  unfold well_formed_event.
  apply orb_true_iff in H as [H | H]; apply andb_true_iff in H as [Hk Hl];
    destruct (Hlack _ Hl) as [Ht _].
  - rewrite Hk, Ht, (kinds_exclusive _ Hk). reflexivity.
  - rewrite Hk, Ht. destruct (is_kind (JDict d) "tool_execution_update") eqn:Ku.
    + rewrite (kinds_exclusive _ Ku) in Hk. discriminate.
    + reflexivity.
Qed.

(** The well-formed events are all the events the loop body accepts: on
    any other it raises. *)
Lemma on_event_ill_formed (st : scan_state) (event : json) :
  well_formed_event event = false -> exists e, on_event st event = Raise e.
Proof.
  assert (Hpay : forall d key,
             payload_typed (JDict d) key = false ->
             exists e,
               (let* p := py_get (JDict d) key (JDict []) in
                let* content := py_get p "content" (JList []) in
                if json_truthy content then
                  let* item := py_item0 content in
                  let* raw := py_get item "text" (JStr "") in
                  let* text := py_strip raw in
                  Ok text
                else Ok EmptyString) = Raise e).
  { intros d key. unfold payload_typed. simpl.
    destruct (dict_lookup d key) as [p|]; [|discriminate]. simpl.
    destruct p as [| | | | | |p]; simpl; eauto.
    destruct (dict_lookup p "content") as [c|]; [|discriminate]. simpl.
    destruct (json_truthy c) eqn:Hc; [|discriminate]. simpl.
    destruct c as [| |z|f|[|a s]|[|item l]|[|kv d']]; simpl; eauto; try discriminate.
    destruct item as [| | | | | |item]; simpl; eauto.
    destruct (dict_lookup item "text") as [[]|]; simpl; eauto; discriminate. }
  destruct event as [| | | | | |d]; simpl; eauto. intros Hwf.
  unfold on_event, on_update, on_end. rewrite !is_tool_event_dict.
  apply andb_false_iff in Hwf.
  destruct (is_kind (JDict d) "tool_execution_update") eqn:Ku.
  - rewrite (kinds_exclusive _ Ku) in *. destruct Hwf as [Hwf | Hwf]; [|discriminate].
    destruct (Hpay d "partialResult" Hwf) as [e He]. exists e. cbn [bind].
    destruct (py_get (JDict d) "partialResult" (JDict [])) as [p|];
      cbn [bind] in *; [|congruence].
    destruct (py_get p "content" (JList [])) as [c|]; cbn [bind] in *; [|congruence].
    destruct (json_truthy c); cbn [negb bind] in *; [|discriminate He].
    destruct (py_item0 c) as [item|]; cbn [bind] in *; [|congruence].
    destruct (py_get item "text" (JStr "")) as [raw|]; cbn [bind] in *; [|congruence].
    destruct (py_strip raw); cbn [bind] in *; [discriminate He | congruence].
  - destruct Hwf as [Hwf | Hwf]; [discriminate|]. cbn [bind].
    destruct (is_kind (JDict d) "tool_execution_end") eqn:Ke; [|discriminate].
    destruct (Hpay d "result" Hwf) as [e He]. exists e. cbn [bind].
    destruct (py_get (JDict d) "result" (JDict [])) as [p|];
      cbn [bind] in *; [|congruence].
    destruct (py_get p "content" (JList [])) as [c|]; cbn [bind] in *; [|congruence].
    destruct (json_truthy c); cbn [bind] in *; [|discriminate He].
    destruct (py_item0 c) as [item|]; cbn [bind] in *; [|congruence].
    destruct (py_get item "text" (JStr "")) as [raw|]; cbn [bind] in *; [|congruence].
    destruct (py_strip raw); cbn [bind] in *; [discriminate He | congruence].
Qed.

(** ** Sequences without adjacent duplicates *)

Lemma adjacent_distinct_nil : adjacent_distinct [].
Proof. intros i x y H. discriminate. Qed.

Lemma adjacent_distinct_snoc (l : list string) (x : string) :
  adjacent_distinct l -> last l <> Some x -> adjacent_distinct (l ++ [x]).
Proof.
  intros Hl Hx i a b Ha Hb.
  destruct (decide (S i < length l)) as [Hlt | Hge].
  - rewrite lookup_app_l in Ha, Hb by lia. eauto.
  - assert (Hi : i < length l).
    { apply lookup_lt_Some in Ha. rewrite length_app in Ha. simpl in Ha.
      apply lookup_lt_Some in Hb. rewrite length_app in Hb. simpl in Hb. lia. }
    rewrite lookup_app_l in Ha by lia.
    rewrite lookup_app_r in Hb by lia.
    replace (S i - length l) with 0 in Hb by lia. simpl in Hb.
    injection Hb as <-. intros ->. apply Hx.
    rewrite last_lookup. replace (pred (length l)) with i by lia. exact Ha.
Qed.

Lemma adjacent_distinct_snoc_inv (l : list string) (x : string) :
  adjacent_distinct (l ++ [x]) -> last l <> Some x.
Proof.
  intros H Hl. rewrite last_lookup in Hl.
  destruct l as [|a l]; [discriminate|]. simpl in Hl.
  refine (H (length l) x x _ _ eq_refl).
  - rewrite lookup_app_l; [exact Hl | simpl; lia].
  - rewrite lookup_app_r; simpl; [|lia].
    replace (length l - length l) with 0 by lia. reflexivity.
Qed.

(** The stride is 1 below 24 elements, and the sampler keeps them all. *)
Lemma slice_from_one {A : Type} (l : list A) : slice_from 1 0 l = l.
Proof. induction l as [|x l IH]; simpl; [reflexivity | f_equal; exact IH]. Qed.

Lemma sample_below_24 (updates : list string) :
  length updates < 24 -> sample updates = Ok updates.
Proof.
  intros Hlen. unfold sample.
  destruct (14 <? length updates)%nat eqn:E; [|reflexivity].
  apply Nat.ltb_lt in E.
  assert (Hdiv : length updates / 12 = 1).
  { symmetry. apply (Nat.div_unique _ 12 1 (length updates - 12)); lia. }
  rewrite Hdiv. change (Nat.max 1 1) with 1.
  unfold slice_step. rewrite slice_from_one.
  destruct updates as [|x l]; [simpl in E; lia|].
  destruct (py_last_cons x l) as (b & -> & _). cbn [bind].
  rewrite String.eqb_refl. reflexivity.
Qed.

(** ** The loop over a log *)

Lemma record_event_adjacent_distinct (st : scan_state) (event : json) :
  adjacent_distinct (updates st) ->
  adjacent_distinct (updates (record_event st event)).
Proof.
  intros H. unfold record_event.
  destruct (update_text event) as [t|].
  - destruct (bool_decide (last (updates st) = Some t)) eqn:E; [exact H|].
    apply bool_decide_eq_false in E. simpl. apply adjacent_distinct_snoc; assumption.
  - destruct (end_text event); exact H.
Qed.

Lemma end_text_not_update (event : json) (t : string) :
  end_text event = Some t -> update_text event = None.
Proof.
  unfold end_text, update_text, trimmed_text.
  destruct (is_kind event "tool_execution_update") eqn:Ku; [|reflexivity].
  rewrite (kinds_exclusive _ Ku). discriminate.
Qed.

Lemma update_text_kind (event : json) (t : string) :
  update_text event = Some t -> is_kind event "tool_execution_update" = true.
Proof.
  unfold update_text, trimmed_text.
  destruct (is_kind event "tool_execution_update"); [reflexivity | discriminate].
Qed.

(** A text an event contributes is trimmed and not empty. *)
Lemma trimmed_text_truthy (event : json) (kind payload t : string) :
  trimmed_text event kind payload = Some t ->
  exists raw, t = PyStr.strip raw /\ PyStr.truthy t = true.
Proof.
  unfold trimmed_text. destruct (is_kind event kind); [|discriminate].
  destruct (content_text event payload) as [s|]; [|discriminate].
  destruct (PyStr.truthy (PyStr.strip s)) eqn:E; [|discriminate].
  intros [= <-]. eauto.
Qed.

Lemma scan_events_record (st : scan_state) (evs : list json) :
  Forall (fun event => well_formed_event event = true) evs ->
  scan_events st evs = Ok (foldl record_event st evs).
Proof.
  intros H. revert st. induction H as [|event evs Hwf _ IH]; intros st; simpl.
  - reflexivity.
  - rewrite (on_event_record st event Hwf). simpl. apply IH.
Qed.

Lemma foldl_record_adjacent_distinct (st : scan_state) (evs : list json) :
  adjacent_distinct (updates st) ->
  adjacent_distinct (updates (foldl record_event st evs)).
Proof.
  revert st. induction evs as [|event evs IH]; intros st H; simpl; [exact H|].
  apply IH, record_event_adjacent_distinct, H.
Qed.

(** Events that contribute no end text leave the final summary alone. *)
Lemma foldl_record_summary (st : scan_state) (evs : list json) :
  Forall (fun event => end_text event = None) evs ->
  final_summary (foldl record_event st evs) = final_summary st.
Proof.
  intros H. revert st. induction H as [|event evs He _ IH]; intros st; simpl.
  - reflexivity.
  - rewrite IH. unfold record_event. rewrite He.
    destruct (update_text event); [|reflexivity].
    destruct (bool_decide _); reflexivity.
Qed.

(** Events that contribute no update text leave the updates alone. *)
Lemma foldl_record_updates (st : scan_state) (evs : list json) :
  Forall (fun event => update_text event = None) evs ->
  updates (foldl record_event st evs) = updates st.
Proof.
  intros H. revert st. induction H as [|event evs He _ IH]; intros st; simpl.
  - reflexivity.
  - rewrite IH. unfold record_event. rewrite He.
    destruct (end_text event); reflexivity.
Qed.

(** After the last event with an end text, the summary is made of that
    text. *)
Lemma foldl_record_last_end (st : scan_state) (pre post : list json)
  (event : json) (t : string) :
  end_text event = Some t ->
  Forall (fun event' => end_text event' = None) post ->
  final_summary (foldl record_event st (pre ++ event :: post))
  = Some (PyStr.join PyStr.LF (take 7 (PyStr.splitlines t))).
Proof.
  intros He Hpost. rewrite foldl_app. simpl.
  rewrite (foldl_record_summary _ post Hpost).
  unfold record_event. rewrite (end_text_not_update _ _ He), He. reflexivity.
Qed.

Section LogProperties.

Variable json_loads : string -> option json.

Lemma scan_line_decode (st : scan_state) (raw_line : string) :
  scan_line json_loads st raw_line
  = match decode json_loads raw_line with
    | Some event => on_event st event
    | None => Ok st
    end.
Proof.
  unfold scan_line, decode.
  destruct (PyStr.truthy (PyStr.strip raw_line)); simpl; [|reflexivity].
  destruct (json_loads (PyStr.strip raw_line)); reflexivity.
Qed.

(** The loop sees a log through its events only. *)
Lemma scan_lines_events (st : scan_state) (lines : list string) :
  scan_lines json_loads st lines
  = scan_events st (omap (decode json_loads) lines).
Proof.
  revert st. induction lines as [|raw_line lines IH]; intros st; simpl.
  - reflexivity.
  - rewrite scan_line_decode.
    destruct (decode json_loads raw_line) as [event|]; simpl.
    + destruct (on_event st event); simpl; [apply IH | reflexivity].
    + apply IH.
Qed.

Lemma load_updates_text_events (p content : string) :
  load_updates_text json_loads p content
  = let* st := scan_events (ScanState [] None) (events json_loads content) in
    finish p st.
Proof. unfold load_updates_text, events. rewrite scan_lines_events. reflexivity. Qed.

(** A skipped line leaves the state as it is, without raising. *)
Lemma scan_line_skipped (st : scan_state) (raw_line : string) :
  skipped json_loads raw_line = true ->
  scan_line json_loads st raw_line = Ok st.
Proof.
  unfold skipped. rewrite scan_line_decode.
  destruct (decode json_loads raw_line) as [event|]; [|reflexivity].
  apply on_event_without_content.
Qed.

Lemma scan_lines_skipped (st : scan_state) (lines : list string) :
  scan_lines json_loads st lines
  = scan_lines json_loads st
      (List.filter (fun l => negb (skipped json_loads l)) lines).
Proof.
  revert st. induction lines as [|raw_line lines IH]; intros st; simpl.
  - reflexivity.
  - destruct (skipped json_loads raw_line) eqn:E; simpl.
    + rewrite (scan_line_skipped _ _ E). simpl. apply IH.
    + destruct (scan_line json_loads st raw_line); simpl; [apply IH | reflexivity].
Qed.

(** The loop keeps the recorded updates free of adjacent duplicates. *)
Lemma on_event_adjacent_distinct (st st' : scan_state) (event : json) :
  on_event st event = Ok st' ->
  adjacent_distinct (updates st) -> adjacent_distinct (updates st').
Proof.
  destruct (well_formed_event event) eqn:Hwf.
  - rewrite (on_event_record _ _ Hwf). intros [= <-].
    apply record_event_adjacent_distinct.
  - destruct event as [| | | | | |d]; try discriminate.
    unfold on_event, well_formed_event in *.
    destruct (is_kind (JDict d) "tool_execution_update") eqn:Ku.
    + (* the payload of an update is not typed: the branch raises, or it
         appends a text that differs from the last one *)
      unfold on_end. rewrite is_tool_event_dict, (kinds_exclusive _ Ku).
      unfold on_update. rewrite is_tool_event_dict, Ku. cbn [bind].
      destruct (py_get (JDict d) "partialResult" (JDict [])) as [pr|]; [|discriminate].
      cbn [bind]. destruct (py_get pr "content" (JList [])) as [c|]; [|discriminate].
      cbn [bind]. destruct (negb (json_truthy c)); cbn [bind].
      { intros [= <-]. auto. }
      destruct (py_item0 c) as [item|]; [|discriminate]. cbn [bind].
      destruct (py_get item "text" (JStr "")) as [raw|]; [|discriminate]. cbn [bind].
      destruct (py_strip raw) as [text|]; [|discriminate]. cbn [bind].
      destruct (PyStr.truthy text); cbn [andb]; [|intros [= <-]; auto].
      destruct (last (updates st)) as [prev|] eqn:El.
      * destruct (String.eqb_spec prev text) as [-> | Hne]; cbn [negb bind].
        -- intros [= <-]. auto.
        -- intros [= <-] H. simpl. apply adjacent_distinct_snoc; [exact H|].
           congruence.
      * intros [= <-] H. simpl. apply adjacent_distinct_snoc; [exact H|].
        congruence.
    + unfold on_update. rewrite is_tool_event_dict, Ku. cbn [bind].
      unfold on_end. rewrite is_tool_event_dict.
      destruct (is_kind (JDict d) "tool_execution_end"); cbn [bind].
      2:{ intros [= <-]. auto. }
      destruct (py_get (JDict d) "result" (JDict [])) as [pr|]; [|discriminate].
      cbn [bind]. destruct (py_get pr "content" (JList [])) as [c|]; [|discriminate].
      cbn [bind]. destruct (json_truthy c); [|intros [= <-]; auto].
      destruct (py_item0 c) as [item|]; [|discriminate]. cbn [bind].
      destruct (py_get item "text" (JStr "")) as [raw|]; [|discriminate]. cbn [bind].
      destruct (py_strip raw) as [text|]; [|discriminate]. cbn [bind].
      destruct (PyStr.truthy text); intros [= <-]; auto.
Qed.

Lemma scan_events_adjacent_distinct (st st' : scan_state) (evs : list json) :
  scan_events st evs = Ok st' ->
  adjacent_distinct (updates st) -> adjacent_distinct (updates st').
Proof.
  revert st. induction evs as [|event evs IH]; intros st; simpl.
  - intros [= <-]. auto.
  - destruct (on_event st event) as [st1|] eqn:E; [|discriminate]. simpl.
    intros Hs H. apply (IH _ Hs). exact (on_event_adjacent_distinct _ _ _ E H).
Qed.

End LogProperties.

(** ** The log reader *)

Section LoadUpdates.

Variable json_loads : string -> option json.

Lemma load_updates_read (w : world) (p : path) (content : string) :
  files w !! p = Some (TextFile content) ->
  load_updates json_loads w p = load_updates_text json_loads (path_str p) content.
Proof. intros H. unfold load_updates, read_text. rewrite H. reflexivity. Qed.

(** [load_updates] looks at the files of the world only. *)
Lemma load_updates_files (w w' : world) (p : path) :
  files w' = files w -> load_updates json_loads w' p = load_updates json_loads w p.
Proof. intros H. unfold load_updates, read_text. rewrite H. reflexivity. Qed.

(** What [load_updates] returns on a log of well-formed events. *)
Lemma load_updates_well_formed (w : world) (p : path) (content : string) :
  files w !! p = Some (TextFile content) ->
  Forall (fun event => well_formed_event event = true) (events json_loads content) ->
  load_updates json_loads w p
  = finish (path_str p)
      (foldl record_event (ScanState [] None) (events json_loads content)).
Proof.
  intros Hf Hwf. rewrite (load_updates_read _ _ _ Hf), load_updates_text_events.
  rewrite (scan_events_record _ _ Hwf). reflexivity.
Qed.

(** A log of well-formed events in which no update event contributes a
    non-empty trimmed text and no end event a final summary: [load_updates]
    raises the error that names the path of the log. *)
Lemma load_updates_no_updates (w : world) (p : path) (content : string) :
  files w !! p = Some (TextFile content) ->
  Forall (fun event => well_formed_event event = true) (events json_loads content) ->
  Forall (fun event => update_text event = None) (events json_loads content) ->
  Forall (fun event => end_text event = None) (events json_loads content) ->
  load_updates json_loads w p
  = Raise (RuntimeError ("No tool_execution_update events found in " +:+ path_str p)).
Proof.
  intros Hf Hwf Hu He. rewrite (load_updates_well_formed _ _ _ Hf Hwf).
  unfold finish, with_summary.
  rewrite (foldl_record_summary _ _ He), (foldl_record_updates _ _ Hu). reflexivity.
Qed.

(** C3, as amended.  When [load_updates] returns, the updates recorded from
    the update events hold no two adjacent equal strings.  The returned
    sequence holds none either if it has fewer than 24 elements before
    sampling and its closing entry, if there is one, differs from the last
    recorded update; it is then the recorded updates with the closing
    entry. *)
Theorem load_updates_adjacent_distinct
  (w : world) (p : path) (content : string) (us : list string) :
  files w !! p = Some (TextFile content) ->
  load_updates json_loads w p = Ok us ->
  exists st,
    scan_lines json_loads (ScanState [] None) (PyStr.splitlines content) = Ok st
    /\ adjacent_distinct (updates st)
    /\ (length (with_summary st) < 24 ->
        (forall s, final_summary st = Some s ->
                   last (updates st) <> Some ("Done." +:+ PyStr.LF +:+ s)) ->
        us = with_summary st /\ adjacent_distinct us).
Proof.
  intros Hf. rewrite (load_updates_read _ _ _ Hf). unfold load_updates_text.
  destruct (scan_lines json_loads _ _) as [st|] eqn:Hscan; [|discriminate].
  cbn [bind]. intros Hfin. exists st. split; [reflexivity|].
  assert (Hadj : adjacent_distinct (updates st)).
  { rewrite scan_lines_events in Hscan.
    apply (scan_events_adjacent_distinct _ _ _ Hscan), adjacent_distinct_nil. }
  split; [exact Hadj|]. intros Hlen Hlast.
  unfold finish in Hfin. destruct (with_summary st) as [|x l] eqn:Hws; [discriminate|].
  rewrite (sample_below_24 _ Hlen) in Hfin. injection Hfin as <-.
  split; [reflexivity|]. rewrite <- Hws. unfold with_summary.
  destruct (final_summary st) as [s|] eqn:Hs; [|exact Hadj].
  destruct (PyStr.truthy s); [|exact Hadj].
  apply adjacent_distinct_snoc; [exact Hadj | exact (Hlast s eq_refl)].
Qed.

(** The closing entry is made of the last end text. *)
Lemma load_updates_last_end
  (w : world) (p : path) (content : string)
  (pre post : list json) (event : json) (t : string) :
  files w !! p = Some (TextFile content) ->
  Forall (fun e => well_formed_event e = true) (events json_loads content) ->
  events json_loads content = pre ++ event :: post ->
  end_text event = Some t ->
  Forall (fun e => end_text e = None) post ->
  let recorded :=
    updates (foldl record_event (ScanState [] None) (events json_loads content)) in
  exists us,
    load_updates json_loads w p = Ok us
    /\ sample (recorded ++ [done_entry t]) = Ok us
    /\ last us = Some (done_entry t).
Proof.
  intros Hf Hwf Hev He Hpost recorded.
  rewrite (load_updates_well_formed _ _ _ Hf Hwf).
  assert (Hsum : final_summary
                   (foldl record_event (ScanState [] None) (events json_loads content))
                 = Some (PyStr.join PyStr.LF (take 7 (PyStr.splitlines t)))).
  { rewrite Hev. apply foldl_record_last_end; assumption. }
  assert (Htr : PyStr.truthy (PyStr.join PyStr.LF (take 7 (PyStr.splitlines t))) = true).
  { destruct (trimmed_text_truthy _ _ _ _ He) as (raw & -> & Hraw).
    apply summary_truthy, Hraw. }
  unfold finish, with_summary. rewrite Hsum, Htr.
  fold recorded. change ("Done." +:+ PyStr.LF +:+ _) with (done_entry t).
  destruct (sample_spec (recorded ++ [done_entry t])) as (us & Hus & _ & _ & Hl).
  { intros E. apply app_eq_nil in E as [_ E]. discriminate. }
  exists us. rewrite last_snoc in Hl.
  destruct (recorded ++ [done_entry t]) eqn:E.
  - apply app_eq_nil in E as [_ E]. discriminate.
  - auto.
Qed.

(** C7, as amended.  In a log of well-formed events, let [event] be the
    last end event for the tool with a non-empty trimmed text [t].  Then
    [load_updates] returns; before sampling, its sequence is the recorded
    updates followed by one element, the line "Done." and the first 7 lines
    of [t] joined by line feeds; and that element is the last one of the
    returned sequence.  The events have to be well-formed: on any other
    the loop raises and nothing is returned. *)
Theorem load_updates_final_summary
  (w : world) (p : path) (content : string)
  (pre post : list json) (event : json) (t : string) :
  files w !! p = Some (TextFile content) ->
  Forall (fun e => well_formed_event e = true) (events json_loads content) ->
  events json_loads content = pre ++ event :: post ->
  end_text event = Some t ->
  Forall (fun e => end_text e = None) post ->
  let recorded :=
    updates (foldl record_event (ScanState [] None) (events json_loads content)) in
  exists us,
    load_updates json_loads w p = Ok us
    /\ sample (recorded ++ [done_entry t]) = Ok us
    /\ last us = Some (done_entry t).
Proof. apply load_updates_last_end. Qed.

(** C9, as amended.  Lines that are empty or do not parse, and events of
    the tool in which a key on the way to the text is absent, the content
    is empty or the text is empty once trimmed, are passed over without
    raising: such a line leaves the state of the loop as it is, and
    [load_updates] returns on a log what it returns on the log without
    these lines.  These are the events whose nested fields are missing or
    empty and whose payload is typed as the schema has it
    ([lacks_content_typed]); a field that is there with a value of another
    type, [null] for one, is not passed over. *)
Theorem load_updates_skips_lines
  (w w' : world) (p : path) (content content' : string) :
  files w !! p = Some (TextFile content) ->
  files w' !! p = Some (TextFile content') ->
  PyStr.splitlines content'
  = List.filter (fun l => negb (skipped json_loads l)) (PyStr.splitlines content) ->
  (forall st raw_line,
      skipped json_loads raw_line = true ->
      scan_line json_loads st raw_line = Ok st)
  /\ load_updates json_loads w p = load_updates json_loads w' p.
Proof.
  intros Hf Hf' Hlines. split; [apply scan_line_skipped|].
  rewrite (load_updates_read _ _ _ Hf), (load_updates_read _ _ _ Hf').
  unfold load_updates_text. rewrite Hlines, <- scan_lines_skipped. reflexivity.
Qed.

(** C10, as amended.  A log of well-formed events with no update event for
    the tool and with an end event for it that has a non-empty trimmed
    text: the empty update error is not raised, and [load_updates] returns
    one update, the line "Done." and the first 7 lines of the text [t] of
    the last such event.  The events have to be well-formed: on any other
    the loop raises. *)
Theorem load_updates_end_only
  (w : world) (p : path) (content : string)
  (pre post : list json) (event : json) (t : string) :
  files w !! p = Some (TextFile content) ->
  Forall (fun e => well_formed_event e = true) (events json_loads content) ->
  Forall (fun e => is_kind e "tool_execution_update" = false) (events json_loads content) ->
  events json_loads content = pre ++ event :: post ->
  end_text event = Some t ->
  Forall (fun e => end_text e = None) post ->
  load_updates json_loads w p = Ok [done_entry t].
Proof.
  intros Hf Hwf Hno Hev He Hpost.
  destruct (load_updates_last_end w p content pre post event t)
    as (us & Hus & Hsample & _); try assumption.
  rewrite Hus, <- Hsample. rewrite foldl_record_updates; [reflexivity|].
  eapply Forall_impl; [exact Hno|]. intros e Hk. simpl in Hk.
  destruct (update_text e) as [x|] eqn:E; [|reflexivity].
  apply update_text_kind in E. congruence.
Qed.

End LoadUpdates.

(** ** The assembler and [main] *)

Lemma py_setitem_first {A : Type} (l : list A) (x : A) :
  l <> [] -> py_setitem l 0 x = Ok (<[0 := x]> l).
Proof.
  intros H. unfold py_setitem.
  assert (Hn : (0 < Z.of_nat (length l))%Z) by (destruct l; [congruence | simpl; lia]).
  change (0 <? 0)%Z with false. cbn iota. change (0 <=? 0)%Z with true.
  destruct (Z.ltb_spec 0 (Z.of_nat (length l))); [reflexivity | lia].
Qed.

Lemma py_setitem_last {A : Type} (l : list A) (x : A) :
  l <> [] -> py_setitem l (-1) x = Ok (<[length l - 1 := x]> l).
Proof.
  intros H. unfold py_setitem.
  assert (Hn : (0 < Z.of_nat (length l))%Z) by (destruct l; [congruence | simpl; lia]).
  change (-1 <? 0)%Z with true. cbn iota.
  destruct (Z.leb_spec 0 (-1 + Z.of_nat (length l))); [|lia].
  destruct (Z.ltb_spec (-1 + Z.of_nat (length l)) (Z.of_nat (length l))); [|lia].
  cbn [andb].
  replace (Z.to_nat (-1 + Z.of_nat (length l))) with (length l - 1) by lia.
  reflexivity.
Qed.

(** The hold times of [n] frames, for a positive [n]. *)
Lemma durations_spec (n : nat) :
  1 <= n ->
  exists ds,
    durations n = Ok ds
    /\ length ds = n
    /\ (2 <= n -> ds !! 0 = Some 900%Z)
    /\ ds !! (n - 1) = Some 1700%Z
    /\ (forall i, 0 < i < n - 1 -> ds !! i = Some 520%Z).
Proof.
  intros Hn. unfold durations.
  assert (Hrep : replicate n 520%Z <> []) by (destruct n; [lia | discriminate]).
  rewrite (py_setitem_first _ _ Hrep). cbn [bind].
  assert (Hlen : length (<[0 := 900%Z]> (replicate n 520%Z)) = n)
    by (rewrite length_insert, length_replicate; reflexivity).
  rewrite py_setitem_last by (intros E; rewrite E in Hlen; simpl in Hlen; lia).
  rewrite Hlen. eexists. split; [reflexivity|].
  split; [rewrite length_insert; exact Hlen|].
  split; [|split].
  - intros H2. rewrite list_lookup_insert_ne by lia.
    apply list_lookup_insert_eq. rewrite length_replicate. lia.
  - apply list_lookup_insert_eq. lia.
  - intros i Hi. rewrite !list_lookup_insert_ne by lia.
    apply lookup_replicate_2. lia.
Qed.

Lemma mkdir_files (w w1 : world) (p : path) (r : result unit) :
  mkdir w p = (w1, r) -> files w1 = files w.
Proof.
  unfold mkdir. destruct (forallb _ _); intros [= <- _]; reflexivity.
Qed.

(** After [mkdir] the directory is there. *)
Lemma mkdir_dirs (w w1 : world) (p : path) :
  p <> [] -> mkdir w p = (w1, Ok tt) -> p ∈ dirs w1.
Proof.
  intros Hp. unfold mkdir. destruct (forallb _ _); [|discriminate].
  intros [= <-]. simpl. apply elem_of_union_l, elem_of_list_to_set.
  apply list_elem_of_fmap. exists (length p). split.
  - symmetry. apply firstn_all.
  - apply list_elem_of_In, in_seq. destruct p; [congruence | simpl; lia].
Qed.

Section ScriptProperties.

Variable json_loads : string -> option json.
Variable ROOT : path.

Lemma out_parent : removelast (OUT_PATH ROOT) = ROOT ++ ["demos"].
Proof.
  unfold OUT_PATH.
  change (ROOT ++ ["demos"; "codex-search-progress.gif"])
    with (ROOT ++ ["demos"] ++ ["codex-search-progress.gif"]).
  rewrite app_assoc. apply removelast_last.
Qed.

(** What the assembler does with updates that are not empty, in a world
    where the directory of the output is there. *)
Lemma assemble_spec (w : world) (updates : list string) :
  updates <> [] ->
  removelast (OUT_PATH ROOT) ∈ dirs w ->
  exists ds,
    durations (length updates) = Ok ds
    /\ assemble ROOT w updates
       = (World
            (<[OUT_PATH ROOT :=
                 ImageFile
                   (Animation (map (fun u => terminal_frame u (load_font w)) updates)
                      ds 0 true)]> (files w))
            (dirs w) (truetype_fonts w) (stdout w), Ok tt).
Proof.
  intros Hne Hdir.
  destruct (durations_spec (length updates)) as (ds & Hds & _).
  { destruct updates; [congruence | simpl; lia]. }
  exists ds. split; [exact Hds|].
  unfold assemble. rewrite length_map, Hds. unfold save.
  destruct updates as [|u us]; [congruence|]. simpl map.
  rewrite bool_decide_eq_true_2 by exact Hdir. reflexivity.
Qed.

(** C6.  For updates that are not empty, the assembler saves an animation
    with one frame per update.  With two frames or more the first is held
    for 900 ms; the last one is held for 1700 ms, also when it is the only
    one; every frame between them is held for 520 ms.  The animation loops
    for ever. *)
Theorem assemble_frames_and_durations (w : world) (updates : list string) :
  updates <> [] ->
  removelast (OUT_PATH ROOT) ∈ dirs w ->
  exists a,
    snd (assemble ROOT w updates) = Ok tt
    /\ files (fst (assemble ROOT w updates)) !! OUT_PATH ROOT = Some (ImageFile a)
    /\ length (frames a) = length updates
    /\ length (duration a) = length updates
    /\ (2 <= length updates -> duration a !! 0 = Some 900%Z)
    /\ duration a !! (length updates - 1) = Some 1700%Z
    /\ (forall i, 0 < i < length updates - 1 -> duration a !! i = Some 520%Z)
    /\ (length updates = 1 -> duration a = [1700%Z])
    /\ loop a = 0%Z.
Proof.
  intros Hne Hdir.
  destruct (assemble_spec w updates Hne Hdir) as (ds & Hds & ->).
  destruct (durations_spec (length updates)) as (ds' & Hds' & Hlen & H0 & Hl & Hi).
  { destruct updates; [congruence | simpl; lia]. }
  rewrite Hds in Hds'. injection Hds' as <-.
  eexists. split; [reflexivity|]. split; [apply lookup_insert_eq|]. simpl.
  rewrite length_map. repeat split; try assumption.
  intros H1. rewrite H1 in Hlen, Hl.
  destruct ds as [|d [|? ?]]; try discriminate. simpl in Hl. congruence.
Qed.

(** C2, as amended.  A log of well-formed events in which no update event
    contributes a non-empty trimmed text and no end event a final summary:
    [load_updates] raises the error that names the path of the log, [main]
    ends with an exception, and the files are as they were: no image is
    written.  On an event that is not well-formed the loop raises an
    exception of its own, which names no path. *)
Theorem main_no_updates (w : world) (content : string) :
  files w !! LOG_PATH ROOT = Some (TextFile content) ->
  Forall (fun event => well_formed_event event = true) (events json_loads content) ->
  Forall (fun event => update_text event = None) (events json_loads content) ->
  Forall (fun event => end_text event = None) (events json_loads content) ->
  load_updates json_loads w (LOG_PATH ROOT)
  = Raise (RuntimeError ("No tool_execution_update events found in "
                         +:+ path_str (LOG_PATH ROOT)))
  /\ (exists e, snd (main json_loads ROOT w) = Raise e)
  /\ files (fst (main json_loads ROOT w)) = files w.
Proof.
  intros Hf Hwf Hu He.
  pose proof (load_updates_no_updates json_loads w _ _ Hf Hwf Hu He) as Hload.
  split; [exact Hload|]. unfold main.
  destruct (mkdir w (removelast (OUT_PATH ROOT))) as [w1 [[]|e]] eqn:Hmk.
  - rewrite (load_updates_files _ _ _ _ (mkdir_files _ _ _ _ Hmk)), Hload. simpl.
    split; [eauto | exact (mkdir_files _ _ _ _ Hmk)].
  - simpl. split; [eauto | exact (mkdir_files _ _ _ _ Hmk)].
Qed.

Lemma event_with_text_well_formed (event : json) (kind payload text : string) :
  event_with_text event kind payload text ->
  payload_typed event payload = true.
Proof.
  intros [Hk Ht]. destruct (is_kind_dict _ _ Hk) as [d ->].
  unfold content_text, payload_typed in *. simpl in *.
  destruct (dict_lookup d payload) as [[| | | | | |p]|]; try discriminate.
  simpl in Ht. destruct (dict_lookup p "content") as [c|]; [|discriminate].
  destruct c as [| | | | |[|[| | | | | |item] l]|]; try discriminate.
  simpl in *. destruct (dict_lookup item "text") as [[]|]; try discriminate.
  reflexivity.
Qed.

(** C1.  A log whose events are three updates for the tool with the texts
    "searching...", "searching... (2 files)" and "searching... (2 files)",
    then one end event for it with the text "found 1 match", line feed,
    "in file.py": [load_updates] returns the two distinct updates and the
    closing entry, and [main] saves three frames held for 900, 520 and
    1700 ms. *)
Theorem scenario_updates_and_durations
  (w : world) (content : string) (e1 e2 e3 e4 : json) :
  files w !! LOG_PATH ROOT = Some (TextFile content) ->
  snd (mkdir w (removelast (OUT_PATH ROOT))) = Ok tt ->
  events json_loads content = [e1; e2; e3; e4] ->
  event_with_text e1 "tool_execution_update" "partialResult" "searching..." ->
  event_with_text e2 "tool_execution_update" "partialResult" "searching... (2 files)" ->
  event_with_text e3 "tool_execution_update" "partialResult" "searching... (2 files)" ->
  event_with_text e4 "tool_execution_end" "result"
    ("found 1 match" +:+ PyStr.LF +:+ "in file.py") ->
  load_updates json_loads w (LOG_PATH ROOT)
  = Ok [ "searching..."; "searching... (2 files)";
         "Done." +:+ PyStr.LF +:+ "found 1 match" +:+ PyStr.LF +:+ "in file.py" ]
  /\ exists a,
       snd (main json_loads ROOT w) = Ok tt
       /\ files (fst (main json_loads ROOT w)) !! OUT_PATH ROOT = Some (ImageFile a)
       /\ length (frames a) = 3
       /\ duration a = [900; 520; 1700]%Z.
Proof.
  intros Hf Hmk Hev H1 H2 H3 H4.
  assert (Hupd : forall e t, event_with_text e "tool_execution_update" "partialResult" t ->
                   well_formed_event e = true
                   /\ update_text e
                      = if PyStr.truthy (PyStr.strip t) then Some (PyStr.strip t) else None).
  { intros e t H. pose proof (event_with_text_well_formed _ _ _ _ H) as Hty.
    destruct H as [Hk Ht]. destruct (is_kind_dict _ _ Hk) as [d ->]. split.
    - unfold well_formed_event. rewrite Hk, Hty, (kinds_exclusive _ Hk). reflexivity.
    - unfold update_text, trimmed_text. rewrite Hk, Ht. reflexivity. }
  assert (Hend : well_formed_event e4 = true
                 /\ update_text e4 = None
                 /\ end_text e4 = Some ("found 1 match" +:+ PyStr.LF +:+ "in file.py")).
  { pose proof (event_with_text_well_formed _ _ _ _ H4) as Hty.
    destruct H4 as [Hk Ht]. destruct (is_kind_dict _ _ Hk) as [d ->].
    assert (Hnu : is_kind (JDict d) "tool_execution_update" = false).
    { destruct (is_kind (JDict d) "tool_execution_update") eqn:Ku; [|reflexivity].
      rewrite (kinds_exclusive _ Ku) in Hk. discriminate. }
    split; [|split].
    - unfold well_formed_event. rewrite Hk, Hty, Hnu. reflexivity.
    - unfold update_text, trimmed_text. rewrite Hnu. reflexivity.
    - unfold end_text, trimmed_text. rewrite Hk, Ht. reflexivity. }
  destruct (Hupd _ _ H1) as [W1 U1], (Hupd _ _ H2) as [W2 U2],
    (Hupd _ _ H3) as [W3 U3], Hend as (W4 & U4 & E4).
  assert (Hload : load_updates json_loads w (LOG_PATH ROOT)
                  = Ok [ "searching..."; "searching... (2 files)";
                         "Done." +:+ PyStr.LF +:+ "found 1 match" +:+ PyStr.LF
                         +:+ "in file.py" ]).
  { rewrite (load_updates_well_formed _ _ _ _ Hf)
      by (rewrite Hev; repeat constructor; assumption).
    rewrite Hev. unfold foldl, record_event.
    rewrite U1, U2, U3, U4, E4. vm_compute. reflexivity. }
  split; [exact Hload|]. unfold main.
  destruct (mkdir w (removelast (OUT_PATH ROOT))) as [w1 r] eqn:Emk.
  simpl in Hmk. subst r.
  rewrite (load_updates_files _ _ _ _ (mkdir_files _ _ _ _ Emk)), Hload.
  edestruct (assemble_spec w1) as (ds & Hds & ->); [discriminate| |].
  { apply (mkdir_dirs _ _ _) in Emk; [exact Emk|]. rewrite out_parent.
    intros E. apply app_eq_nil in E as [_ E]. discriminate. }
  injection Hds as <-. eexists. split; [reflexivity|].
  split; [apply lookup_insert_eq|]. split; reflexivity.
Qed.

End ScriptProperties.

(** ** The properties on concrete logs *)

(** A property of every element, checked by evaluation. *)
Lemma Forall_checked {A : Type} (P : A -> Prop) `{!forall x, Decision (P x)}
  (l : list A) :
  forallb (fun x => bool_decide (P x)) l = true -> Forall P l.
Proof.
  induction l as [|x l IH]; simpl; [constructor|].
  intros Hall. apply andb_true_iff in Hall as [Hx Hl].
  constructor; [exact (bool_decide_eq_true_1 _ Hx) | exact (IH Hl)].
Qed.

Ltac check_all := refine (Forall_checked _ _ _); vm_compute; reflexivity.

Lemma sample_keeps_order_and_ends_witness :
  ["a"; "b"; "c"] <> []
  /\ exists sampled,
       sample ["a"; "b"; "c"] = Ok sampled
       /\ 1 <= length sampled
       /\ sampled `sublist_of` ["a"; "b"; "c"]
       /\ head sampled = head ["a"; "b"; "c"]
       /\ last sampled = last ["a"; "b"; "c"].
Proof.
  split; [discriminate | apply sample_keeps_order_and_ends; discriminate].
Defined.

Lemma sample_short_identity_witness :
  length ["a"; "b"; "c"] <= 14 /\ sample ["a"; "b"; "c"] = Ok ["a"; "b"; "c"].
Proof.
  split; [simpl; lia | apply sample_short_identity; simpl; lia].
Defined.

Lemma load_updates_adjacent_distinct_witness :
  let w := Demo.world_of Demo.scenario_log in
  let p := LOG_PATH Demo.ROOT in
  let us := [ "searching..."; "searching... (2 files)";
              "Done." +:+ PyStr.LF +:+ "found 1 match" +:+ PyStr.LF +:+ "in file.py" ] in
  files w !! p = Some (TextFile Demo.scenario_log)
  /\ load_updates Json.loads w p = Ok us
  /\ exists st,
       scan_lines Json.loads (ScanState [] None) (PyStr.splitlines Demo.scenario_log)
       = Ok st
       /\ adjacent_distinct (updates st)
       /\ (length (with_summary st) < 24 ->
           (forall s, final_summary st = Some s ->
                      last (updates st) <> Some ("Done." +:+ PyStr.LF +:+ s)) ->
           us = with_summary st /\ adjacent_distinct us).
Proof.
  intros w p us.
  assert (Hf : files w !! p = Some (TextFile Demo.scenario_log))
    by (vm_compute; reflexivity).
  assert (Hl : load_updates Json.loads w p = Ok us) by (vm_compute; reflexivity).
  split; [exact Hf|]. split; [exact Hl|].
  exact (load_updates_adjacent_distinct Json.loads w p Demo.scenario_log us Hf Hl).
Defined.

(** C3 fails with sampling.  Of 24 updates that alternate between two texts
    the stride 2 keeps the 12 with the first text, and the last update is
    appended to them. *)
Lemma load_updates_alternating_duplicates :
  Forall (fun e => well_formed_event e = true)
    (events Json.loads Demo.alternating_log)
  /\ load_updates Json.loads (Demo.world_of Demo.alternating_log) (LOG_PATH Demo.ROOT)
     = Ok (replicate 12 "reading" ++ ["searching"])
  /\ ~ adjacent_distinct (replicate 12 "reading" ++ ["searching"]).
Proof.
  split; [check_all|].
  split; [vm_compute; reflexivity|].
  intros H. exact (H 0 "reading" "reading" eq_refl eq_refl eq_refl).
Qed.

(** C3 fails without sampling too.  An update that reads like the closing
    entry is followed by that entry, which is appended without a look at the
    update before it. *)
Lemma load_updates_echo_duplicates :
  Forall (fun e => well_formed_event e = true) (events Json.loads Demo.echo_log)
  /\ load_updates Json.loads (Demo.world_of Demo.echo_log) (LOG_PATH Demo.ROOT)
     = Ok [ "Done." +:+ PyStr.LF +:+ "ok"; "Done." +:+ PyStr.LF +:+ "ok" ]
  /\ ~ adjacent_distinct [ "Done." +:+ PyStr.LF +:+ "ok"; "Done." +:+ PyStr.LF +:+ "ok" ].
Proof.
  split; [check_all|].
  split; [vm_compute; reflexivity|].
  intros H. exact (H 0 _ _ eq_refl eq_refl eq_refl).
Qed.

(** C2 fails without the well-formed events.  An update of the tool whose
    payload is [null] contributes no text and no summary, and it is the one
    event of its log; [load_updates] raises [AttributeError], which names
    no path, and [main] ends with it. *)
Lemma load_updates_null_update :
  events Json.loads Demo.null_update_log = [Demo.null_update_event]
  /\ Forall (fun event => update_text event = None)
       (events Json.loads Demo.null_update_log)
  /\ Forall (fun event => end_text event = None)
       (events Json.loads Demo.null_update_log)
  /\ load_updates Json.loads (Demo.world_of Demo.null_update_log) (LOG_PATH Demo.ROOT)
     = Raise AttributeError
  /\ snd (main Json.loads Demo.ROOT (Demo.world_of Demo.null_update_log))
     = Raise AttributeError.
Proof.
  split; [vm_compute; reflexivity|].
  split; [check_all|]. split; [check_all|].
  split; vm_compute; reflexivity.
Qed.

(** C7 fails without them too.  The log has an end event of the tool with
    the text fin, and no end event after it; the update that follows has
    the payload [null], [load_updates] raises [AttributeError] and no
    closing entry is appended to anything. *)
Lemma load_updates_summary_lost :
  events Json.loads Demo.summary_then_null_log
  = [Demo.end_event "fin"; Demo.null_update_event]
  /\ end_text (Demo.end_event "fin") = Some "fin"
  /\ Forall (fun event => end_text event = None) [Demo.null_update_event]
  /\ load_updates Json.loads (Demo.world_of Demo.summary_then_null_log)
       (LOG_PATH Demo.ROOT)
     = Raise AttributeError.
Proof.
  split; [vm_compute; reflexivity|]. split; [vm_compute; reflexivity|].
  split; [check_all | vm_compute; reflexivity].
Qed.

(** C9 fails where a nested field is there and is [null].  The second event
    of the log is an update of the tool whose payload is [null]: its
    content and its text are missing.  It is not passed over:
    [load_updates] raises [AttributeError] on the log, and returns the
    first update on the log without that line. *)
Lemma load_updates_null_payload :
  events Json.loads Demo.null_noisy_log
  = [Demo.update_event "searching..."; Demo.null_update_event]
  /\ is_kind Demo.null_update_event "tool_execution_update" = true
  /\ no_content Demo.null_update_event "partialResult" = true
  /\ PyStr.splitlines Demo.one_update_log
     = List.filter
         (fun l => negb match decode Json.loads l with
                        | Some event =>
                            is_kind event "tool_execution_update"
                            && no_content event "partialResult"
                        | None => true
                        end)
         (PyStr.splitlines Demo.null_noisy_log)
  /\ load_updates Json.loads (Demo.world_of Demo.null_noisy_log) (LOG_PATH Demo.ROOT)
     = Raise AttributeError
  /\ load_updates Json.loads (Demo.world_of Demo.one_update_log) (LOG_PATH Demo.ROOT)
     = Ok ["searching..."].
Proof. repeat split; vm_compute; reflexivity. Qed.

(** C10 fails without the well-formed events.  The log has no update
    event, and its last event is an end event of the tool with the text
    fin; the end event before it has the payload [null], and
    [load_updates] raises [AttributeError] instead of returning the closing
    entry. *)
Lemma load_updates_null_end :
  events Json.loads Demo.null_end_log = [Demo.null_end_event; Demo.end_event "fin"]
  /\ Forall (fun event => is_kind event "tool_execution_update" = false)
       (events Json.loads Demo.null_end_log)
  /\ end_text (Demo.end_event "fin") = Some "fin"
  /\ load_updates Json.loads (Demo.world_of Demo.null_end_log) (LOG_PATH Demo.ROOT)
     = Raise AttributeError.
Proof.
  split; [vm_compute; reflexivity|]. split; [check_all|].
  split; vm_compute; reflexivity.
Qed.

Lemma load_updates_final_summary_witness :
  let w := Demo.world_of Demo.scenario_log in
  let p := LOG_PATH Demo.ROOT in
  let pre := [ Demo.update_event "searching...";
               Demo.update_event "searching... (2 files)";
               Demo.update_event "searching... (2 files)" ] in
  let text := "found 1 match" +:+ PyStr.LF +:+ "in file.py" in
  let recorded :=
    updates (foldl record_event (ScanState [] None)
               (events Json.loads Demo.scenario_log)) in
  (files w !! p = Some (TextFile Demo.scenario_log)
   /\ Forall (fun e => well_formed_event e = true) (events Json.loads Demo.scenario_log)
   /\ events Json.loads Demo.scenario_log = pre ++ Demo.end_event text :: []
   /\ end_text (Demo.end_event text) = Some text
   /\ Forall (fun e => end_text e = None) [])
  /\ exists us,
       load_updates Json.loads w p = Ok us
       /\ sample (recorded ++ [done_entry text]) = Ok us
       /\ last us = Some (done_entry text).
Proof.
  intros w p pre text recorded.
  assert (H : files w !! p = Some (TextFile Demo.scenario_log)
              /\ Forall (fun e => well_formed_event e = true)
                   (events Json.loads Demo.scenario_log)
              /\ events Json.loads Demo.scenario_log = pre ++ Demo.end_event text :: []
              /\ end_text (Demo.end_event text) = Some text
              /\ Forall (fun e => end_text e = None) []).
  { split; [vm_compute; reflexivity|].
    split; [check_all|].
    split; [vm_compute; reflexivity|].
    split; [vm_compute; reflexivity | constructor]. }
  split; [exact H|]. destruct H as (H1 & H2 & H3 & H4 & H5).
  exact (load_updates_final_summary Json.loads w p Demo.scenario_log pre []
           (Demo.end_event text) text H1 H2 H3 H4 H5).
Defined.

Lemma load_updates_skips_lines_witness :
  let w := Demo.world_of Demo.noisy_log in
  let w' := Demo.world_of Demo.quiet_log in
  let p := LOG_PATH Demo.ROOT in
  (files w !! p = Some (TextFile Demo.noisy_log)
   /\ files w' !! p = Some (TextFile Demo.quiet_log)
   /\ PyStr.splitlines Demo.quiet_log
      = List.filter (fun l => negb (skipped Json.loads l))
          (PyStr.splitlines Demo.noisy_log))
  /\ (forall st raw_line,
         skipped Json.loads raw_line = true ->
         scan_line Json.loads st raw_line = Ok st)
  /\ load_updates Json.loads w p = load_updates Json.loads w' p.
Proof.
  intros w w' p.
  assert (H : files w !! p = Some (TextFile Demo.noisy_log)
              /\ files w' !! p = Some (TextFile Demo.quiet_log)
              /\ PyStr.splitlines Demo.quiet_log
                 = List.filter (fun l => negb (skipped Json.loads l))
                     (PyStr.splitlines Demo.noisy_log)).
  { repeat split; vm_compute; reflexivity. }
  split; [exact H|]. destruct H as (H1 & H2 & H3).
  exact (load_updates_skips_lines Json.loads w w' p Demo.noisy_log Demo.quiet_log
           H1 H2 H3).
Defined.

Lemma load_updates_end_only_witness :
  let w := Demo.world_of Demo.end_only_log in
  let p := LOG_PATH Demo.ROOT in
  let evs := events Json.loads Demo.end_only_log in
  let text := PyStr.join PyStr.LF ["1"; "2"; "3"; "4"; "5"; "6"; "7"; "8"; "9"] in
  let event := Demo.end_event (" " +:+ text +:+ " ") in
  (files w !! p = Some (TextFile Demo.end_only_log)
   /\ Forall (fun e => well_formed_event e = true) evs
   /\ Forall (fun e => is_kind e "tool_execution_update" = false) evs
   /\ evs = [Demo.end_event "first"] ++ event :: []
   /\ end_text event = Some text
   /\ Forall (fun e => end_text e = None) [])
  /\ load_updates Json.loads w p
     = Ok ["Done." +:+ PyStr.LF +:+ PyStr.join PyStr.LF ["1"; "2"; "3"; "4"; "5"; "6"; "7"]].
Proof.
  intros w p evs text event.
  assert (H : files w !! p = Some (TextFile Demo.end_only_log)
              /\ Forall (fun e => well_formed_event e = true) evs
              /\ Forall (fun e => is_kind e "tool_execution_update" = false) evs
              /\ evs = [Demo.end_event "first"] ++ event :: []
              /\ end_text event = Some text
              /\ Forall (fun e => end_text e = None) []).
  { split; [vm_compute; reflexivity|].
    split; [check_all|].
    split; [check_all|].
    split; [vm_compute; reflexivity|].
    split; [vm_compute; reflexivity | constructor]. }
  split; [exact H|]. destruct H as (H1 & H2 & H3 & H4 & H5 & H6).
  exact (load_updates_end_only Json.loads w p Demo.end_only_log
           [Demo.end_event "first"] [] event text H1 H2 H3 H4 H5 H6).
Defined.

Lemma assemble_frames_and_durations_witness :
  let w := Demo.empty_world in
  let us := ["a"; "b"; "c"] in
  (us <> [] /\ removelast (OUT_PATH Demo.ROOT) ∈ dirs w)
  /\ exists a,
       snd (assemble Demo.ROOT w us) = Ok tt
       /\ files (fst (assemble Demo.ROOT w us)) !! OUT_PATH Demo.ROOT = Some (ImageFile a)
       /\ length (frames a) = length us
       /\ length (duration a) = length us
       /\ (2 <= length us -> duration a !! 0 = Some 900%Z)
       /\ duration a !! (length us - 1) = Some 1700%Z
       /\ (forall i, 0 < i < length us - 1 -> duration a !! i = Some 520%Z)
       /\ (length us = 1 -> duration a = [1700%Z])
       /\ loop a = 0%Z.
Proof.
  intros w us.
  assert (H : us <> [] /\ removelast (OUT_PATH Demo.ROOT) ∈ dirs w).
  { split; [discriminate | vm_compute; reflexivity]. }
  split; [exact H|]. destruct H as [H1 H2].
  exact (assemble_frames_and_durations Demo.ROOT w us H1 H2).
Defined.

Lemma main_no_updates_witness :
  let w := Demo.world_of Demo.idle_log in
  let evs := events Json.loads Demo.idle_log in
  (files w !! LOG_PATH Demo.ROOT = Some (TextFile Demo.idle_log)
   /\ Forall (fun e => well_formed_event e = true) evs
   /\ Forall (fun e => update_text e = None) evs
   /\ Forall (fun e => end_text e = None) evs)
  /\ load_updates Json.loads w (LOG_PATH Demo.ROOT)
     = Raise (RuntimeError ("No tool_execution_update events found in "
                            +:+ path_str (LOG_PATH Demo.ROOT)))
  /\ (exists e, snd (main Json.loads Demo.ROOT w) = Raise e)
  /\ files (fst (main Json.loads Demo.ROOT w)) = files w.
Proof.
  intros w evs.
  assert (H : files w !! LOG_PATH Demo.ROOT = Some (TextFile Demo.idle_log)
              /\ Forall (fun e => well_formed_event e = true) evs
              /\ Forall (fun e => update_text e = None) evs
              /\ Forall (fun e => end_text e = None) evs).
  { split; [vm_compute; reflexivity|].
    repeat split; check_all. }
  split; [exact H|]. destruct H as (H1 & H2 & H3 & H4).
  exact (main_no_updates Json.loads Demo.ROOT w Demo.idle_log H1 H2 H3 H4).
Defined.

Lemma scenario_updates_and_durations_witness :
  let w := Demo.world_of Demo.scenario_log in
  let e1 := Demo.update_event "searching..." in
  let e2 := Demo.update_event "searching... (2 files)" in
  let e4 := Demo.end_event ("found 1 match" +:+ PyStr.LF +:+ "in file.py") in
  (files w !! LOG_PATH Demo.ROOT = Some (TextFile Demo.scenario_log)
   /\ snd (mkdir w (removelast (OUT_PATH Demo.ROOT))) = Ok tt
   /\ events Json.loads Demo.scenario_log = [e1; e2; e2; e4]
   /\ event_with_text e1 "tool_execution_update" "partialResult" "searching..."
   /\ event_with_text e2 "tool_execution_update" "partialResult" "searching... (2 files)"
   /\ event_with_text e4 "tool_execution_end" "result"
        ("found 1 match" +:+ PyStr.LF +:+ "in file.py"))
  /\ load_updates Json.loads w (LOG_PATH Demo.ROOT)
     = Ok [ "searching..."; "searching... (2 files)";
            "Done." +:+ PyStr.LF +:+ "found 1 match" +:+ PyStr.LF +:+ "in file.py" ]
  /\ exists a,
       snd (main Json.loads Demo.ROOT w) = Ok tt
       /\ files (fst (main Json.loads Demo.ROOT w)) !! OUT_PATH Demo.ROOT
          = Some (ImageFile a)
       /\ length (frames a) = 3
       /\ duration a = [900; 520; 1700]%Z.
Proof.
  intros w e1 e2 e4.
  assert (H : files w !! LOG_PATH Demo.ROOT = Some (TextFile Demo.scenario_log)
              /\ snd (mkdir w (removelast (OUT_PATH Demo.ROOT))) = Ok tt
              /\ events Json.loads Demo.scenario_log = [e1; e2; e2; e4]
              /\ event_with_text e1 "tool_execution_update" "partialResult" "searching..."
              /\ event_with_text e2 "tool_execution_update" "partialResult"
                   "searching... (2 files)"
              /\ event_with_text e4 "tool_execution_end" "result"
                   ("found 1 match" +:+ PyStr.LF +:+ "in file.py")).
  { repeat split; vm_compute; reflexivity. }
  split; [exact H|]. destruct H as (H1 & H2 & H3 & H4 & H5 & H6).
  exact (scenario_updates_and_durations Json.loads Demo.ROOT w Demo.scenario_log
           e1 e2 e2 e4 H1 H2 H3 H4 H5 H5 H6).
Defined.

(** ** The word wrap: the width of the lines *)

Lemma append_cons (c : ascii) (s1 s2 : string) :
  String c s1 +:+ s2 = String c (s1 +:+ s2).
Proof. reflexivity. Qed.

Lemma append_nil (s : string) : EmptyString +:+ s = s.
Proof. reflexivity. Qed.

Lemma length_append (s1 s2 : string) :
  String.length (s1 +:+ s2) = String.length s1 + String.length s2.
Proof.
  induction s1 as [|c s1 IH]; [reflexivity|].
  rewrite append_cons. simpl. rewrite IH. reflexivity.
Qed.

Lemma length_concat_total (l : list string) :
  String.length (String.concat EmptyString l) = total l.
Proof.
  induction l as [|x l IH]; [reflexivity|].
  destruct l as [|y l].
  - simpl. lia.
  - change (String.concat EmptyString (x :: y :: l))
      with (x +:+ EmptyString +:+ String.concat EmptyString (y :: l)).
    rewrite !length_append, IH. simpl. lia.
Qed.

Lemma total_app (a b : list string) : total (a ++ b) = total a + total b.
Proof. induction a as [|x a IH]; simpl; [reflexivity | rewrite IH; lia]. Qed.

Lemma total_removelast (l : list string) : total (removelast l) <= total l.
Proof.
  induction l as [|x l IH]; [simpl; lia|].
  destruct l as [|y l]; [simpl; lia|].
  change (removelast (x :: y :: l)) with (x :: removelast (y :: l)).
  change (total (x :: y :: l)) with (String.length x + total (y :: l)).
  change (total (x :: removelast (y :: l)))
    with (String.length x + total (removelast (y :: l))).
  lia.
Qed.

Lemma weight_total (chunks : list string) :
  textwrap.weight chunks = length chunks + total chunks.
Proof. induction chunks as [|c l IH]; simpl; [reflexivity | rewrite IH; lia]. Qed.

Lemma prefix_suffix (n : nat) (s : string) :
  textwrap.prefix n s +:+ textwrap.suffix n s = s.
Proof.
  revert s. induction n as [|n IH]; intros [|c s]; simpl; try reflexivity.
  rewrite append_cons. f_equal. apply IH.
Qed.

Lemma prefix_length (n : nat) (s : string) :
  String.length (textwrap.prefix n s) = Nat.min n (String.length s).
Proof.
  revert s. induction n as [|n IH]; intros [|c s]; simpl; try reflexivity.
  rewrite IH. reflexivity.
Qed.

Lemma suffix_length (n : nat) (s : string) :
  String.length (textwrap.suffix n s) = String.length s - n.
Proof.
  revert s. induction n as [|n IH]; intros [|c s]; simpl; try reflexivity.
  apply IH.
Qed.

Lemma rfind_hyphen_bound (i limit : nat) (s : string) (j : nat) :
  textwrap.rfind_hyphen i limit s = Some j -> j < i + limit.
Proof.
  revert i s. induction limit as [|limit IH]; intros i [|c s]; simpl; try discriminate.
  destruct (textwrap.rfind_hyphen (S i) limit s) as [k|] eqn:E.
  - intros [= <-]. apply IH in E. lia.
  - destruct (Ascii.eqb c textwrap.HYPHEN); [|discriminate].
    intros [= <-]. lia.
Qed.

(** The inner loop takes chunks from the front while the line has room. *)
Lemma fill_spec (width : nat) (cur_line : list string) (cur_len : nat)
  (chunks cl rest : list string) (len : nat) :
  textwrap.fill width cur_line cur_len chunks = (cl, len, rest) ->
  exists taken,
    cl = cur_line ++ taken
    /\ chunks = taken ++ rest
    /\ len = cur_len + total taken
    /\ (cur_len <= width -> len <= width)
    /\ match rest with
       | [] => True
       | chunk :: _ => width < len + String.length chunk
       end.
Proof.
  revert cur_line cur_len. induction chunks as [|chunk chunks IH];
    intros cur_line cur_len; simpl.
  - intros [= <- <- <-]. exists []. rewrite app_nil_r. simpl. repeat split; lia.
  - destruct (Nat.leb_spec (cur_len + String.length chunk) width) as [Hfit | Hno].
    + intros H. apply IH in H as (taken & -> & -> & -> & Hle & Hrest).
      exists (chunk :: taken). rewrite <- app_assoc. simpl.
      repeat split; try lia. exact Hrest.
    + intros [= <- <- <-]. exists []. rewrite app_nil_r. simpl.
      repeat split; lia.
Qed.

(** A chunk that is too long for any line is cut where the line ends, or
    after a hyphen before that. *)
Lemma handle_long_word_spec (chunk : string) (cur_len width : nat) :
  1 <= width -> cur_len <= width ->
  let piece := fst (textwrap._handle_long_word chunk cur_len width) in
  let remainder := snd (textwrap._handle_long_word chunk cur_len width) in
  piece +:+ remainder = chunk
  /\ String.length piece <= width - cur_len
  /\ (cur_len = 0 -> width < String.length chunk ->
      String.length remainder < String.length chunk).
Proof.
  intros Hw Hc. unfold textwrap._handle_long_word.
  destruct (Nat.ltb_spec width 1); [lia|].
  set (space_left := width - cur_len).
  set (stop := if (space_left <? String.length chunk)%nat then _ else _).
  assert (Hstop : stop <= space_left /\ (1 <= space_left -> 1 <= stop)).
  { subst stop. destruct (space_left <? String.length chunk)%nat; [|lia].
    destruct (textwrap.rfind_hyphen 0 space_left chunk) as [hyphen|] eqn:E; [|lia].
    apply rfind_hyphen_bound in E.
    destruct ((0 <? hyphen)%nat && _); lia. }
  simpl. split; [apply prefix_suffix|].
  rewrite prefix_length, suffix_length. split; [lia|].
  intros -> Hlong. subst space_left. lia.
Qed.

(** One pass takes something away from the chunks, and the line it makes
    fits the width. *)
Lemma wrap_pass_spec (width : nat) (started : bool) (chunks chunks' : list string)
  (line : option string) :
  1 <= width -> chunks <> [] ->
  textwrap.wrap_pass width started chunks = (line, chunks') ->
  textwrap.weight chunks' < textwrap.weight chunks
  /\ (forall l, line = Some l -> String.length l <= width).
Proof.
  intros Hw Hne. unfold textwrap.wrap_pass.
  set (chunks1 := match chunks with [] => [] | chunk :: rest => _ end).
  assert (H1 : textwrap.weight chunks1 <= textwrap.weight chunks
               /\ (chunks1 = chunks \/ textwrap.weight chunks1 < textwrap.weight chunks)).
  { subst chunks1. destruct chunks as [|c rest]; [congruence|].
    destruct (textwrap.blank c && started); simpl; split; auto; lia. }
  destruct (textwrap.fill width [] 0 chunks1) as [[cur_line cur_len] chunks2] eqn:Ef.
  apply fill_spec in Ef as (taken & Hcl & Hch & Hlen & Hle & Hrest).
  simpl in Hcl, Hlen. subst cur_line cur_len.
  specialize (Hle ltac:(lia)).
  assert (H2 : textwrap.weight chunks1 = textwrap.weight chunks2 + length taken + total taken).
  { rewrite Hch, !weight_total, length_app, total_app. lia. }
  set (r := match chunks2 with [] => _ | chunk :: rest => _ end).
  assert (Hr : textwrap.weight (snd r) <= textwrap.weight chunks2
               /\ total (fst r) <= width
               /\ (taken = [] -> chunks2 <> [] ->
                   textwrap.weight (snd r) < textwrap.weight chunks2)).
  { subst r. destruct chunks2 as [|chunk rest]; [simpl; repeat split; try lia; congruence|].
    destruct (Nat.ltb_spec width (String.length chunk)) as [Hlong | Hshort].
    - destruct (handle_long_word_spec chunk (total taken) width Hw Hle)
        as (Hcat & Hpiece & Hprog).
      destruct (textwrap._handle_long_word chunk (total taken) width)
        as [piece remainder]. simpl in *.
      rewrite total_app. simpl.
      assert (String.length remainder <= String.length chunk).
      { rewrite <- Hcat, length_append. lia. }
      repeat split; try lia.
      intros -> _. simpl in Hprog. specialize (Hprog eq_refl Hlong). lia.
    - simpl. repeat split; try lia.
      intros -> _. simpl in Hrest. lia. }
  destruct r as [cur_line1 chunks3]. simpl in Hr. destruct Hr as (Hr1 & Hr2 & Hr3).
  set (cur_line2 := match last cur_line1 with Some chunk => _ | None => _ end).
  assert (H3 : total cur_line2 <= width).
  { subst cur_line2. destruct (last cur_line1) as [chunk|]; [|lia].
    destruct (textwrap.blank chunk); [|lia].
    pose proof (total_removelast cur_line1). lia. }
  intros [= <- <-]. split.
  - destruct H1 as [H1 [-> | Hlt]]; [|lia].
    destruct taken as [|t taken]; [|simpl in H2; lia].
    simpl in Hch. subst chunks2. specialize (Hr3 eq_refl Hne). lia.
  - intros l. destruct cur_line2 as [|x xs] eqn:E; [discriminate|].
    intros Hl. assert (El : l = String.concat EmptyString (x :: xs)) by congruence.
    rewrite El, length_concat_total. exact H3.
Qed.

(** The outer loop does not run out of passes, and every line it adds fits
    the width. *)
Lemma wrap_loop_spec (width fuel : nat) (lines chunks : list string) :
  1 <= width ->
  textwrap.weight chunks <= fuel ->
  Forall (fun l => String.length l <= width) lines ->
  exists out,
    textwrap.wrap_loop fuel width lines chunks = Some out
    /\ Forall (fun l => String.length l <= width) out.
Proof.
  intros Hw. revert lines chunks.
  induction fuel as [|fuel IH]; intros lines chunks Hfuel Hlines.
  - destruct chunks as [|c rest]; [simpl; eauto | simpl in Hfuel; lia].
  - destruct chunks as [|c rest]; [simpl; eauto|].
    cbn [textwrap.wrap_loop].
    destruct (textwrap.wrap_pass width _ (c :: rest)) as [line chunks'] eqn:Ep.
    apply wrap_pass_spec in Ep as [Hlt Hline]; [|exact Hw|discriminate].
    apply IH; [lia|].
    destruct line as [l|]; [|exact Hlines].
    apply Forall_app. split; [exact Hlines|]. repeat constructor. auto.
Qed.

(** Every line of [textwrap.wrap] is at most [width] characters long. *)
Lemma wrap_width (text : string) (width : nat) :
  1 <= width ->
  Forall (fun l => String.length l <= width) (textwrap.wrap text width).
Proof.
  intros Hw. unfold textwrap.wrap, textwrap._wrap_chunks.
  destruct (wrap_loop_spec width (textwrap.weight (textwrap._split (textwrap._munge_whitespace text)))
              [] (textwrap._split (textwrap._munge_whitespace text)) Hw)
    as (out & -> & Hout); [lia | constructor | exact Hout].
Qed.

(** ** Words *)

Lemma append_empty_r (s : string) : s +:+ EmptyString = s.
Proof.
  induction s as [|c s IH]; [reflexivity|]. rewrite append_cons, IH. reflexivity.
Qed.

Lemma append_assoc (a b c : string) : (a +:+ b) +:+ c = a +:+ (b +:+ c).
Proof.
  induction a as [|x a IH]; [reflexivity|]. rewrite !append_cons, IH. reflexivity.
Qed.

Lemma concat_cons (chunk : string) (rest : list string) :
  String.concat EmptyString (chunk :: rest)
  = chunk +:+ String.concat EmptyString rest.
Proof.
  destruct rest as [|y rest]; [simpl; rewrite append_empty_r|]; reflexivity.
Qed.

Lemma concat_app (a b : list string) :
  String.concat EmptyString (a ++ b)
  = String.concat EmptyString a +:+ String.concat EmptyString b.
Proof.
  induction a as [|x a IH]; [reflexivity|].
  change ((x :: a) ++ b) with (x :: (a ++ b)).
  rewrite !concat_cons, IH, append_assoc. reflexivity.
Qed.

Lemma all_chars_append (p : ascii -> bool) (a b : string) :
  all_chars p (a +:+ b) = all_chars p a && all_chars p b.
Proof.
  induction a as [|c a IH]; [reflexivity|].
  rewrite append_cons. cbn [all_chars]. rewrite IH, andb_assoc. reflexivity.
Qed.

Lemma words_cons_space (c : ascii) (s : string) :
  PyStr.isspace c = true -> words (String c s) = words s.
Proof. intros H. simpl. rewrite H. reflexivity. Qed.

(** White space in front of a text adds no word. *)
Lemma words_space_append (x s : string) :
  space_chunk x = true -> words (x +:+ s) = words s.
Proof.
  unfold space_chunk. induction x as [|c x IH]; [reflexivity|]. cbn [all_chars].
  intros H. apply andb_true_iff in H as [Hc Hx].
  rewrite append_cons, (words_cons_space _ _ Hc). exact (IH Hx).
Qed.

Lemma words_space (x : string) : space_chunk x = true -> words x = [].
Proof.
  intros H. rewrite <- (append_empty_r x). rewrite (words_space_append _ _ H).
  reflexivity.
Qed.

Lemma starts_word_append (a b : string) :
  starts_word (a +:+ b) = if PyStr.truthy a then starts_word a else starts_word b.
Proof. destruct a; reflexivity. Qed.

Lemma starts_word_space (x : string) : space_chunk x = true -> starts_word x = false.
Proof.
  destruct x as [|c x]; [reflexivity|]. unfold space_chunk. simpl.
  intros H. apply andb_true_iff in H as [-> _]. reflexivity.
Qed.

(** White space behind a text adds no word. *)
Lemma words_append_space (s x : string) :
  space_chunk x = true -> words (s +:+ x) = words s.
Proof.
  intros Hx. induction s as [|c s IH]; [exact (words_space x Hx)|].
  rewrite append_cons. cbn [words]. rewrite IH, starts_word_append.
  destruct s as [|d s]; [|reflexivity].
  cbn [PyStr.truthy]. rewrite (starts_word_space _ Hx). reflexivity.
Qed.

(** A word in front of a text that does not go on with it is a word of its
    own. *)
Lemma words_word_append (w s : string) :
  word_chunk w = true -> starts_word s = false ->
  words (w +:+ s) = w :: words s.
Proof.
  intros Hw Hs. unfold word_chunk in Hw. apply andb_true_iff in Hw as [Hst Hw].
  destruct w as [|c w]; [discriminate Hst|]. clear Hst.
  revert c Hw. induction w as [|d w IH]; intros c Hw; cbn [all_chars] in Hw.
  - apply andb_true_iff in Hw as [Hc _]. apply negb_true_iff in Hc.
    rewrite append_cons, append_nil. cbn [words]. rewrite Hc, Hs. reflexivity.
  - apply andb_true_iff in Hw as [Hc Hw]. apply negb_true_iff in Hc.
    rewrite append_cons. cbn [words]. rewrite Hc.
    rewrite (IH d Hw). cbn [all_chars] in Hw. apply andb_true_iff in Hw as [Hd _].
    rewrite append_cons. cbn [starts_word]. rewrite Hd. reflexivity.
Qed.

Lemma words_word (w : string) : word_chunk w = true -> words w = [w].
Proof.
  intros H. rewrite <- (append_empty_r w) at 1.
  rewrite (words_word_append w EmptyString H eq_refl). reflexivity.
Qed.

Lemma space_next_starts (chunks : list string) :
  space_next chunks = true ->
  starts_word (String.concat EmptyString chunks) = false.
Proof.
  destruct chunks as [|chunk rest]; [reflexivity|]. simpl space_next.
  intros H. apply andb_true_iff in H as [Ht Hs].
  rewrite concat_cons, starts_word_append, Ht. exact (starts_word_space _ Hs).
Qed.

(** The words of separated chunks put together are the words of the
    chunks. *)
Lemma words_concat (chunks : list string) :
  separated chunks = true ->
  words (String.concat EmptyString chunks) = flat_map words chunks.
Proof.
  induction chunks as [|chunk rest IH]; [reflexivity|]. cbn [separated flat_map].
  intros H. apply andb_true_iff in H as [Hc Hrest]. rewrite concat_cons.
  apply orb_true_iff in Hc as [Hs | Hw].
  - rewrite (words_space_append _ _ Hs), (words_space _ Hs). exact (IH Hrest).
  - apply andb_true_iff in Hw as [Hw Hn].
    rewrite (words_word_append _ _ Hw (space_next_starts _ Hn)), (words_word _ Hw).
    rewrite (IH Hrest). reflexivity.
Qed.

Lemma separated_app_r (a b : list string) :
  separated (a ++ b) = true -> separated b = true.
Proof.
  induction a as [|x a IH]; [auto|]. cbn [app separated].
  intros H. apply andb_true_iff in H as [_ H]. exact (IH H).
Qed.

Lemma separated_app_l (a b : list string) :
  separated (a ++ b) = true -> separated a = true.
Proof.
  induction a as [|x a IH]; [reflexivity|]. cbn [app separated].
  intros H. apply andb_true_iff in H as [Hx H]. rewrite (IH H), andb_true_r.
  apply orb_true_iff in Hx as [-> | Hx]; [reflexivity|].
  apply andb_true_iff in Hx as [-> Hn]. rewrite orb_true_iff. right.
  destruct a as [|y a]; [reflexivity | exact Hn].
Qed.

(** White space is exactly what [strip] leaves nothing of. *)
Lemma rstrip_space (x : string) : space_chunk x = true -> PyStr.rstrip x = EmptyString.
Proof.
  unfold space_chunk. induction x as [|c x IH]; [reflexivity|]. cbn [all_chars].
  intros H. apply andb_true_iff in H as [Hc Hx]. simpl. rewrite (IH Hx), Hc.
  reflexivity.
Qed.

Lemma space_blank (x : string) : space_chunk x = true -> textwrap.blank x = true.
Proof.
  intros H. unfold textwrap.blank, PyStr.strip. rewrite (rstrip_space _ H).
  reflexivity.
Qed.

Lemma lstrip_empty (s : string) :
  PyStr.lstrip s = EmptyString -> space_chunk s = true.
Proof.
  unfold space_chunk. induction s as [|c s IH]; [reflexivity|]. simpl.
  destruct (PyStr.isspace c); [exact IH | discriminate].
Qed.

Lemma rstrip_empty (s : string) :
  PyStr.rstrip s = EmptyString -> space_chunk s = true.
Proof.
  unfold space_chunk. induction s as [|c s IH]; [reflexivity|]. simpl.
  destruct (PyStr.rstrip s) as [|d r]; [|discriminate].
  destruct (PyStr.isspace c); [intros _; exact (IH eq_refl) | discriminate].
Qed.

Lemma rstrip_space_chunk (s : string) :
  space_chunk (PyStr.rstrip s) = true -> PyStr.rstrip s = EmptyString.
Proof.
  unfold space_chunk. induction s as [|c s IH]; [reflexivity|]. simpl.
  destruct (PyStr.rstrip s) as [|d r].
  - destruct (PyStr.isspace c) eqn:Hc; [reflexivity|]. simpl. rewrite Hc. discriminate.
  - cbn [all_chars]. intros H. apply andb_true_iff in H as [_ H].
    specialize (IH H). discriminate.
Qed.

Lemma blank_space (x : string) : textwrap.blank x = true -> space_chunk x = true.
Proof.
  unfold textwrap.blank, PyStr.strip. intros H.
  destruct (PyStr.lstrip (PyStr.rstrip x)) eqn:E; [|discriminate].
  apply rstrip_empty, rstrip_space_chunk, lstrip_empty, E.
Qed.

Lemma blank_words (x : string) : textwrap.blank x = true -> words x = [].
Proof. intros H. apply words_space, blank_space, H. Qed.

Lemma space_chunk_prefix (n : nat) (x : string) :
  space_chunk x = true -> space_chunk (textwrap.prefix n x) = true.
Proof.
  unfold space_chunk. revert x. induction n as [|n IH]; intros [|c x]; simpl; auto.
  intros H. apply andb_true_iff in H as [-> H]. exact (IH _ H).
Qed.

Lemma space_chunk_suffix (n : nat) (x : string) :
  space_chunk x = true -> space_chunk (textwrap.suffix n x) = true.
Proof.
  unfold space_chunk. revert x. induction n as [|n IH]; intros [|c x]; simpl; auto.
  intros H. apply andb_true_iff in H as [_ H]. exact (IH _ H).
Qed.

(** ** The word wrap: where the lines break *)

(** One pass over separated chunks, of which only white space is longer
    than the width: the line holds the words of the chunks it takes, and no
    word is cut. *)
Lemma wrap_pass_words (width : nat) (started : bool) (chunks chunks' : list string)
  (line : option string) :
  separated chunks = true ->
  Forall (fun c => space_chunk c = true \/ String.length c <= width) chunks ->
  textwrap.wrap_pass width started chunks = (line, chunks') ->
  separated chunks' = true
  /\ Forall (fun c => space_chunk c = true \/ String.length c <= width) chunks'
  /\ flat_map words chunks
     = from_option words [] line ++ flat_map words chunks'.
Proof.
  intros Hsep Hshort. unfold textwrap.wrap_pass.
  set (chunks1 := match chunks with [] => [] | chunk :: rest => _ end).
  assert (H1 : separated chunks1 = true
               /\ Forall (fun c => space_chunk c = true \/ String.length c <= width) chunks1
               /\ flat_map words chunks = flat_map words chunks1).
  { subst chunks1. destruct chunks as [|c rest]; [auto|].
    destruct (textwrap.blank c && started) eqn:E; [|auto].
    apply andb_true_iff in E as [Hb _].
    split; [exact (separated_app_r [c] rest Hsep)|].
    split; [exact (Forall_inv_tail Hshort)|].
    cbn [flat_map]. rewrite (blank_words _ Hb). reflexivity. }
  destruct H1 as (Hsep1 & Hshort1 & ->). clearbody chunks1.
  destruct (textwrap.fill width [] 0 chunks1) as [[cur_line cur_len] chunks2] eqn:Ef.
  apply fill_spec in Ef as (taken & Hcl & Hch & _ & _ & _).
  simpl in Hcl. subst cur_line chunks1.
  pose proof (separated_app_l _ _ Hsep1) as Hsep_t.
  pose proof (separated_app_r _ _ Hsep1) as Hsep2.
  apply Forall_app in Hshort1 as [_ Hshort2].
  set (r := match chunks2 with [] => _ | chunk :: rest => _ end).
  assert (Hr : separated (snd r) = true
               /\ Forall (fun c => space_chunk c = true \/ String.length c <= width) (snd r)
               /\ flat_map words (snd r) = flat_map words chunks2
               /\ (fst r = taken
                   \/ exists piece, fst r = taken ++ [piece] /\ space_chunk piece = true)).
  { subst r. destruct chunks2 as [|chunk rest]; [auto|].
    destruct (Nat.ltb_spec width (String.length chunk)) as [Hlong | Hok]; [|auto].
    assert (Hs : space_chunk chunk = true).
    { destruct (Forall_inv Hshort2) as [Hs | Hle]; [exact Hs | lia]. }
    unfold textwrap._handle_long_word. cbn [fst snd].
    set (stop := if (_ <? String.length chunk)%nat then _ else _). clearbody stop.
    pose proof (space_chunk_prefix stop _ Hs) as Hp.
    pose proof (space_chunk_suffix stop _ Hs) as Hx.
    split; [|split; [|split]].
    - cbn [separated]. rewrite Hx. exact (separated_app_r [chunk] rest Hsep2).
    - constructor; [auto | exact (Forall_inv_tail Hshort2)].
    - cbn [flat_map]. rewrite (words_space _ Hx), (words_space _ Hs). reflexivity.
    - right. eauto. }
  destruct r as [cur_line1 chunks3]. cbn [fst snd] in Hr.
  destruct Hr as (Hsep3 & Hshort3 & Hw3 & Hcl1).
  set (cur_line2 := match last cur_line1 with Some chunk => _ | None => _ end).
  assert (H2 : separated cur_line2 = true
               /\ flat_map words cur_line2 = flat_map words taken).
  { subst cur_line2. destruct Hcl1 as [-> | (piece & -> & Hp)].
    - destruct (last taken) as [b|] eqn:El; [|auto].
      destruct (textwrap.blank b) eqn:Hb; [|auto].
      apply last_Some in El as [init ->]. rewrite removelast_last.
      split; [exact (separated_app_l _ _ Hsep_t)|].
      rewrite flat_map_app. cbn [flat_map].
      rewrite (blank_words _ Hb), !app_nil_r. reflexivity.
    - rewrite last_snoc, (space_blank _ Hp), removelast_last. auto. }
  destruct H2 as [Hsep_l Hw_l]. clearbody cur_line2.
  intros [= <- <-]. split; [exact Hsep3|]. split; [exact Hshort3|].
  rewrite flat_map_app, Hw3, <- Hw_l. f_equal.
  destruct cur_line2 as [|x xs]; [reflexivity|].
  cbn [from_option]. symmetry. exact (words_concat _ Hsep_l).
Qed.

Lemma wrap_loop_words (width fuel : nat) (lines chunks out : list string) :
  separated chunks = true ->
  Forall (fun c => space_chunk c = true \/ String.length c <= width) chunks ->
  textwrap.wrap_loop fuel width lines chunks = Some out ->
  flat_map words out = flat_map words lines ++ flat_map words chunks.
Proof.
  revert lines chunks. induction fuel as [|fuel IH]; intros lines chunks Hsep Hshort.
  - destruct chunks; [|discriminate]. intros [= <-]. rewrite app_nil_r. reflexivity.
  - destruct chunks as [|c rest].
    { intros [= <-]. rewrite app_nil_r. reflexivity. }
    cbn [textwrap.wrap_loop].
    destruct (textwrap.wrap_pass width _ (c :: rest)) as [line chunks'] eqn:Ep.
    apply (wrap_pass_words _ _ _ _ _ Hsep Hshort) in Ep as (Hsep' & Hshort' & Hw).
    intros Hout. rewrite (IH _ _ Hsep' Hshort' Hout), Hw.
    destruct line as [l|]; cbn [from_option].
    + rewrite flat_map_app, <- app_assoc. cbn [flat_map]. rewrite app_nil_r.
      reflexivity.
    + reflexivity.
Qed.

Lemma whitespace_isspace (c : ascii) :
  textwrap.is_whitespace c = true -> PyStr.isspace c = true.
Proof. destruct c as [[] [] [] [] [] [] [] []]; vm_compute; congruence. Qed.

(** The chunks of a text with no hyphen, whose white space is white space
    for the wrapper: runs of white space and words in turn, and together the
    text. *)
Lemma split_from_spec (s : string) :
  no_hyphen s = true -> plain_space s = true ->
  forall (m : textwrap.mode) (b3 b2 b1 : option ascii),
    m <> textwrap.InDashes ->
    let '(cur, later) := textwrap.split_from m b3 b2 b1 s in
    cur +:+ String.concat EmptyString later = s
    /\ separated later = true
    /\ match m with
       | textwrap.Start => cur = EmptyString
       | textwrap.InSpace => space_chunk cur = true
       | textwrap.InWord =>
           all_chars (fun c => negb (PyStr.isspace c)) cur = true
           /\ space_next later = true
       | textwrap.InDashes => True
       end.
Proof.
  unfold no_hyphen, plain_space.
  induction s as [|c s IH]; intros Hh Hp m b3 b2 b1 Hm.
  - simpl. repeat split; destruct m; auto; congruence.
  - cbn [all_chars] in Hh, Hp.
    apply andb_true_iff in Hh as [Hc Hh]. apply andb_true_iff in Hp as [Hpc Hp].
    apply negb_true_iff in Hc. specialize (IH Hh Hp).
    assert (Hdash : textwrap.dashes_then_word 0 (String c s) = false)
      by (simpl; rewrite Hc; reflexivity).
    cbn [textwrap.split_from]. unfold textwrap.advance, textwrap.fresh.
    rewrite Hdash, Hc, !andb_false_r. cbn [andb].
    destruct (textwrap.is_whitespace c) eqn:Hws.
    + pose proof (whitespace_isspace _ Hws) as Hsp.
      pose proof (IH textwrap.InSpace b2 b1 (Some c) ltac:(discriminate)) as Hrec.
      destruct (textwrap.split_from textwrap.InSpace b2 b1 (Some c) s)
        as [cur later] eqn:E.
      destruct Hrec as (Hcat & Hsep & Hcur).
      assert (Hchunk : space_chunk (String c cur) = true)
        by (unfold space_chunk in *; cbn [all_chars]; rewrite Hsp, Hcur; reflexivity).
      destruct m; try congruence; rewrite E.
      * rewrite concat_cons, append_nil, append_cons, Hcat.
        cbn [separated]. rewrite Hchunk, Hsep. auto.
      * rewrite append_cons, Hcat. auto.
      * rewrite concat_cons, append_nil, append_cons, Hcat.
        cbn [separated space_next PyStr.truthy all_chars].
        rewrite Hchunk, Hsep. auto.
    + rewrite orb_false_r in Hpc.
      pose proof (IH textwrap.InWord b2 b1 (Some c) ltac:(discriminate)) as Hrec.
      destruct (textwrap.split_from textwrap.InWord b2 b1 (Some c) s)
        as [cur later] eqn:E.
      destruct Hrec as (Hcat & Hsep & Hcur & Hnext).
      assert (Hchunk : word_chunk (String c cur) = true)
        by (unfold word_chunk; cbn [starts_word all_chars]; rewrite Hpc, Hcur;
            reflexivity).
      destruct m; try congruence; rewrite E.
      * rewrite concat_cons, append_nil, append_cons, Hcat.
        cbn [separated]. rewrite Hchunk, Hnext, Hsep, orb_true_r. auto.
      * rewrite concat_cons, append_nil, append_cons, Hcat.
        cbn [separated]. rewrite Hchunk, Hnext, Hsep, orb_true_r. auto.
      * rewrite append_cons, Hcat. cbn [all_chars]. rewrite Hpc, Hcur. auto.
Qed.

Lemma split_spec (text : string) :
  no_hyphen text = true -> plain_space text = true ->
  String.concat EmptyString (textwrap._split text) = text
  /\ separated (textwrap._split text) = true.
Proof.
  intros Hh Hp. unfold textwrap._split.
  pose proof (split_from_spec text Hh Hp textwrap.Start None None None
                ltac:(discriminate)) as H.
  destruct (textwrap.split_from textwrap.Start None None None text) as [cur later].
  destruct H as (Hcat & Hsep & ->). rewrite append_nil in Hcat. auto.
Qed.

(** ** White space made plain *)

Lemma translate_append (a b : string) :
  textwrap.translate (a +:+ b) = textwrap.translate a +:+ textwrap.translate b.
Proof.
  induction a as [|c a IH]; [reflexivity|].
  rewrite append_cons. cbn [textwrap.translate]. rewrite IH. reflexivity.
Qed.

Lemma translate_spaces (n : nat) :
  textwrap.translate (textwrap.spaces n) = textwrap.spaces n.
Proof. induction n as [|n IH]; [reflexivity|]. simpl. rewrite IH. reflexivity. Qed.

Lemma all_chars_spaces (p : ascii -> bool) (n : nat) :
  p textwrap.SPACE = true -> all_chars p (textwrap.spaces n) = true.
Proof. intros H. induction n as [|n IH]; [reflexivity|]. simpl. rewrite H, IH. reflexivity. Qed.

Lemma tab_isspace (c : ascii) : (PyStr.ord c =? 9)%N = true -> PyStr.isspace c = true.
Proof. destruct c as [[] [] [] [] [] [] [] []]; vm_compute; congruence. Qed.

Lemma newline_whitespace (c : ascii) :
  (PyStr.ord c =? 10)%N || (PyStr.ord c =? 13)%N = true ->
  textwrap.is_whitespace c = true.
Proof. destruct c as [[] [] [] [] [] [] [] []]; vm_compute; congruence. Qed.

(** A property of characters that the space has holds for the text with
    its white space made plain if it holds for the text. *)
Lemma all_chars_munge (p : ascii -> bool) (col : nat) (text : string) :
  p textwrap.SPACE = true ->
  all_chars p text = true ->
  all_chars p (textwrap.translate (textwrap.expandtabs col text)) = true.
Proof.
  intros Hsp. revert col. induction text as [|c text IH]; intros col; [reflexivity|].
  cbn [all_chars textwrap.expandtabs]. intros H. apply andb_true_iff in H as [Hc H].
  destruct (PyStr.ord c =? 9)%N.
  - rewrite translate_append, translate_spaces, all_chars_append.
    rewrite (all_chars_spaces _ _ Hsp). exact (IH _ H).
  - destruct ((PyStr.ord c =? 10)%N || (PyStr.ord c =? 13)%N);
      cbn [textwrap.translate all_chars]; rewrite (IH _ H), andb_true_r;
      destruct (textwrap.is_whitespace c); assumption.
Qed.

(** Making the white space plain changes no word. *)
Lemma words_munge (col : nat) (text : string) :
  words (textwrap.translate (textwrap.expandtabs col text)) = words text
  /\ starts_word (textwrap.translate (textwrap.expandtabs col text))
     = starts_word text.
Proof.
  revert col. induction text as [|c text IH]; intros col; [auto|].
  cbn [textwrap.expandtabs].
  destruct (PyStr.ord c =? 9)%N eqn:Htab.
  - pose proof (tab_isspace _ Htab) as Hsp.
    pose proof (Nat.mod_upper_bound col 8 ltac:(lia)) as Hmod.
    rewrite translate_append, translate_spaces.
    rewrite words_space_append by (apply all_chars_spaces; reflexivity).
    rewrite (proj1 (IH _)), (words_cons_space _ _ Hsp).
    split; [reflexivity|]. cbn [starts_word]. rewrite Hsp.
    destruct (8 - col mod 8) as [|k] eqn:E; [lia | reflexivity].
  - assert (Hsame : forall col',
               exists c', textwrap.translate (String c (textwrap.expandtabs col' text))
                          = String c' (textwrap.translate (textwrap.expandtabs col' text))
                          /\ PyStr.isspace c' = PyStr.isspace c
                          /\ (PyStr.isspace c = false -> c' = c)).
    { intros col'. cbn [textwrap.translate].
      destruct (textwrap.is_whitespace c) eqn:Hws.
      - exists textwrap.SPACE. rewrite (whitespace_isspace _ Hws).
        repeat split. discriminate.
      - exists c. auto. }
    assert (Hgoal : forall col',
               words (textwrap.translate (String c (textwrap.expandtabs col' text)))
               = words (String c text)
               /\ starts_word (textwrap.translate (String c (textwrap.expandtabs col' text)))
                  = starts_word (String c text)).
    { intros col'. destruct (Hsame col') as (c' & -> & Hc' & Heq).
      destruct (IH col') as [Hw Hs]. cbn [words starts_word].
      rewrite Hc', Hw, Hs. destruct (PyStr.isspace c) eqn:Hsp; [auto|].
      rewrite (Heq eq_refl). auto. }
    destruct ((PyStr.ord c =? 10)%N || (PyStr.ord c =? 13)%N); apply Hgoal.
Qed.

(** ** Words and the length of a line *)

Lemma join_space_length (w : string) (ws : list string) :
  String.length (PyStr.join " " (w :: ws))
  = String.length w
    + match ws with
      | [] => 0
      | _ :: _ => 1 + String.length (PyStr.join " " ws)
      end.
Proof.
  unfold PyStr.join. destruct ws as [|x ws]; [simpl; lia|].
  change (String.concat " " (w :: x :: ws))
    with (w +:+ " " +:+ String.concat " " (x :: ws)).
  rewrite !length_append. reflexivity.
Qed.

(** A text is at least as long as its words with one space between them,
    and longer if it starts with white space. *)
Lemma words_length (s : string) :
  String.length (PyStr.join " " (words s)) <= String.length s
  /\ (starts_word s = false -> words s <> [] ->
      String.length (PyStr.join " " (words s)) + 1 <= String.length s).
Proof.
  induction s as [|c s [IH1 IH2]]; [simpl; split; [lia | congruence]|].
  cbn [words starts_word String.length].
  destruct (PyStr.isspace c) eqn:Hc; cbn [negb].
  - split; [lia|]. intros _ _. lia.
  - split; [|discriminate].
    destruct (starts_word s) eqn:Hs.
    + destruct (words s) as [|w ws] eqn:Ew; [simpl; lia|].
      rewrite join_space_length in *. simpl String.length. lia.
    + rewrite join_space_length. simpl String.length.
      destruct (words s) as [|w ws] eqn:Ew; [lia|].
      specialize (IH2 eq_refl ltac:(discriminate)). lia.
Qed.

Lemma separated_kinds (chunks : list string) :
  separated chunks = true ->
  Forall (fun c => space_chunk c = true \/ word_chunk c = true) chunks.
Proof.
  induction chunks as [|c rest IH]; [constructor|]. cbn [separated].
  intros H. apply andb_true_iff in H as [Hc H]. constructor; [|exact (IH H)].
  apply orb_true_iff in Hc as [Hc | Hc]; [auto|].
  apply andb_true_iff in Hc as [Hc _]. auto.
Qed.

(** [textwrap.wrap] cuts no word of a line that has no hyphen, no white
    space but the wrapper's, and no word longer than the width. *)
Lemma wrap_words (line : string) (width : nat) :
  1 <= width ->
  no_hyphen line = true -> plain_space line = true ->
  Forall (fun w => String.length w <= width) (words line) ->
  flat_map words (textwrap.wrap line width) = words line.
Proof.
  intros Hw Hh Hp Hlen. unfold textwrap.wrap, textwrap._wrap_chunks.
  set (text := textwrap._munge_whitespace line).
  assert (Hh' : no_hyphen text = true) by (apply all_chars_munge; [reflexivity | exact Hh]).
  assert (Hp' : plain_space text = true) by (apply all_chars_munge; [reflexivity | exact Hp]).
  destruct (split_spec text Hh' Hp') as [Hcat Hsep].
  assert (Hwords : flat_map words (textwrap._split text) = words line).
  { rewrite <- (words_concat _ Hsep), Hcat. apply words_munge. }
  assert (Hshort : Forall (fun c => space_chunk c = true \/ String.length c <= width)
                     (textwrap._split text)).
  { apply Forall_forall. intros c Hin.
    pose proof (separated_kinds _ Hsep) as Hk.
    rewrite Forall_forall in Hk. destruct (Hk c Hin) as [Hs | Hwd]; [auto|].
    right. rewrite Forall_forall in Hlen. apply Hlen.
    rewrite <- Hwords. apply list_elem_of_In, in_flat_map. exists c.
    split; [apply list_elem_of_In, Hin|]. rewrite (words_word _ Hwd). left. reflexivity. }
  destruct (wrap_loop_spec width (textwrap.weight (textwrap._split text)) []
              (textwrap._split text) Hw ltac:(lia) ltac:(constructor))
    as (out & Hout & _).
  rewrite Hout. change (flat_map words out = words line).
  rewrite (wrap_loop_words _ _ _ _ _ Hsep Hshort Hout). exact Hwords.
Qed.

(** ** The word wrap of the frame renderer *)

Lemma draw_lines_fit (y : Z) (lines : list string) (f : font) :
  Forall (fun l => String.length l <= 64) lines ->
  Forall (text_fits 64) (draw_lines y lines f).
Proof.
  intros H. revert y. induction H as [|l lines Hl _ IH]; intros y; simpl.
  - constructor.
  - destruct (y >? HEIGHT - 36)%Z; constructor; [exact Hl | apply IH].
Qed.

Lemma wrapped_lines_width (text : string) :
  Forall (fun l => String.length l <= 64) (wrapped_lines text).
Proof.
  unfold wrapped_lines. apply Forall_flat_map, Forall_forall. intros line _.
  pose proof (wrap_width line 64 ltac:(lia)) as H.
  unfold or_blank. destruct (textwrap.wrap line 64); [|exact H].
  constructor; [simpl; lia | constructor].
Qed.

(** C4, as amended.  The word wrap gives lines of at most 64 characters
    for every line, so no call of the renderer writes more.  It cuts no
    word of a line that has no hyphen, no white space other than the
    wrapper's own, and no word longer than 64 characters: the words of the
    wrapped lines are the words of the line.  Such a line gives two lines
    or more if its words, one space between them, take more than 64
    characters. *)
Theorem frame_word_wrap (line : string) :
  Forall (fun l => String.length l <= 64) (textwrap.wrap line 64)
  /\ (forall (text : string) (f : font),
         Forall (text_fits 64) (image_calls (terminal_frame text f)))
  /\ (no_hyphen line = true ->
      plain_space line = true ->
      Forall (fun w => String.length w <= 64) (words line) ->
      flat_map words (textwrap.wrap line 64) = words line
      /\ (64 < String.length (PyStr.join " " (words line)) ->
          2 <= length (textwrap.wrap line 64))).
Proof.
  pose proof (wrap_width line 64 ltac:(lia)) as Hwidth.
  split; [exact Hwidth|]. split.
  - intros text f. unfold terminal_frame. cbn [image_calls].
    apply Forall_app. split.
    + repeat constructor; vm_compute; intros; discriminate.
    + apply draw_lines_fit, wrapped_lines_width.
  - intros Hh Hp Hlen.
    pose proof (wrap_words line 64 ltac:(lia) Hh Hp Hlen) as Hwords.
    split; [exact Hwords|]. intros Hlong.
    destruct (textwrap.wrap line 64) as [|l [|l' ls]]; [| |simpl; lia].
    + simpl in Hwords. rewrite <- Hwords in Hlong. simpl in Hlong. lia.
    + simpl in Hwords. rewrite app_nil_r in Hwords. rewrite <- Hwords in Hlong.
      pose proof (proj1 (words_length l)). pose proof (Forall_inv Hwidth). simpl in *. lia.
Qed.

Lemma frame_word_wrap_witness :
  let line := Demo.long_line in
  (no_hyphen line = true
   /\ plain_space line = true
   /\ Forall (fun w => String.length w <= 64) (words line)
   /\ 64 < String.length (PyStr.join " " (words line)))
  /\ Forall (fun l => String.length l <= 64) (textwrap.wrap line 64)
  /\ flat_map words (textwrap.wrap line 64) = words line
  /\ 2 <= length (textwrap.wrap line 64).
Proof.
  intros line.
  assert (H : no_hyphen line = true
              /\ plain_space line = true
              /\ Forall (fun w => String.length w <= 64) (words line)
              /\ 64 < String.length (PyStr.join " " (words line))).
  { split; [vm_compute; reflexivity|]. split; [vm_compute; reflexivity|].
    split; [check_all | vm_compute; lia]. }
  split; [exact H|]. destruct H as (H1 & H2 & H3 & H4).
  destruct (frame_word_wrap line) as (Hwidth & _ & Hwords).
  destruct (Hwords H1 H2 H3) as [Hsame Hmany].
  split; [exact Hwidth|]. split; [exact Hsame | exact (Hmany H4)].
Defined.

(** C4 fails on a word of 65 characters: the wrap cuts it after the 64th,
    in the middle of the word. *)
Lemma wrap_cuts_long_word :
  64 < String.length Demo.long_word
  /\ words Demo.long_word = [Demo.long_word]
  /\ textwrap.wrap Demo.long_word 64 = [repeat_char "a" 64; "a"]
  /\ flat_map words (textwrap.wrap Demo.long_word 64) <> words Demo.long_word.
Proof.
  split; [vm_compute; lia|]. split; [vm_compute; reflexivity|].
  split; [vm_compute; reflexivity|]. vm_compute. discriminate.
Qed.

(** A line of 71 characters, one word and white space after it, stays one
    line. *)
Lemma wrap_drops_trailing_space :
  64 < String.length Demo.trailing_space
  /\ textwrap.wrap Demo.trailing_space 64 = ["a"].
Proof. split; [vm_compute; lia | vm_compute; reflexivity]. Qed.

(** A line may break after a hyphen inside a word. *)
Lemma wrap_breaks_after_hyphen :
  64 < String.length Demo.hyphenated
  /\ textwrap.wrap Demo.hyphenated 64 = [repeat_char "x" 59 +:+ " foo-"; "bar"].
Proof. split; [vm_compute; lia | vm_compute; reflexivity]. Qed.

(** * Further properties of the script *)

(** ** Events of the wrong type *)

(** The exception of the loop body on an event that is not well-formed is
    one of a value of the wrong type. *)
Lemma on_event_fault (st : scan_state) (event : json) :
  well_formed_event event = false ->
  exists e, on_event st event = Raise e /\ is_type_fault e = true.
Proof.
  assert (Hpay : forall d key,
             payload_typed (JDict d) key = false ->
             exists e,
               (let* p := py_get (JDict d) key (JDict []) in
                let* content := py_get p "content" (JList []) in
                if json_truthy content then
                  let* item := py_item0 content in
                  let* raw := py_get item "text" (JStr "") in
                  let* text := py_strip raw in
                  Ok text
                else Ok EmptyString) = Raise e
               /\ is_type_fault e = true).
  { intros d key. unfold payload_typed. simpl.
    destruct (dict_lookup d key) as [p|]; [|discriminate]. simpl.
    destruct p as [| | | | | |p]; simpl; eauto.
    destruct (dict_lookup p "content") as [c|]; [|discriminate]. simpl.
    destruct (json_truthy c) eqn:Hc; [|discriminate]. simpl.
    destruct c as [| |z|f|[|a s]|[|item l]|[|kv d']]; simpl; eauto; try discriminate.
    destruct item as [| | | | | |item]; simpl; eauto.
    destruct (dict_lookup item "text") as [[]|]; simpl; eauto; discriminate. }
  destruct event as [| | | | | |d]; simpl; eauto. intros Hwf.
  unfold on_event, on_update, on_end. rewrite !is_tool_event_dict.
  apply andb_false_iff in Hwf.
  destruct (is_kind (JDict d) "tool_execution_update") eqn:Ku.
  - rewrite (kinds_exclusive _ Ku) in *. destruct Hwf as [Hwf | Hwf]; [|discriminate].
    destruct (Hpay d "partialResult" Hwf) as (e & He & Hfault). exists e.
    split; [|exact Hfault]. cbn [bind].
    destruct (py_get (JDict d) "partialResult" (JDict [])) as [p|];
      cbn [bind] in *; [|congruence].
    destruct (py_get p "content" (JList [])) as [c|]; cbn [bind] in *; [|congruence].
    destruct (json_truthy c); cbn [negb bind] in *; [|discriminate He].
    destruct (py_item0 c) as [item|]; cbn [bind] in *; [|congruence].
    destruct (py_get item "text" (JStr "")) as [raw|]; cbn [bind] in *; [|congruence].
    destruct (py_strip raw); cbn [bind] in *; [discriminate He | congruence].
  - destruct Hwf as [Hwf | Hwf]; [discriminate|]. cbn [bind].
    destruct (is_kind (JDict d) "tool_execution_end") eqn:Ke; [|discriminate].
    destruct (Hpay d "result" Hwf) as (e & He & Hfault). exists e.
    split; [|exact Hfault]. cbn [bind].
    destruct (py_get (JDict d) "result" (JDict [])) as [p|];
      cbn [bind] in *; [|congruence].
    destruct (py_get p "content" (JList [])) as [c|]; cbn [bind] in *; [|congruence].
    destruct (json_truthy c); cbn [bind] in *; [|discriminate He].
    destruct (py_item0 c) as [item|]; cbn [bind] in *; [|congruence].
    destruct (py_get item "text" (JStr "")) as [raw|]; cbn [bind] in *; [|congruence].
    destruct (py_strip raw); cbn [bind] in *; [discriminate He | congruence].
Qed.

Lemma scan_events_fault (st : scan_state) (evs : list json) :
  Exists (fun event => well_formed_event event = false) evs ->
  exists e, scan_events st evs = Raise e /\ is_type_fault e = true.
Proof.
  intros H. revert st. induction evs as [|event evs IH]; intros st.
  - inversion H.
  - cbn [scan_events]. destruct (well_formed_event event) eqn:Hwf.
    + rewrite (on_event_record _ _ Hwf). cbn [bind]. apply IH.
      apply Exists_cons in H as [H | H]; [congruence | exact H].
    + destruct (on_event_fault st event Hwf) as (e & -> & He). eauto.
Qed.

(** The loop ends without an exception on well-formed events only. *)
Lemma scan_events_well_formed (st st' : scan_state) (evs : list json) :
  scan_events st evs = Ok st' ->
  Forall (fun event => well_formed_event event = true) evs.
Proof.
  intros H. apply Forall_forall. intros event Hin.
  destruct (well_formed_event event) eqn:Hwf; [reflexivity|].
  destruct (scan_events_fault st evs) as (e & He & _); [|congruence].
  apply Exists_exists. eauto.
Qed.

(** ** The number of updates *)

(** A slice of stride [step] has one element for every [step] of the
    list. *)
Lemma slice_from_length {A : Type} (step skip : nat) (l : list A) :
  skip < step ->
  step * length (slice_from step skip l) + skip <= length l + step - 1.
Proof.
  revert skip. induction l as [|x l IH]; intros skip Hs; cbn [slice_from length].
  - lia.
  - destruct skip as [|k].
    + cbn [length]. specialize (IH (step - 1) ltac:(lia)). nia.
    + specialize (IH k ltac:(lia)). lia.
Qed.

(** The element at [i] of a slice is the element at [skip + i * step]. *)
Lemma slice_from_lookup {A : Type} (step skip : nat) (l : list A) (i : nat) :
  1 <= step ->
  slice_from step skip l !! i = l !! (skip + i * step).
Proof.
  intros Hs. revert skip i. induction l as [|x l IH]; intros skip i; cbn [slice_from].
  - rewrite !lookup_nil. reflexivity.
  - destruct skip as [|k].
    + destruct i as [|i]; [reflexivity|]. cbn [lookup list_lookup].
      rewrite IH. replace (0 + S i * step) with (S (step - 1 + i * step)) by lia.
      reflexivity.
    + rewrite IH. reflexivity.
Qed.

Lemma sample_length (updates sampled : list string) :
  sample updates = Ok sampled ->
  length sampled <= 23 /\ length sampled <= length updates.
Proof.
  destruct (Nat.lt_ge_cases (length updates) 24) as [Hlt | Hge].
  - rewrite (sample_below_24 _ Hlt). intros [= <-]. lia.
  - unfold sample. destruct (Nat.ltb_spec 14 (length updates)); [|lia].
    set (step := Nat.max 1 (length updates / 12)).
    pose proof (Nat.div_mod_eq (length updates) 12) as Hdiv.
    pose proof (Nat.mod_upper_bound (length updates) 12 ltac:(lia)) as Hmod.
    assert (Hstep : step = length updates / 12 /\ 2 <= step).
    { subst step. split; [apply Nat.max_r|]; nia. }
    destruct Hstep as [Estep Hstep].
    pose proof (slice_from_length step 0 updates ltac:(lia)) as Hlen.
    fold (slice_step step updates) in Hlen.
    assert (Hk : length (slice_step step updates) <= 18) by nia.
    assert (Hk' : length (slice_step step updates) < length updates) by nia.
    destruct (py_last (slice_step step updates)) as [a|]; [|discriminate].
    destruct (py_last updates) as [b|]; [|discriminate]. cbn [bind].
    destruct (negb (a =? b)%string); intros [= <-];
      rewrite ?length_app; simpl; lia.
Qed.

Section Bounds.

Variable json_loads : string -> option json.

(** X1.  A log in which some line decodes to a value that is no well-formed
    event, a number or a list for one, or an update of the tool whose
    payload is no object, makes [load_updates] raise [AttributeError],
    [TypeError] or [KeyError]: such a line is not skipped. *)
Theorem load_updates_type_fault (w : world) (p : path) (content : string) :
  files w !! p = Some (TextFile content) ->
  Exists (fun event => well_formed_event event = false) (events json_loads content) ->
  exists e, load_updates json_loads w p = Raise e /\ is_type_fault e = true.
Proof.
  intros Hf Hex. rewrite (load_updates_read _ _ _ _ Hf), load_updates_text_events.
  destruct (scan_events_fault (ScanState [] None) _ Hex) as (e & -> & He). eauto.
Qed.

(** X2.  What [load_updates] returns has at least 1 and at most 23
    elements, however long the log is. *)
Theorem load_updates_length (w : world) (p : path) (us : list string) :
  load_updates json_loads w p = Ok us -> 1 <= length us <= 23.
Proof.
  unfold load_updates. destruct (read_text w p) as [content|]; [|discriminate].
  cbn [bind]. unfold load_updates_text.
  destruct (scan_lines json_loads _ _) as [st|]; [|discriminate]. cbn [bind].
  unfold finish. destruct (with_summary st) as [|x l] eqn:E; [discriminate|].
  intros Hs. split; [|exact (proj1 (sample_length _ _ Hs))].
  destruct (sample_spec (x :: l) ltac:(discriminate)) as (s & Hs' & _ & Hhd & _).
  rewrite Hs in Hs'. injection Hs' as <-. destruct us; [discriminate | simpl; lia].
Qed.

End Bounds.

(** X3.  With more than 14 updates the sampler steps through them evenly:
    element [i] of its result is element [i * step] of its input, where
    [step] is the larger of 1 and the twelfth of the length, rounded
    down. *)
Theorem sample_stride (updates sampled : list string) (i : nat) :
  14 < length updates ->
  sample updates = Ok sampled ->
  i * Nat.max 1 (length updates / 12) < length updates ->
  sampled !! i = updates !! (i * Nat.max 1 (length updates / 12)).
Proof.
  intros Hn. unfold sample. destruct (Nat.ltb_spec 14 (length updates)); [|lia].
  set (step := Nat.max 1 (length updates / 12)). intros Hs Hi.
  assert (Hlook : slice_step step updates !! i = updates !! (i * step)).
  { unfold slice_step. rewrite slice_from_lookup by lia. reflexivity. }
  assert (Hin : i < length (slice_step step updates)).
  { destruct (lookup_lt_is_Some_2 updates (i * step) Hi) as [x Hx].
    rewrite <- Hlook in Hx. exact (lookup_lt_Some _ _ _ Hx). }
  destruct (py_last (slice_step step updates)) as [a|]; [|discriminate].
  destruct (py_last updates) as [b|]; [|discriminate]. cbn [bind] in Hs.
  destruct (negb (a =? b)%string); injection Hs as <-;
    rewrite ?lookup_app_l by exact Hin; exact Hlook.
Qed.

(** ** Where the returned updates come from *)

(** The recorded updates grow by texts of update events, in the order of
    the events. *)
Lemma foldl_record_sublist (st : scan_state) (evs : list json) :
  exists added,
    updates (foldl record_event st evs) = updates st ++ added
    /\ added `sublist_of` omap update_text evs.
Proof.
  revert st. induction evs as [|event evs IH]; intros st.
  - exists []. rewrite app_nil_r. split; [reflexivity | constructor].
  - cbn [foldl omap list_omap].
    destruct (IH (record_event st event)) as (added & -> & Hsub).
    unfold record_event.
    destruct (update_text event) as [t|] eqn:Eu.
    + destruct (bool_decide (last (updates st) = Some t)).
      * exists added. split; [reflexivity | apply sublist_cons, Hsub].
      * exists (t :: added). cbn [updates]. rewrite <- app_assoc.
        split; [reflexivity | apply sublist_skip, Hsub].
    + exists added. split; [|exact Hsub].
      destruct (end_text event); reflexivity.
Qed.

(** A final summary is made of the text of an end event of the log. *)
Lemma foldl_record_summary_origin (st : scan_state) (evs : list json) (s : string) :
  final_summary (foldl record_event st evs) = Some s ->
  final_summary st = Some s
  \/ exists event t,
       event ∈ evs /\ end_text event = Some t
       /\ s = PyStr.join PyStr.LF (take 7 (PyStr.splitlines t)).
Proof.
  revert st. induction evs as [|event evs IH]; intros st; cbn [foldl]; [auto|].
  intros H. destruct (IH _ H) as [Hs | (e & t & Hin & He & ->)].
  - unfold record_event in Hs. destruct (update_text event) as [u|].
    + destruct (bool_decide _); auto.
    + destruct (end_text event) as [t|] eqn:Ee; [|auto].
      right. exists event, t. cbn [final_summary] in Hs. injection Hs as <-.
      split; [left | auto].
  - right. exists e, t. split; [right; exact Hin | auto].
Qed.

Lemma update_text_truthy (evs : list json) :
  Forall (fun u => PyStr.truthy u = true) (omap update_text evs).
Proof.
  apply Forall_forall. intros u Hu.
  apply list_elem_of_omap in Hu as (event & _ & He).
  destruct (trimmed_text_truthy _ _ _ _ He) as (_ & _ & H). exact H.
Qed.

(** Lines the loop passes over can be left out of the log. *)
Lemma scan_lines_without (json_loads : string -> option json)
  (passed : string -> bool) (st : scan_state) (lines : list string) :
  (forall st' l, passed l = true -> scan_line json_loads st' l = Ok st') ->
  scan_lines json_loads st lines
  = scan_lines json_loads st (List.filter (fun l => negb (passed l)) lines).
Proof.
  intros Hpass. revert st. induction lines as [|l lines IH]; intros st; simpl.
  - reflexivity.
  - destruct (passed l) eqn:E; simpl.
    + rewrite (Hpass _ _ E). simpl. apply IH.
    + destruct (scan_line json_loads st l); simpl; [apply IH | reflexivity].
Qed.

Lemma on_event_other (st : scan_state) (event : json) :
  other_event event = true -> on_event st event = Ok st.
Proof.
  destruct event as [| | | | | |d]; try discriminate. cbn [other_event].
  intros H. apply andb_true_iff in H as [Hu He].
  apply negb_true_iff in Hu. apply negb_true_iff in He.
  rewrite on_event_record by (unfold well_formed_event; rewrite Hu, He; reflexivity).
  unfold record_event, update_text, end_text, trimmed_text. rewrite Hu, He.
  reflexivity.
Qed.

Section Provenance.

Variable json_loads : string -> option json.

(** X4.  What [load_updates] returns is made of the log, in the order of
    the log: it is a subsequence of the trimmed texts of the update events
    of the tool, followed by at most one closing entry made of the text of
    an end event of the log.  No element is empty. *)
Theorem load_updates_provenance (w : world) (p : path) (content : string)
  (us : list string) :
  files w !! p = Some (TextFile content) ->
  load_updates json_loads w p = Ok us ->
  exists closing,
    us `sublist_of` omap update_text (events json_loads content) ++ closing
    /\ (closing = []
        \/ exists event t,
             event ∈ events json_loads content
             /\ end_text event = Some t /\ closing = [done_entry t])
    /\ Forall (fun u => PyStr.truthy u = true) us.
Proof.
  intros Hf. rewrite (load_updates_read _ _ _ _ Hf), load_updates_text_events.
  destruct (scan_events _ _) as [st|] eqn:Hscan; [|discriminate]. cbn [bind].
  pose proof (scan_events_well_formed _ _ _ Hscan) as Hwf.
  rewrite (scan_events_record _ _ Hwf) in Hscan. injection Hscan as <-.
  set (evs := events json_loads content) in *.
  set (st := foldl record_event (ScanState [] None) evs).
  destruct (foldl_record_sublist (ScanState [] None) evs) as (added & Hadd & Hsub).
  fold st in Hadd. cbn [updates app] in Hadd.
  assert (Hclose : exists closing,
             with_summary st = updates st ++ closing
             /\ (closing = []
                 \/ exists event t, event ∈ evs /\ end_text event = Some t
                                    /\ closing = [done_entry t])).
  { unfold with_summary. destruct (final_summary st) as [s|] eqn:Hs.
    - destruct (PyStr.truthy s).
      + eexists. split; [reflexivity|]. right.
        destruct (foldl_record_summary_origin _ _ _ Hs)
          as [Hnone | (e & t & Hin & He & ->)]; [discriminate|].
        exists e, t. auto.
      + exists []. rewrite app_nil_r. auto.
    - exists []. rewrite app_nil_r. auto. }
  destruct Hclose as (closing & Hws & Hclosing).
  unfold finish. destruct (with_summary st) as [|x l] eqn:E; [discriminate|].
  intros Hs. destruct (sample_spec (x :: l) ltac:(discriminate))
    as (s & Hs' & Hsubl & _ & _).
  rewrite Hs in Hs'. injection Hs' as <-.
  assert (Hsubf : us `sublist_of` omap update_text evs ++ closing).
  { transitivity (x :: l); [exact Hsubl|]. rewrite Hws, Hadd.
    apply sublist_app; [exact Hsub | reflexivity]. }
  exists closing. split; [exact Hsubf|]. split; [exact Hclosing|].
  apply Forall_forall. intros u Hu.
  apply (elem_of_sublist _ _ _ Hu) in Hsubf.
  apply elem_of_app in Hsubf as [Hin | Hin].
  - pose proof (update_text_truthy evs) as Ht. rewrite Forall_forall in Ht. auto.
  - destruct Hclosing as [-> | (e & t & _ & _ & ->)]; [inversion Hin|].
    apply list_elem_of_singleton in Hin as ->. reflexivity.
Qed.

(** X5.  Events of other tools and of other types are passed over, whatever
    else they hold: [load_updates] returns on a log what it returns on the
    log without the lines of such events. *)
Theorem load_updates_ignores_other_events
  (w w' : world) (p : path) (content content' : string) :
  files w !! p = Some (TextFile content) ->
  files w' !! p = Some (TextFile content') ->
  PyStr.splitlines content'
  = List.filter
      (fun l => negb match decode json_loads l with
                     | Some event => other_event event
                     | None => false
                     end)
      (PyStr.splitlines content) ->
  load_updates json_loads w p = load_updates json_loads w' p.
Proof.
  intros Hf Hf' Hlines.
  rewrite (load_updates_read _ _ _ _ Hf), (load_updates_read _ _ _ _ Hf').
  unfold load_updates_text. rewrite Hlines, <- scan_lines_without; [reflexivity|].
  intros st l. rewrite scan_line_decode.
  destruct (decode json_loads l) as [event|]; [|discriminate].
  apply on_event_other.
Qed.

End Provenance.

(** ** The effects of [main] *)

Lemma mkdir_ok (w w1 : world) (p : path) :
  mkdir w p = (w1, Ok tt) ->
  forallb (fun q => bool_decide (files w !! q = None))
    (map (fun n => take n p) (seq 1 (length p))) = true
  /\ w1 = World (files w)
            (list_to_set (map (fun n => take n p) (seq 1 (length p))) ∪ dirs w)
            (truetype_fonts w) (stdout w).
Proof.
  unfold mkdir. destruct (forallb _ _); [|discriminate].
  intros [= <-]. auto.
Qed.

Lemma load_updates_nonempty (json_loads : string -> option json)
  (w : world) (p : path) (us : list string) :
  load_updates json_loads w p = Ok us -> us <> [].
Proof.
  unfold load_updates. destruct (read_text w p) as [content|]; [|discriminate].
  cbn [bind]. unfold load_updates_text.
  destruct (scan_lines json_loads _ _) as [st|]; [|discriminate]. cbn [bind].
  unfold finish. destruct (with_summary st) as [|x l] eqn:E; [discriminate|].
  intros Hs. destruct (sample_spec (x :: l) ltac:(discriminate)) as (s & Hs' & _ & Hhd & _).
  rewrite Hs in Hs'. injection Hs' as <-. destruct us; [discriminate | discriminate].
Qed.

Section MainEffects.

Variable json_loads : string -> option json.
Variable ROOT : path.

Lemma log_out_distinct : LOG_PATH ROOT <> OUT_PATH ROOT.
Proof. unfold LOG_PATH, OUT_PATH. intros E. apply app_inv_head in E. discriminate. Qed.

(** A run of [main] that finds the directory and the updates. *)
Lemma main_ok (w w1 : world) (us : list string) :
  mkdir w (removelast (OUT_PATH ROOT)) = (w1, Ok tt) ->
  load_updates json_loads w (LOG_PATH ROOT) = Ok us ->
  exists ds,
    durations (length us) = Ok ds
    /\ main json_loads ROOT w
       = (World
            (<[OUT_PATH ROOT :=
                 ImageFile
                   (Animation (map (fun u => terminal_frame u (load_font w)) us)
                      ds 0 true)]> (files w))
            (dirs w1) (truetype_fonts w)
            (stdout w ++ ["wrote " +:+ path_str (OUT_PATH ROOT)]), Ok tt).
Proof.
  intros Hmk Hload. unfold main. rewrite Hmk.
  rewrite (load_updates_files _ _ _ _ (mkdir_files _ _ _ _ Hmk)), Hload.
  destruct (assemble_spec ROOT w1 us) as (ds & Hds & ->).
  { exact (load_updates_nonempty _ _ _ _ Hload). }
  { apply (mkdir_dirs _ _ _) in Hmk; [exact Hmk|]. rewrite out_parent.
    intros E. apply app_eq_nil in E as [_ E]. discriminate. }
  exists ds. split; [exact Hds|].
  apply mkdir_ok in Hmk as [_ ->]. reflexivity.
Qed.

(** A run of [main] without an exception found both. *)
Lemma main_ok_inv (w : world) :
  snd (main json_loads ROOT w) = Ok tt ->
  exists w1 us,
    mkdir w (removelast (OUT_PATH ROOT)) = (w1, Ok tt)
    /\ load_updates json_loads w (LOG_PATH ROOT) = Ok us.
Proof.
  unfold main. destruct (mkdir w (removelast (OUT_PATH ROOT))) as [w1 [[]|e]] eqn:Hmk;
    [|discriminate].
  rewrite (load_updates_files _ _ _ _ (mkdir_files _ _ _ _ Hmk)).
  destruct (load_updates json_loads w (LOG_PATH ROOT)) as [us|]; [|discriminate].
  eauto.
Qed.

(** No directory above the output is the output. *)
Lemma above_out (n : nat) : take n (removelast (OUT_PATH ROOT)) <> OUT_PATH ROOT.
Proof.
  intros E. apply (f_equal length) in E. rewrite length_take, out_parent in E.
  unfold OUT_PATH in E. rewrite !length_app in E. simpl in E. lia.
Qed.

(** X6.  Where no directory lies at the output path, the directory of the
    output can be made and [load_updates] returns, [main] ends without an
    exception, writes the animation to the output path, over a file that
    may be there, and changes no other file: the log is as it was.  It
    prints one line, which names the output path.  Files and directories
    that were apart before the run are apart after it. *)
Theorem main_writes_output_only (w : world) (us : list string) :
  OUT_PATH ROOT ∉ dirs w ->
  snd (mkdir w (removelast (OUT_PATH ROOT))) = Ok tt ->
  load_updates json_loads w (LOG_PATH ROOT) = Ok us ->
  let w' := fst (main json_loads ROOT w) in
  snd (main json_loads ROOT w) = Ok tt
  /\ (exists a, files w' !! OUT_PATH ROOT = Some (ImageFile a)
                /\ frames a = map (fun u => terminal_frame u (load_font w)) us)
  /\ (forall q, q <> OUT_PATH ROOT -> files w' !! q = files w !! q)
  /\ files w' !! LOG_PATH ROOT = files w !! LOG_PATH ROOT
  /\ stdout w' = stdout w ++ ["wrote " +:+ path_str (OUT_PATH ROOT)]
  /\ (files_apart w -> files_apart w').
Proof.
  intros Hout Hmk Hload.
  destruct (mkdir w (removelast (OUT_PATH ROOT))) as [w1 r] eqn:E.
  simpl in Hmk. subst r. destruct (main_ok w w1 us E Hload) as (ds & _ & ->).
  cbn [fst snd files stdout]. split; [reflexivity|].
  split; [eexists; split; [apply lookup_insert_eq | reflexivity]|].
  split; [intros q Hq; apply lookup_insert_ne; congruence|].
  split; [apply lookup_insert_ne; intros Eq; exact (log_out_distinct (eq_sym Eq))|].
  split; [reflexivity|].
  apply mkdir_ok in E as [Hfree ->]. intros Hapart q Hq. cbn [files dirs] in *.
  apply elem_of_union in Hq as [Hq | Hq].
  - apply elem_of_list_to_set, list_elem_of_fmap in Hq as (n & -> & Hn).
    rewrite lookup_insert_ne by (intros Eq; exact (above_out n (eq_sym Eq))).
    rewrite forallb_forall in Hfree.
    apply list_elem_of_In in Hn.
    apply (in_map (fun n => take n (removelast (OUT_PATH ROOT)))) in Hn.
    exact (bool_decide_eq_true_1 _ (Hfree _ Hn)).
  - rewrite lookup_insert_ne by congruence. exact (Hapart q Hq).
Qed.

(** X7.  An exception of [load_updates], whichever it is, is the one
    [main] ends with: it is not caught.  The log is read before any frame
    is drawn or saved, so no file has changed and nothing was printed. *)
Theorem main_load_failure (w : world) (e : exn) :
  snd (mkdir w (removelast (OUT_PATH ROOT))) = Ok tt ->
  load_updates json_loads w (LOG_PATH ROOT) = Raise e ->
  snd (main json_loads ROOT w) = Raise e
  /\ files (fst (main json_loads ROOT w)) = files w
  /\ stdout (fst (main json_loads ROOT w)) = stdout w.
Proof.
  intros Hmk Hload. destruct (mkdir w (removelast (OUT_PATH ROOT))) as [w1 r] eqn:E.
  simpl in Hmk. subst r. unfold main. rewrite E.
  rewrite (load_updates_files _ _ _ _ (mkdir_files _ _ _ _ E)), Hload.
  apply mkdir_ok in E as [_ ->]. auto.
Qed.



(** X9.  A second run of [main] after a run without an exception ends
    without an exception too and leaves the files as the first run left
    them. *)
Theorem main_twice (w : world) :
  snd (main json_loads ROOT w) = Ok tt ->
  let w' := fst (main json_loads ROOT w) in
  snd (main json_loads ROOT w') = Ok tt
  /\ files (fst (main json_loads ROOT w')) = files w'.
Proof.
  intros Hok. destruct (main_ok_inv w Hok) as (w1 & us & Hmk & Hload).
  destruct (main_ok w w1 us Hmk Hload) as (ds & Hds & Hmain).
  rewrite Hmain. cbn [fst].
  set (a := ImageFile _). set (w' := World _ _ _ _).
  pose proof (mkdir_ok _ _ _ Hmk) as [Hfree _].
  assert (Hmk' : exists w1', mkdir w' (removelast (OUT_PATH ROOT)) = (w1', Ok tt)).
  { unfold mkdir. match goal with |- context [forallb ?f ?l] =>
      assert (Hf : forallb f l = true) end.
    { apply forallb_forall. intros q Hq. rewrite forallb_forall in Hfree.
      specialize (Hfree q Hq). apply bool_decide_eq_true in Hfree.
      apply bool_decide_eq_true. subst w'. cbn [files].
      rewrite lookup_insert_ne; [exact Hfree|].
      intros <-. apply in_map_iff in Hq as (n & Hn & Hin).
      apply in_seq in Hin. apply (f_equal length) in Hn.
      rewrite length_take in Hn. rewrite out_parent in Hn. unfold OUT_PATH in Hn.
      rewrite !length_app in Hn. simpl in Hn. lia. }
    rewrite Hf. eauto. }
  destruct Hmk' as [w1' Hmk'].
  assert (Hload' : load_updates json_loads w' (LOG_PATH ROOT) = Ok us).
  { rewrite <- Hload. unfold load_updates, read_text. subst w'. cbn [files].
    rewrite lookup_insert_ne; [reflexivity|].
    intros E. exact (log_out_distinct (eq_sym E)). }
  destruct (main_ok w' w1' us Hmk' Hload') as (ds' & Hds' & ->).
  rewrite Hds in Hds'. injection Hds' as <-.
  cbn [fst snd files]. split; [reflexivity|].
  subst w'. cbn [files]. unfold load_font. cbn [truetype_fonts].
  apply insert_insert_eq.
Qed.

End MainEffects.

(** ** The body of a frame *)

Lemma draw_lines_from (k : nat) (lines : list string) (f : font) :
  k <= 19 ->
  draw_lines (92 + 24 * Z.of_nat k) lines f
  = imap (fun i => body_call f (k + i)) (take (19 - k) lines).
Proof.
  revert k. induction lines as [|line lines IH]; intros k Hk.
  - rewrite take_nil. reflexivity.
  - cbn [draw_lines]. unfold HEIGHT.
    destruct (Z.gtb_spec (92 + 24 * Z.of_nat k) (560 - 36)) as [Hover | Hin].
    + replace (19 - k) with 0 by lia. reflexivity.
    + destruct (19 - k) as [|n] eqn:E; [lia|]. cbn [take imap]. f_equal.
      * unfold body_call. rewrite Nat.add_0_r. reflexivity.
      * replace (92 + 24 * Z.of_nat k + 24)%Z with (92 + 24 * Z.of_nat (S k))%Z by lia.
        rewrite IH by lia. replace (19 - S k) with n by lia.
        apply imap_ext. intros i x _. simpl. f_equal. lia.
Qed.

Lemma wrapped_lines_nonempty (text : string) : wrapped_lines text <> [].
Proof.
  unfold wrapped_lines.
  destruct (or_blank (PyStr.splitlines text)) as [|line lines] eqn:E.
  - unfold or_blank in E. destruct (PyStr.splitlines text); discriminate.
  - cbn [flat_map]. unfold or_blank at 1.
    destruct (textwrap.wrap line 64); discriminate.
Qed.

(** X10.  After its four fixed calls a frame draws the first 19 wrapped
    lines of the text and no more, line [i] at the left margin and at
    y = 92 + 24 i, which is 524 at most; it draws one line at least, an
    empty one for an empty text. *)
Theorem terminal_frame_body (text : string) (f : font) :
  drop 4 (image_calls (terminal_frame text f))
  = imap (body_call f) (take 19 (wrapped_lines text))
  /\ 1 <= length (take 19 (wrapped_lines text)) <= 19
  /\ wrapped_lines EmptyString = [EmptyString].
Proof.
  split; [|split].
  - unfold terminal_frame. cbn [image_calls drop app].
    change (60 + 32)%Z with (92 + 24 * Z.of_nat 0)%Z.
    rewrite draw_lines_from by lia. reflexivity.
  - rewrite length_take. pose proof (wrapped_lines_nonempty text).
    destruct (wrapped_lines text); [congruence | cbn [length]; lia].
  - reflexivity.
Qed.

(** ** The characters the wrap keeps *)

Lemma visible_append (a b : string) : visible (a +:+ b) = visible a +:+ visible b.
Proof.
  induction a as [|c a IH]; [reflexivity|]. rewrite append_cons. cbn [visible].
  rewrite IH. destruct (PyStr.isspace c); reflexivity.
Qed.

Lemma visible_space (x : string) : space_chunk x = true -> visible x = EmptyString.
Proof.
  unfold space_chunk. induction x as [|c x IH]; [reflexivity|]. cbn [all_chars visible].
  intros H. apply andb_true_iff in H as [-> H]. exact (IH H).
Qed.

Lemma visible_concat_app (a b : list string) :
  visible (String.concat EmptyString (a ++ b))
  = visible (String.concat EmptyString a) +:+ visible (String.concat EmptyString b).
Proof. rewrite concat_app. apply visible_append. Qed.

(** The chunks of any text are the text, cut. *)
Lemma split_from_concat (s : string) (m : textwrap.mode) (b3 b2 b1 : option ascii) :
  fst (textwrap.split_from m b3 b2 b1 s)
  +:+ String.concat EmptyString (snd (textwrap.split_from m b3 b2 b1 s)) = s.
Proof.
  revert m b3 b2 b1. induction s as [|c s IH]; intros m b3 b2 b1; [reflexivity|].
  cbn [textwrap.split_from].
  destruct (textwrap.advance m b3 b2 b1 c s) as [opens m'].
  specialize (IH m' b2 b1 (Some c)).
  destruct (textwrap.split_from m' b2 b1 (Some c) s) as [cur later].
  cbn [fst snd] in IH.
  destruct opens; cbn [fst snd].
  - rewrite concat_cons, append_nil, append_cons, IH. reflexivity.
  - rewrite append_cons, IH. reflexivity.
Qed.

Lemma split_from_start (s : string) (b3 b2 b1 : option ascii) :
  fst (textwrap.split_from textwrap.Start b3 b2 b1 s) = EmptyString.
Proof.
  destruct s as [|c s]; [reflexivity|]. cbn [textwrap.split_from textwrap.advance].
  destruct (textwrap.split_from _ b2 b1 (Some c) s). reflexivity.
Qed.

Lemma visible_munge (col : nat) (text : string) :
  visible (textwrap.translate (textwrap.expandtabs col text)) = visible text.
Proof.
  revert col. induction text as [|c text IH]; intros col; [reflexivity|].
  cbn [textwrap.expandtabs].
  destruct (PyStr.ord c =? 9)%N eqn:Htab.
  - rewrite translate_append, translate_spaces, visible_append.
    rewrite visible_space by (apply all_chars_spaces; reflexivity).
    rewrite append_nil, IH. cbn [visible]. rewrite (tab_isspace _ Htab). reflexivity.
  - assert (H : forall col',
               visible (textwrap.translate (String c (textwrap.expandtabs col' text)))
               = visible (String c text)).
    { intros col'. cbn [textwrap.translate visible]. rewrite IH.
      destruct (textwrap.is_whitespace c) eqn:Hws; [|reflexivity].
      rewrite (whitespace_isspace _ Hws). reflexivity. }
    destruct ((PyStr.ord c =? 10)%N || (PyStr.ord c =? 13)%N); apply H.
Qed.

(** One pass puts on its line or leaves in the chunks every character that
    is no white space. *)
Lemma wrap_pass_visible (width : nat) (started : bool) (chunks chunks' : list string)
  (line : option string) :
  textwrap.wrap_pass width started chunks = (line, chunks') ->
  visible (String.concat EmptyString chunks)
  = visible (from_option id EmptyString line)
    +:+ visible (String.concat EmptyString chunks').
Proof.
  unfold textwrap.wrap_pass.
  set (chunks1 := match chunks with [] => [] | chunk :: rest => _ end).
  assert (H1 : visible (String.concat EmptyString chunks)
               = visible (String.concat EmptyString chunks1)).
  { subst chunks1. destruct chunks as [|c rest]; [reflexivity|].
    destruct (textwrap.blank c && started) eqn:E; [|reflexivity].
    apply andb_true_iff in E as [Hb _].
    rewrite concat_cons, visible_append, (visible_space _ (blank_space _ Hb)).
    reflexivity. }
  rewrite H1. clearbody chunks1. clear H1.
  destruct (textwrap.fill width [] 0 chunks1) as [[cur_line cur_len] chunks2] eqn:Ef.
  apply fill_spec in Ef as (taken & Hcl & Hch & _ & _ & _).
  simpl in Hcl. subst cur_line chunks1.
  set (r := match chunks2 with [] => _ | chunk :: rest => _ end).
  assert (Hr : visible (String.concat EmptyString (fst r))
                +:+ visible (String.concat EmptyString (snd r))
                = visible (String.concat EmptyString (taken ++ chunks2))).
  { subst r. rewrite visible_concat_app.
    destruct chunks2 as [|chunk rest]; [reflexivity|].
    destruct (width <? String.length chunk)%nat; [|reflexivity].
    unfold textwrap._handle_long_word.
    set (stop := if (_ <? String.length chunk)%nat then _ else _). clearbody stop.
    cbn [fst snd]. rewrite visible_concat_app, !concat_cons, !visible_append.
    cbn [String.concat]. rewrite <- (prefix_suffix stop chunk) at 3.
    rewrite visible_append, !append_assoc. reflexivity. }
  destruct r as [cur_line1 chunks3]. cbn [fst snd] in Hr. rewrite <- Hr.
  set (cur_line2 := match last cur_line1 with Some chunk => _ | None => _ end).
  assert (H2 : visible (String.concat EmptyString cur_line2)
               = visible (String.concat EmptyString cur_line1)).
  { subst cur_line2. destruct (last cur_line1) as [b|] eqn:El; [|reflexivity].
    destruct (textwrap.blank b) eqn:Hb; [|reflexivity].
    apply last_Some in El as [init ->]. rewrite removelast_last, visible_concat_app.
    cbn [String.concat]. rewrite (visible_space _ (blank_space _ Hb)), append_empty_r.
    reflexivity. }
  rewrite <- H2. clearbody cur_line2. intros [= <- <-].
  destruct cur_line2; reflexivity.
Qed.

Lemma wrap_loop_visible (width fuel : nat) (lines chunks out : list string) :
  textwrap.wrap_loop fuel width lines chunks = Some out ->
  visible (String.concat EmptyString out)
  = visible (String.concat EmptyString lines)
    +:+ visible (String.concat EmptyString chunks).
Proof.
  revert lines chunks. induction fuel as [|fuel IH]; intros lines chunks.
  - destruct chunks; [|discriminate]. intros [= <-]. rewrite append_empty_r. reflexivity.
  - destruct chunks as [|c rest].
    { intros [= <-]. rewrite append_empty_r. reflexivity. }
    cbn [textwrap.wrap_loop].
    destruct (textwrap.wrap_pass width _ (c :: rest)) as [line chunks'] eqn:Ep.
    apply wrap_pass_visible in Ep. intros Hout. rewrite (IH _ _ Hout), Ep.
    destruct line as [l|]; cbn [from_option id].
    + rewrite visible_concat_app. cbn [String.concat]. rewrite append_assoc.
      reflexivity.
    + reflexivity.
Qed.

Lemma wrap_visible (line : string) (width : nat) :
  1 <= width ->
  visible (String.concat EmptyString (textwrap.wrap line width)) = visible line.
Proof.
  intros Hw. unfold textwrap.wrap, textwrap._wrap_chunks.
  set (chunks := textwrap._split (textwrap._munge_whitespace line)).
  destruct (wrap_loop_spec width (textwrap.weight chunks) [] chunks Hw
              ltac:(lia) ltac:(constructor)) as (out & Hout & _).
  rewrite Hout. change (default [] (Some out)) with out.
  rewrite (wrap_loop_visible _ _ _ _ _ Hout). cbn [String.concat visible].
  rewrite append_nil. subst chunks. unfold textwrap._split.
  pose proof (split_from_concat (textwrap._munge_whitespace line) textwrap.Start
                None None None) as Hcat.
  rewrite split_from_start, append_nil in Hcat. rewrite Hcat. apply visible_munge.
Qed.

Lemma visible_splitlines_upto (n : nat) (s : string) :
  String.length s <= n ->
  visible (String.concat EmptyString (PyStr.splitlines s)) = visible s.
Proof.
  revert s. induction n as [|n IH]; intros s Hlen.
  - destruct s; [reflexivity | simpl in Hlen; lia].
  - destruct s as [|c s']; [reflexivity|]. cbn [String.length] in Hlen.
    cbn [PyStr.splitlines visible].
    destruct (PyStr.is_linebreak c) eqn:Hbreak.
    + rewrite (linebreak_isspace _ Hbreak), concat_cons, append_nil.
      destruct (PyStr.ord c =? 13)%N; [|apply IH; lia].
      destruct s' as [|c' s'']; [reflexivity|].
      destruct (PyStr.ord c' =? 10)%N eqn:Hlf; [|apply IH; lia].
      cbn [visible String.length] in *.
      assert (Hsp : PyStr.isspace c' = true).
      { unfold PyStr.isspace. cbv zeta. apply N.eqb_eq in Hlf. rewrite Hlf.
        reflexivity. }
      rewrite Hsp. apply IH. lia.
    + assert (Hcat : String.concat EmptyString
                       match PyStr.splitlines s' with
                       | [] => [String c EmptyString]
                       | l :: ls => String c l :: ls
                       end
                     = String c (String.concat EmptyString (PyStr.splitlines s'))).
      { destruct (PyStr.splitlines s') as [|l ls]; [reflexivity|].
        rewrite !concat_cons, append_cons. reflexivity. }
      rewrite Hcat. cbn [visible]. rewrite (IH s') by lia. reflexivity.
Qed.

Lemma or_blank_concat (xs : list string) :
  String.concat EmptyString (or_blank xs) = String.concat EmptyString xs.
Proof. destruct xs; reflexivity. Qed.

(** X11.  Wrapping loses white space only: the wrapped lines of a text,
    read one after the other, hold the characters of the text that are no
    white space, all of them and in their order. *)
Theorem wrapped_lines_visible (text : string) :
  visible (String.concat EmptyString (wrapped_lines text)) = visible text.
Proof.
  unfold wrapped_lines.
  rewrite <- (visible_splitlines_upto (String.length text) text) by lia.
  rewrite <- (or_blank_concat (PyStr.splitlines text)).
  induction (or_blank (PyStr.splitlines text)) as [|line lines IH]; [reflexivity|].
  cbn [flat_map]. rewrite visible_concat_app, IH, or_blank_concat.
  rewrite wrap_visible by lia. rewrite concat_cons, visible_append. reflexivity.
Qed.

(** ** What a run of [main] leaves behind *)

(** What [load_updates] returns went through the sampler. *)
Lemma load_updates_sampled (json_loads : string -> option json)
  (w : world) (p : path) (us : list string) :
  load_updates json_loads w p = Ok us ->
  exists updates, sample updates = Ok us.
Proof.
  unfold load_updates. destruct (read_text w p) as [content|]; [|discriminate].
  cbn [bind]. unfold load_updates_text.
  destruct (scan_lines json_loads _ _) as [st|]; [|discriminate]. cbn [bind].
  unfold finish. destruct (with_summary st) as [|x l]; [discriminate|]. eauto.
Qed.

Section MainOutcomes.

Variable json_loads : string -> option json.
Variable ROOT : path.

(** X12.  The directory of the output is made before the log is read: once
    it can be made it is there after the run, and so is every directory
    that was there before, also when [main] ends with an exception. *)
Theorem main_makes_directory (w : world) :
  snd (mkdir w (removelast (OUT_PATH ROOT))) = Ok tt ->
  removelast (OUT_PATH ROOT) ∈ dirs (fst (main json_loads ROOT w))
  /\ dirs w ⊆ dirs (fst (main json_loads ROOT w)).
Proof.
  intros Hmk. destruct (mkdir w (removelast (OUT_PATH ROOT))) as [w1 r] eqn:E.
  simpl in Hmk. subst r.
  assert (Hdir : removelast (OUT_PATH ROOT) ∈ dirs w1 /\ dirs w ⊆ dirs w1).
  { split.
    - apply (mkdir_dirs w); [|exact E]. rewrite out_parent.
      intros H. apply app_eq_nil in H as [_ H]. discriminate.
    - apply mkdir_ok in E as [_ ->]. cbn [dirs]. set_solver. }
  unfold main. rewrite E.
  destruct (load_updates json_loads w1 (LOG_PATH ROOT)) as [us|]; [|exact Hdir].
  unfold assemble. destruct (durations _) as [ds|]; [|exact Hdir].
  unfold save. destruct (map _ us) as [|fr frs]; [exact Hdir|].
  destruct (bool_decide _); exact Hdir.
Qed.

(** X14.  The animation of a run without an exception has 1 frame at
    least and 23 at most, however long the log is, one hold time for each
    frame, the loop count 0 and the optimisation switched on. *)
Theorem main_frame_count (w : world) :
  snd (main json_loads ROOT w) = Ok tt ->
  exists a,
    files (fst (main json_loads ROOT w)) !! OUT_PATH ROOT = Some (ImageFile a)
    /\ 1 <= length (frames a) <= 23
    /\ length (duration a) = length (frames a)
    /\ loop a = 0%Z
    /\ optimize a = true.
Proof.
  intros Hok. destruct (main_ok_inv json_loads ROOT w Hok) as (w1 & us & Hmk & Hload).
  destruct (main_ok json_loads ROOT w w1 us Hmk Hload) as (ds & Hds & ->).
  cbn [fst files]. eexists. split; [apply lookup_insert_eq|].
  cbn [frames duration loop optimize]. rewrite length_map.
  pose proof (load_updates_nonempty _ _ _ _ Hload) as Hne.
  destruct (load_updates_sampled _ _ _ _ Hload) as (updates & Hs).
  pose proof (proj1 (sample_length _ _ Hs)) as Hle.
  assert (H1 : 1 <= length us) by (destruct us; [congruence | simpl; lia]).
  destruct (durations_spec (length us) H1) as (ds' & Hds' & Hlen & _).
  rewrite Hds in Hds'. injection Hds' as <-. auto.
Qed.

End MainOutcomes.

(** ** The further properties on concrete logs *)

Lemma load_updates_type_fault_witness :
  let w := Demo.world_of Samples.faulty_log in
  let p := LOG_PATH Demo.ROOT in
  (files w !! p = Some (TextFile Samples.faulty_log)
   /\ Exists (fun event => well_formed_event event = false)
        (events Json.loads Samples.faulty_log))
  /\ exists e, load_updates Json.loads w p = Raise e /\ is_type_fault e = true.
Proof.
  intros w p.
  assert (H : files w !! p = Some (TextFile Samples.faulty_log)
              /\ Exists (fun event => well_formed_event event = false)
                   (events Json.loads Samples.faulty_log)).
  { split; [vm_compute; reflexivity|].
    assert (E : events Json.loads Samples.faulty_log
                = [Demo.update_event "searching..."; JInt 5; Demo.end_event "found it"])
      by (vm_compute; reflexivity).
    rewrite E. apply Exists_cons_tl, Exists_cons_hd. reflexivity. }
  split; [exact H|]. destruct H as [H1 H2].
  exact (load_updates_type_fault Json.loads w p Samples.faulty_log H1 H2).
Defined.

Lemma load_updates_length_witness :
  let w := Demo.world_of Samples.numbered_log in
  let p := LOG_PATH Demo.ROOT in
  let us := map (fun i => repeat_char "x" (S (2 * i))) (seq 0 15)
            ++ [repeat_char "x" 30] in
  load_updates Json.loads w p = Ok us /\ 1 <= length us <= 23.
Proof.
  intros w p us.
  assert (H : load_updates Json.loads w p = Ok us) by (vm_compute; reflexivity).
  split; [exact H|]. exact (load_updates_length Json.loads w p us H).
Defined.

Lemma sample_stride_witness :
  let updates := Samples.numbered 30 in
  let sampled := map (fun i => repeat_char "x" (S (2 * i))) (seq 0 15)
                 ++ [repeat_char "x" 30] in
  (14 < length updates
   /\ sample updates = Ok sampled
   /\ 7 * Nat.max 1 (length updates / 12) < length updates)
  /\ sampled !! 7 = updates !! (7 * Nat.max 1 (length updates / 12)).
Proof.
  intros updates sampled.
  assert (H : 14 < length updates
              /\ sample updates = Ok sampled
              /\ 7 * Nat.max 1 (length updates / 12) < length updates).
  { split; [vm_compute; lia|]. split; [vm_compute; reflexivity | vm_compute; lia]. }
  split; [exact H|]. destruct H as (H1 & H2 & H3).
  exact (sample_stride updates sampled 7 H1 H2 H3).
Defined.

Lemma load_updates_provenance_witness :
  let w := Demo.world_of Demo.scenario_log in
  let p := LOG_PATH Demo.ROOT in
  let us := [ "searching..."; "searching... (2 files)";
              "Done." +:+ PyStr.LF +:+ "found 1 match" +:+ PyStr.LF +:+ "in file.py" ] in
  (files w !! p = Some (TextFile Demo.scenario_log)
   /\ load_updates Json.loads w p = Ok us)
  /\ exists closing,
       us `sublist_of` omap update_text (events Json.loads Demo.scenario_log) ++ closing
       /\ (closing = []
           \/ exists event t,
                event ∈ events Json.loads Demo.scenario_log
                /\ end_text event = Some t /\ closing = [done_entry t])
       /\ Forall (fun u => PyStr.truthy u = true) us.
Proof.
  intros w p us.
  assert (H : files w !! p = Some (TextFile Demo.scenario_log)
              /\ load_updates Json.loads w p = Ok us).
  { split; vm_compute; reflexivity. }
  split; [exact H|]. destruct H as [H1 H2].
  exact (load_updates_provenance Json.loads w p Demo.scenario_log us H1 H2).
Defined.

Lemma load_updates_ignores_other_events_witness :
  let content' := Demo.log [Demo.update_line "searching..."; Demo.end_line "found it"] in
  let w := Demo.world_of Samples.mixed_log in
  let w' := Demo.world_of content' in
  let p := LOG_PATH Demo.ROOT in
  (files w !! p = Some (TextFile Samples.mixed_log)
   /\ files w' !! p = Some (TextFile content')
   /\ PyStr.splitlines content'
      = List.filter
          (fun l => negb match decode Json.loads l with
                         | Some event => other_event event
                         | None => false
                         end)
          (PyStr.splitlines Samples.mixed_log))
  /\ load_updates Json.loads w p = load_updates Json.loads w' p.
Proof.
  intros content' w w' p.
  assert (H : files w !! p = Some (TextFile Samples.mixed_log)
              /\ files w' !! p = Some (TextFile content')
              /\ PyStr.splitlines content'
                 = List.filter
                     (fun l => negb match decode Json.loads l with
                                    | Some event => other_event event
                                    | None => false
                                    end)
                     (PyStr.splitlines Samples.mixed_log)).
  { repeat split; vm_compute; reflexivity. }
  split; [exact H|]. destruct H as (H1 & H2 & H3).
  exact (load_updates_ignores_other_events Json.loads w w' p Samples.mixed_log
           content' H1 H2 H3).
Defined.

Lemma main_writes_output_only_witness :
  let w := Demo.world_of Demo.scenario_log in
  let us := [ "searching..."; "searching... (2 files)";
              "Done." +:+ PyStr.LF +:+ "found 1 match" +:+ PyStr.LF +:+ "in file.py" ] in
  let w' := fst (main Json.loads Demo.ROOT w) in
  ((OUT_PATH Demo.ROOT ∉ dirs w)
   /\ snd (mkdir w (removelast (OUT_PATH Demo.ROOT))) = Ok tt
   /\ load_updates Json.loads w (LOG_PATH Demo.ROOT) = Ok us)
  /\ snd (main Json.loads Demo.ROOT w) = Ok tt
  /\ (exists a, files w' !! OUT_PATH Demo.ROOT = Some (ImageFile a)
                /\ frames a = map (fun u => terminal_frame u (load_font w)) us)
  /\ (forall q, q <> OUT_PATH Demo.ROOT -> files w' !! q = files w !! q)
  /\ files w' !! LOG_PATH Demo.ROOT = files w !! LOG_PATH Demo.ROOT
  /\ stdout w' = stdout w ++ ["wrote " +:+ path_str (OUT_PATH Demo.ROOT)]
  /\ (files_apart w -> files_apart w').
Proof.
  intros w us w'.
  assert (H : (OUT_PATH Demo.ROOT ∉ dirs w)
              /\ snd (mkdir w (removelast (OUT_PATH Demo.ROOT))) = Ok tt
              /\ load_updates Json.loads w (LOG_PATH Demo.ROOT) = Ok us).
  { split; [apply not_elem_of_empty|]. split; vm_compute; reflexivity. }
  split; [exact H|]. destruct H as (H0 & H1 & H2).
  exact (main_writes_output_only Json.loads Demo.ROOT w us H0 H1 H2).
Defined.

Lemma main_load_failure_witness :
  let w := Demo.world_of Samples.faulty_log in
  (snd (mkdir w (removelast (OUT_PATH Demo.ROOT))) = Ok tt
   /\ load_updates Json.loads w (LOG_PATH Demo.ROOT) = Raise AttributeError)
  /\ snd (main Json.loads Demo.ROOT w) = Raise AttributeError
  /\ files (fst (main Json.loads Demo.ROOT w)) = files w
  /\ stdout (fst (main Json.loads Demo.ROOT w)) = stdout w.
Proof.
  intros w.
  assert (H : snd (mkdir w (removelast (OUT_PATH Demo.ROOT))) = Ok tt
              /\ load_updates Json.loads w (LOG_PATH Demo.ROOT) = Raise AttributeError).
  { split; vm_compute; reflexivity. }
  split; [exact H|]. destruct H as [H1 H2].
  exact (main_load_failure Json.loads Demo.ROOT w AttributeError H1 H2).
Defined.


Lemma main_twice_witness :
  let w := Demo.world_of Demo.scenario_log in
  let w' := fst (main Json.loads Demo.ROOT w) in
  snd (main Json.loads Demo.ROOT w) = Ok tt
  /\ snd (main Json.loads Demo.ROOT w') = Ok tt
  /\ files (fst (main Json.loads Demo.ROOT w')) = files w'.
Proof.
  intros w w'.
  assert (H : snd (main Json.loads Demo.ROOT w) = Ok tt) by (vm_compute; reflexivity).
  split; [exact H|]. exact (main_twice Json.loads Demo.ROOT w H).
Defined.

Lemma main_makes_directory_witness :
  let w := Demo.world_of Demo.idle_log in
  snd (mkdir w (removelast (OUT_PATH Demo.ROOT))) = Ok tt
  /\ removelast (OUT_PATH Demo.ROOT) ∈ dirs (fst (main Json.loads Demo.ROOT w))
  /\ dirs w ⊆ dirs (fst (main Json.loads Demo.ROOT w)).
Proof.
  intros w.
  assert (H : snd (mkdir w (removelast (OUT_PATH Demo.ROOT))) = Ok tt)
    by (vm_compute; reflexivity).
  split; [exact H|]. exact (main_makes_directory Json.loads Demo.ROOT w H).
Defined.

Lemma main_frame_count_witness :
  let w := Demo.world_of Samples.numbered_log in
  snd (main Json.loads Demo.ROOT w) = Ok tt
  /\ exists a,
       files (fst (main Json.loads Demo.ROOT w)) !! OUT_PATH Demo.ROOT
       = Some (ImageFile a)
       /\ 1 <= length (frames a) <= 23
       /\ length (duration a) = length (frames a)
       /\ loop a = 0%Z
       /\ optimize a = true.
Proof.
  intros w.
  assert (H : snd (main Json.loads Demo.ROOT w) = Ok tt) by (vm_compute; reflexivity).
  split; [exact H|]. exact (main_frame_count Json.loads Demo.ROOT w H).
Defined.
